(** * make_transaction.py: the NEM transfer-transaction encoder

    A shallow embedding of [src/code/make_transaction.py] (class
    [TransactionCreator]) and the properties of its byte layout.

    Python values are modelled as follows.
    - [int] is [Z] (unbounded).
    - [float] is an IEEE 754 binary64 value, [spec_float] at precision 53
      and maximal exponent 1024, with the operations of [SpecFloat]
      (round to nearest, ties to even, as CPython computes on doubles).
    - [bytes] is [list byte].
    - [str] is the list of its Unicode code points.
    - a raised exception is the [Err] case of [result]; the object [self]
      is threaded explicitly, since an exception leaves the assignments made
      before it in place. *)

From Stdlib Require Import Strings.String Strings.Ascii Strings.Byte.
From Stdlib Require Import ZArith List Bool Lia.
From Stdlib Require Import Floats.SpecFloat.
Import ListNotations.
Local Open Scope Z_scope.

(** ** Exceptions and results *)

(** The exceptions the module can raise.  The specification's names for
    them: [KeyError] is its UnknownTransactionKind, [InvalidMessageTypeError]
    (the bare [Exception] raised by [set_message_info]) its
    InvalidMessageType, [OverflowError] its EncodingError. *)
Inductive exn : Type :=
| KeyError
| InvalidMessageTypeError
| OverflowError
| ValueError
| UnicodeEncodeError
| ZeroDivisionError
| AttributeError
| TypeError.

Inductive result (A : Type) : Type :=
| Ok (a : A)
| Err (e : exn).
Arguments Ok {A} a.
Arguments Err {A} e.

Definition is_ok {A} (r : result A) : bool :=
  match r with Ok _ => true | Err _ => false end.

Definition rbind {A B} (r : result A) (k : A -> result B) : result B :=
  match r with
  | Ok a => k a
  | Err e => Err e
  end.

Declare Scope result_scope.
Delimit Scope result_scope with result.
Notation "x <- r ;; k" := (rbind r (fun x => k))
  (at level 61, r at next level, right associativity) : result_scope.

(** ** Bytes *)

Definition bytes := list byte.

Definition byte_of_Z (z : Z) : byte :=
  match Byte.of_N (Z.to_N (z mod 256)) with
  | Some b => b
  | None => x00
  end.

Definition Z_of_byte (b : byte) : Z := Z.of_N (Byte.to_N b).

(** The [n] low-order base-256 digits of [v], least significant first. *)
Fixpoint le_digits (n : nat) (v : Z) : bytes :=
  match n with
  | O => []
  | S n' => byte_of_Z v :: le_digits n' (v / 256)
  end.

(** [int.to_bytes(length, 'little')] (unsigned): [ValueError] on a negative
    length, [OverflowError] on a negative value or one that needs more than
    [length] bytes. *)
Definition to_bytes_little (value length : Z) : result bytes :=
  if length <? 0 then Err ValueError
  else if value <? 0 then Err OverflowError
  else if 2 ^ (8 * length) <=? value then Err OverflowError
  else Ok (le_digits (Z.to_nat length) value).

(** [int.from_bytes(b, 'little')]: the reading of a field that the
    properties below call "decodes little-endian to". *)
Fixpoint from_bytes_little (b : bytes) : Z :=
  match b with
  | [] => 0
  | x :: b' => Z_of_byte x + 256 * from_bytes_little b'
  end.

(** [TransactionCreator.convert_number_to_byte]:
    [return value.to_bytes(byte_num, 'little')]. *)
Definition convert_number_to_byte (value byte_num : Z) : result bytes :=
  to_bytes_little value byte_num.

(** ** Strings *)

(** A Python [str]: the sequence of its code points. *)
Definition pystr := list N.

(** A literal of the source; its characters are ASCII. *)
Definition str (s : string) : pystr :=
  map N_of_ascii (list_ascii_of_string s).

Definition pystr_eq_dec : forall a b : pystr, {a = b} + {a <> b} :=
  list_eq_dec N.eq_dec.

Definition pystr_eqb (a b : pystr) : bool :=
  if pystr_eq_dec a b then true else false.

(** [len(s)] *)
Definition len {A} (l : list A) : Z := Z.of_nat (List.length l).

(** One code point in UTF-8.  A surrogate cannot be encoded
    ([UnicodeEncodeError]); no [str] holds a value above U+10FFFF. *)
Definition utf8_char (c : N) : result bytes :=
  let ch := Z.of_N c in
  if ch <? 0x80 then Ok [byte_of_Z ch]
  else if ch <? 0x800 then
    Ok [byte_of_Z (Z.lor 0xC0 (Z.shiftr ch 6));
        byte_of_Z (Z.lor 0x80 (Z.land ch 0x3F))]
  else if (0xD800 <=? ch) && (ch <=? 0xDFFF) then Err UnicodeEncodeError
  else if ch <? 0x10000 then
    Ok [byte_of_Z (Z.lor 0xE0 (Z.shiftr ch 12));
        byte_of_Z (Z.lor 0x80 (Z.land (Z.shiftr ch 6) 0x3F));
        byte_of_Z (Z.lor 0x80 (Z.land ch 0x3F))]
  else if ch <? 0x110000 then
    Ok [byte_of_Z (Z.lor 0xF0 (Z.shiftr ch 18));
        byte_of_Z (Z.lor 0x80 (Z.land (Z.shiftr ch 12) 0x3F));
        byte_of_Z (Z.lor 0x80 (Z.land (Z.shiftr ch 6) 0x3F));
        byte_of_Z (Z.lor 0x80 (Z.land ch 0x3F))]
  else Err UnicodeEncodeError.

(** [s.encode('utf-8')] *)
Fixpoint encode_utf8 (s : pystr) : result bytes :=
  match s with
  | [] => Ok []
  | c :: s' =>
      (b <- utf8_char c ;;
       r <- encode_utf8 s' ;;
       Ok (b ++ r))%result
  end.

(** The character of a hexadecimal digit, lower case: ['0'..'9', 'a'..'f']. *)
Definition hex_digit (d : Z) : N :=
  Z.to_N (if d <? 10 then 48 + d else 87 + d).

(** [b.hex()]: two lower-case digits per byte, high nibble first. *)
Definition bytes_hex (b : bytes) : pystr :=
  flat_map (fun x => [hex_digit (Z_of_byte x / 16);
                      hex_digit (Z_of_byte x mod 16)]) b.

(** *** [int(s, 16)]

    CPython's [PyLong_FromUnicodeObject] at base 16.  The string first
    goes through [_PyUnicode_TransformDecimalAndSpaceToASCII]: in a
    string that is not all ASCII, a white-space character becomes a
    blank and a decimal digit of any script its ASCII digit, and the
    string is cut after the first other character from U+007F on, which
    becomes a question mark.  [PyLong_FromString] then reads white space
    around the literal, an optional sign, an optional [0x] prefix (one
    underscore may follow it), then digits with single underscores
    between them.  The tables of the white space and of the decimal
    digits are those of Unicode 14.0.0 (CPython 3.11). *)

(** [Py_UNICODE_ISSPACE] from U+007F on *)
Definition unicode_isspace (c : N) : bool :=
  ((c =? 0x85) || (c =? 0xA0) || (c =? 0x1680) ||
   ((0x2000 <=? c) && (c <=? 0x200A)) ||
   (c =? 0x2028) || (c =? 0x2029) || (c =? 0x202F) || (c =? 0x205F) ||
   (c =? 0x3000))%N.

(** The digit zero of every script with decimal digits (general category
    Nd) outside ASCII; the digits one to nine follow it. *)
Definition unicode_decimal_zeros : list N :=
  [ 1632; 1776; 1984; 2406; 2534; 2662; 2790; 2918; 3046; 3174; 3302; 3430;
    3558; 3664; 3792; 3872; 4160; 4240; 6112; 6160; 6470; 6608; 6784; 6800;
    6992; 7088; 7232; 7248; 42528; 43216; 43264; 43472; 43504; 43600; 44016;
    65296; 66720; 68912; 69734; 69872; 69942; 70096; 70384; 70736; 70864;
    71248; 71360; 71472; 71904; 72016; 72784; 73040; 73120; 92768; 92864;
    93008; 120782; 120792; 120802; 120812; 120822; 123200; 123632; 125264;
    130032 ]%N.

(** [Py_UNICODE_TODECIMAL] from U+007F on *)
Definition unicode_decimal (c : N) : option N :=
  match find (fun z => (z <=? c) && (c <? z + 10))%N unicode_decimal_zeros with
  | Some z => Some (c - z)%N
  | None => None
  end.

(** The loop of [_PyUnicode_TransformDecimalAndSpaceToASCII] *)
Fixpoint transform_chars (s : pystr) : pystr :=
  match s with
  | [] => []
  | ch :: s' =>
      if (ch <? 127)%N then ch :: transform_chars s'
      else if unicode_isspace ch then 32%N :: transform_chars s'
      else
        match unicode_decimal ch with
        | Some decimal => (48 + decimal)%N :: transform_chars s'
        | None => [63%N]
        end
  end.

(** An ASCII string is returned as it is. *)
Definition transform_decimal_and_space_to_ascii (s : pystr) : pystr :=
  if forallb (fun ch => (ch <? 128)%N) s then s else transform_chars s.

(** [Py_ISSPACE] *)
Definition py_isspace (c : N) : bool :=
  ((c =? 32) || ((9 <=? c) && (c <=? 13)))%N.

(** [_PyLong_DigitValue] *)
Definition digit_value (c : N) : option Z :=
  if ((48 <=? c) && (c <=? 57))%N then Some (Z.of_N c - 48)
  else if ((97 <=? c) && (c <=? 122))%N then Some (Z.of_N c - 87)
  else if ((65 <=? c) && (c <=? 90))%N then Some (Z.of_N c - 55)
  else None.

Fixpoint skip_space (s : pystr) : pystr :=
  match s with
  | c :: s' => if py_isspace c then skip_space s' else s
  | [] => []
  end.

(** The validation loop of [long_from_binary_base] together with the
    accumulation of the value: it stops at the first character that is
    neither a digit of the base nor an underscore, and fails on two
    underscores in a row and on a trailing underscore.  It returns the
    value, the number of digits read and the rest of the input. *)
Fixpoint scan_digits (base : Z) (s : pystr) (prev_underscore : bool)
    (acc : Z) (ndigits : nat) : option (Z * nat * pystr) :=
  let stop := if prev_underscore then None else Some (acc, ndigits, s) in
  match s with
  | [] => stop
  | c :: s' =>
      if (c =? 95)%N then
        if prev_underscore then None
        else scan_digits base s' true acc ndigits
      else
        match digit_value c with
        | Some d =>
            if d <? base
            then scan_digits base s' false (acc * base + d) (S ndigits)
            else stop
        | None => stop
        end
  end.

(** [PyLong_FromString] at base 16, on a string that has been made
    ASCII *)
Definition long_from_string_16 (s : pystr) : result Z :=
  let s1 := skip_space s in
  let '(negative, s2) :=
    match s1 with
    | 43%N :: r => (false, r)
    | 45%N :: r => (true, r)
    | _ => (false, s1)
    end in
  let s3 :=
    match s2 with
    | 48%N :: x :: r =>
        if ((x =? 120) || (x =? 88))%N
        then match r with 95%N :: r' => r' | _ => r end
        else s2
    | _ => s2
    end in
  match s3 with
  | 95%N :: _ => Err ValueError
  | _ =>
      match scan_digits 16 s3 false 0 0 with
      | None => Err ValueError
      | Some (_, O, _) => Err ValueError
      | Some (v, S _, rest) =>
          match skip_space rest with
          | [] => Ok (if negative then - v else v)
          | _ :: _ => Err ValueError
          end
      end
  end.

(** [int(s, 16)] on a [str] *)
Definition int_base16 (s : pystr) : result Z :=
  long_from_string_16 (transform_decimal_and_space_to_ascii s).

(** ** Numbers *)

(** binary64 *)
Definition prec : Z := 53.
Definition emax : Z := 1024.

Definition float := spec_float.

Definition fmul : float -> float -> float := SFmul prec emax.
Definition fadd : float -> float -> float := SFadd prec emax.
Definition fdiv : float -> float -> float := SFdiv prec emax.
Definition flt : float -> float -> bool := SFltb.
Definition fle : float -> float -> bool := SFleb.

(** A Python number: [int] or [float]. *)
Inductive pynum : Type :=
| PyInt (z : Z)
| PyFloat (f : float).

(** [float(z)] for an [int]: the nearest double; [OverflowError] when it
    is out of range. *)
Definition float_of_int (z : Z) : result float :=
  match binary_normalize prec emax z 0 false with
  | S754_infinity _ => Err OverflowError
  | f => Ok f
  end.

(** [int(f)] for a [float]: truncation towards zero; a NaN raises
    [ValueError], an infinity [OverflowError]. *)
Definition int_of_float (f : float) : result Z :=
  match f with
  | S754_nan => Err ValueError
  | S754_infinity _ => Err OverflowError
  | S754_zero _ => Ok 0
  | S754_finite s m e => Ok (cond_Zopp s (Z.shiftl (Zpos m) e))
  end.

(** An [int] as the pair of an integer significand and exponent 0; it is
    an operand of the division below, not a double. *)
Definition exact_of_int (z : Z) : float :=
  match z with
  | Z0 => S754_zero false
  | Zpos p => S754_finite false p 0
  | Zneg p => S754_finite true p 0
  end.

(** [a / b] on two [int]: the correctly rounded quotient of the exact
    integers ([long_true_divide]); [OverflowError] when it is out of
    range. *)
Definition int_truediv (a b : Z) : result float :=
  if b =? 0 then Err ZeroDivisionError
  else
    match fdiv (exact_of_int a) (exact_of_int b) with
    | S754_infinity _ => Err OverflowError
    | f => Ok f
    end.

Definition is_zero (f : float) : bool :=
  match f with S754_zero _ => true | _ => false end.

(** [a / b] on two [float] *)
Definition float_truediv (a b : float) : result float :=
  if is_zero b then Err ZeroDivisionError else Ok (fdiv a b).

Definition as_float (x : pynum) : result float :=
  match x with
  | PyInt z => float_of_int z
  | PyFloat f => Ok f
  end.

(** [x / y] *)
Definition py_truediv (x y : pynum) : result float :=
  match x, y with
  | PyInt a, PyInt b => int_truediv a b
  | _, _ =>
      (a <- as_float x ;;
       b <- as_float y ;;
       float_truediv a b)%result
  end.

(** [x * y] *)
Definition py_mul (x y : pynum) : result pynum :=
  match x, y with
  | PyInt a, PyInt b => Ok (PyInt (a * b))
  | _, _ =>
      (a <- as_float x ;;
       b <- as_float y ;;
       Ok (PyFloat (fmul a b)))%result
  end.

(** [x + y] *)
Definition py_add (x y : pynum) : result pynum :=
  match x, y with
  | PyInt a, PyInt b => Ok (PyInt (a + b))
  | _, _ =>
      (a <- as_float x ;;
       b <- as_float y ;;
       Ok (PyFloat (fadd a b)))%result
  end.

(** [int(x)] *)
Definition py_int (x : pynum) : result Z :=
  match x with
  | PyInt z => Ok z
  | PyFloat f => int_of_float f
  end.

(** [min(a, b)] and [max(a, b)] on two [float]: the first argument is
    kept unless the second is strictly smaller (larger). *)
Definition py_min (a b : float) : float := if flt b a then b else a.
Definition py_max (a b : float) : float := if flt a b then b else a.

(** The literals of the source, as the doubles nearest to them. *)
Definition f_0_05 : float := S754_finite false 7205759403792794 (-57).
Definition f_1_25 : float := S754_finite false 5629499534213120 (-52).
Definition f_1000000 : float := S754_finite false 8589934592000000 (-33).

(** ** The module *)

Definition TRANSACTION_TYPE : list (pystr * Z) :=
  [ (str "transfer", 0x0101);
    (str "importance_transfer", 0x0801);
    (str "multisig_aggregate_modification", 0x1001);
    (str "multisig_signature", 0x1002);
    (str "multisig", 0x1004);
    (str "provision_namespace", 0x2001);
    (str "mosaic_definition_creation", 0x4001);
    (str "mosaic_supply_change", 0x4002) ].

(** [d[key]]: the value of the first entry with the key, [KeyError] when
    there is none. *)
Fixpoint dict_get (d : list (pystr * Z)) (key : pystr) : result Z :=
  match d with
  | [] => Err KeyError
  | (k, v) :: d' => if pystr_eqb k key then Ok v else dict_get d' key
  end.

(** A value that is a [str] or a [bytes]: [self.message_type] is first the
    one, and [set_message_info] rebinds it to the other. *)
Inductive str_or_bytes : Type :=
| AStr (s : pystr)
| ABytes (b : bytes).

(** An instance of [TransactionCreator].  The attributes [payload],
    [message_field] and [payload_length] do not exist until a method
    assigns them. *)
Record TransactionCreator : Type := mkTransactionCreator {
  nem_to_micronem : float;
  deadline_span : Z;
  public_key : pystr;
  amount : pynum;
  address : pystr;
  message : option pystr;
  message_type : str_or_bytes;
  transaction_type : pystr;
  network_type : pystr;
  common_data : bytes;
  transfer_data : bytes;
  payload : option bytes;
  message_field : option bytes;
  payload_length : option bytes
}.

(** [__init__], all arguments given *)
Definition init (public_key : pystr) (amount : pynum) (address : pystr)
    (message : option pystr) (message_type : pystr)
    (transaction_type : pystr) (network_type : pystr) : TransactionCreator :=
  {| nem_to_micronem := f_1000000;
     deadline_span := 3600;
     public_key := public_key;
     amount := amount;
     address := address;
     message := message;
     message_type := AStr message_type;
     transaction_type := transaction_type;
     network_type := network_type;
     common_data := [];
     transfer_data := [];
     payload := None;
     message_field := None;
     payload_length := None |}.

(** [__init__] with the defaults [message_type='plane'],
    [transaction_type='transfer'], [network_type='test'] *)
Definition init_default (public_key : pystr) (amount : pynum)
    (address : pystr) (message : option pystr) : TransactionCreator :=
  init public_key amount address message
       (str "plane") (str "transfer") (str "test").

(** The same object with another [address] *)
Definition set_address (v : pystr) (self : TransactionCreator) :=
  {| nem_to_micronem := nem_to_micronem self;
     deadline_span := deadline_span self;
     public_key := public_key self;
     amount := amount self;
     address := v;
     message := message self;
     message_type := message_type self;
     transaction_type := transaction_type self;
     network_type := network_type self;
     common_data := common_data self;
     transfer_data := transfer_data self;
     payload := payload self;
     message_field := message_field self;
     payload_length := payload_length self |}.

Definition set_message_type (v : str_or_bytes) (self : TransactionCreator) :=
  {| nem_to_micronem := nem_to_micronem self;
     deadline_span := deadline_span self;
     public_key := public_key self;
     amount := amount self;
     address := address self;
     message := message self;
     message_type := v;
     transaction_type := transaction_type self;
     network_type := network_type self;
     common_data := common_data self;
     transfer_data := transfer_data self;
     payload := payload self;
     message_field := message_field self;
     payload_length := payload_length self |}.

Definition set_payload (v : bytes) (self : TransactionCreator) :=
  {| nem_to_micronem := nem_to_micronem self;
     deadline_span := deadline_span self;
     public_key := public_key self;
     amount := amount self;
     address := address self;
     message := message self;
     message_type := message_type self;
     transaction_type := transaction_type self;
     network_type := network_type self;
     common_data := common_data self;
     transfer_data := transfer_data self;
     payload := Some v;
     message_field := message_field self;
     payload_length := payload_length self |}.

Definition set_message_field (v : bytes) (self : TransactionCreator) :=
  {| nem_to_micronem := nem_to_micronem self;
     deadline_span := deadline_span self;
     public_key := public_key self;
     amount := amount self;
     address := address self;
     message := message self;
     message_type := message_type self;
     transaction_type := transaction_type self;
     network_type := network_type self;
     common_data := common_data self;
     transfer_data := transfer_data self;
     payload := payload self;
     message_field := Some v;
     payload_length := payload_length self |}.

Definition set_payload_length (v : bytes) (self : TransactionCreator) :=
  {| nem_to_micronem := nem_to_micronem self;
     deadline_span := deadline_span self;
     public_key := public_key self;
     amount := amount self;
     address := address self;
     message := message self;
     message_type := message_type self;
     transaction_type := transaction_type self;
     network_type := network_type self;
     common_data := common_data self;
     transfer_data := transfer_data self;
     payload := payload self;
     message_field := message_field self;
     payload_length := Some v |}.

Definition set_common_data (v : bytes) (self : TransactionCreator) :=
  {| nem_to_micronem := nem_to_micronem self;
     deadline_span := deadline_span self;
     public_key := public_key self;
     amount := amount self;
     address := address self;
     message := message self;
     message_type := message_type self;
     transaction_type := transaction_type self;
     network_type := network_type self;
     common_data := v;
     transfer_data := transfer_data self;
     payload := payload self;
     message_field := message_field self;
     payload_length := payload_length self |}.

Definition set_transfer_data (v : bytes) (self : TransactionCreator) :=
  {| nem_to_micronem := nem_to_micronem self;
     deadline_span := deadline_span self;
     public_key := public_key self;
     amount := amount self;
     address := address self;
     message := message self;
     message_type := message_type self;
     transaction_type := transaction_type self;
     network_type := network_type self;
     common_data := common_data self;
     transfer_data := v;
     payload := payload self;
     message_field := message_field self;
     payload_length := payload_length self |}.

(** ** Methods

    A method runs on a state made of the object and of the number of
    clock readings taken so far, and either returns a value or raises; in
    both cases the assignments it made to the object stay. *)

Definition state : Type := TransactionCreator * nat.

Definition M (A : Type) : Type := state -> result A * state.

Definition ret {A} (a : A) : M A := fun st => (Ok a, st).

Definition raise {A} (e : exn) : M A := fun st => (Err e, st).

Definition bind {A B} (m : M A) (k : A -> M B) : M B :=
  fun st =>
    match m st with
    | (Ok a, st') => k a st'
    | (Err e, st') => (Err e, st')
    end.

Definition lift {A} (r : result A) : M A := fun st => (r, st).

Definition get_self : M TransactionCreator := fun st => (Ok (fst st), st).

Definition assign (f : TransactionCreator -> TransactionCreator) : M unit :=
  fun st => (Ok tt, (f (fst st), snd st)).

(** A method that only reads the object *)
Definition call {A} (f : TransactionCreator -> result A) : M A :=
  fun st => (f (fst st), st).

Declare Scope method_scope.
Delimit Scope method_scope with M.
Notation "x <- m ;; k" := (bind m (fun x => k))
  (at level 61, m at next level, right associativity) : method_scope.
Notation "m ;; k" := (bind m (fun _ => k))
  (at level 61, right associativity) : method_scope.

(** [if x:] on a value that is [None] or a [str] *)
Definition truthy (x : option pystr) : bool :=
  match x with
  | Some (_ :: _) => true
  | _ => false
  end.

(** Reading an attribute that may not exist yet *)
Definition attr {A} (x : option A) : result A :=
  match x with
  | Some a => Ok a
  | None => Err AttributeError
  end.

Definition set_message_info : M unit :=
  (self <- get_self ;;
   match message_type self with
   | AStr s =>
       if pystr_eqb s (str "plane") then
         b <- lift (convert_number_to_byte 1 4) ;;
         assign (set_message_type (ABytes b))
       else if pystr_eqb s (str "encryption") then
         b <- lift (convert_number_to_byte 2 4) ;;
         assign (set_message_type (ABytes b))
       else raise InvalidMessageTypeError
   | ABytes _ => raise InvalidMessageTypeError
   end ;;
   m <- lift (attr (message self)) ;;
   u <- lift (encode_utf8 m) ;;
   p <- lift (encode_utf8 (bytes_hex u)) ;;
   assign (set_payload p) ;;
   q <- lift (int_truediv (len p) 2) ;;
   payload_length <- lift (int_of_float q) ;;
   mf <- lift (convert_number_to_byte (4 + 4 + payload_length) 4) ;;
   assign (set_message_field mf) ;;
   pl <- lift (convert_number_to_byte payload_length 4) ;;
   assign (set_payload_length pl))%M.

Definition get_transaction_type (self : TransactionCreator) : result bytes :=
  (value <- dict_get TRANSACTION_TYPE (transaction_type self) ;;
   convert_number_to_byte value 4)%result.

Definition get_version (self : TransactionCreator) : result bytes :=
  let version :=
    if pystr_eqb (network_type self) (str "main")
    then Z.shiftl 0x68 24
    else Z.shiftl 0x98 24 in
  let transaction_types :=
    [str "transfer"; str "multisig_aggregate_modification"] in
  let version :=
    if existsb (pystr_eqb (transaction_type self)) transaction_types
    then version + 2
    else version + 1 in
  convert_number_to_byte version 4.

Definition get_publickey_length (self : TransactionCreator) : result bytes :=
  convert_number_to_byte 32 4.

Definition get_publickey (self : TransactionCreator) : result bytes :=
  (key <- int_base16 (public_key self) ;;
   convert_number_to_byte key 32)%result.

(** The constants of [calc_fee] *)
Definition minimum_fee : float := f_0_05.
Definition maximum_fee : float := f_1_25.
Definition base_amount : Z := 10000.
Definition fee_per_base_amount : float := f_0_05.
Definition base_message_size : Z := 32.
Definition fee_per_base_message : float := f_0_05.

(** The value of the variable [transfer_fee] of [calc_fee] after its
    three assignments. *)
Definition transfer_fee (self : TransactionCreator) : result float :=
  (q <- py_truediv (amount self) (PyInt base_amount) ;;
   k <- int_of_float q ;;
   kf <- float_of_int k ;;
   let transfer_fee := fmul kf fee_per_base_amount in
   let transfer_fee := py_min transfer_fee maximum_fee in
   let transfer_fee := py_max transfer_fee minimum_fee in
   Ok transfer_fee)%result.

(** The value of the variable [message_fee] of [calc_fee] *)
Definition message_fee (self : TransactionCreator) : result pynum :=
  (if negb (truthy (message self)) then Ok (PyInt 0)
   else
     p <- attr (payload self) ;;
     q <- int_truediv (len p) 2 ;;
     payload_length <- int_of_float q ;;
     q <- int_truediv payload_length base_message_size ;;
     n <- int_of_float q ;;
     py_mul (PyFloat fee_per_base_message) (PyInt (1 + n)))%result.

Definition calc_fee (self : TransactionCreator) : result bytes :=
  (transfer_fee <- transfer_fee self ;;
   message_fee <- message_fee self ;;
   total <- py_add (PyFloat transfer_fee) message_fee ;;
   fee <- py_mul total (PyFloat (nem_to_micronem self)) ;;
   v <- py_int fee ;;
   convert_number_to_byte v 8)%result.

Definition get_address_length (self : TransactionCreator) : result bytes :=
  convert_number_to_byte 40 4.

Definition get_address (self : TransactionCreator) : result bytes :=
  (u <- encode_utf8 (address self) ;;
   encode_utf8 (bytes_hex u))%result.

Definition get_amount (self : TransactionCreator) : result bytes :=
  (a <- py_mul (amount self) (PyFloat (nem_to_micronem self)) ;;
   v <- py_int a ;;
   convert_number_to_byte v 8)%result.

(** [b += x] on a [bytes] [b]: [x] has to be a [bytes] too. *)
Definition as_bytes (x : str_or_bytes) : result bytes :=
  match x with
  | ABytes b => Ok b
  | AStr _ => Err TypeError
  end.

(** What Step.3 of [run] appends to [transfer_data] when nothing raises:
    the transfer payload. *)
Definition transfer_payload (self : TransactionCreator) : result bytes :=
  (addr_len <- get_address_length self ;;
   addr <- get_address self ;;
   amount <- get_amount self ;;
   msg_field <- attr (message_field self) ;;
   msg <-
     (if truthy (message self) then
        msg_type <- as_bytes (message_type self) ;;
        payload_len <- attr (payload_length self) ;;
        payload <- attr (payload self) ;;
        Ok (msg_type ++ payload_len ++ payload)
      else Ok []) ;;
   Ok (addr_len ++ addr ++ amount ++ msg_field ++ msg))%result.

Section Clock.

(** [clock n] is what the [n]-th call of [calc_utc_timestamp] returns:
    the whole seconds from 2015-03-29 00:06:25 UTC to the instant of the
    call, [int(delta.total_seconds())]. *)
Variable clock : nat -> Z.

Definition calc_utc_timestamp : M Z :=
  fun st => (Ok (clock (snd st)), (fst st, S (snd st))).

Definition get_timestamp : M bytes :=
  (now <- calc_utc_timestamp ;;
   lift (convert_number_to_byte now 4))%M.

Definition get_deadline : M bytes :=
  (now <- calc_utc_timestamp ;;
   self <- get_self ;;
   let deadline := now + deadline_span self in
   lift (convert_number_to_byte deadline 4))%M.

(** [self.common_data += m()] *)
Definition extend_common_data (m : M bytes) : M unit :=
  (v <- m ;;
   assign (fun self => set_common_data (common_data self ++ v) self))%M.

(** [self.transfer_data += m()] *)
Definition extend_transfer_data (m : M bytes) : M unit :=
  (v <- m ;;
   assign (fun self => set_transfer_data (transfer_data self ++ v) self))%M.

(** Step.1 of [run]: the message fields *)
Definition run_step1 : M unit :=
  (self <- get_self ;;
   if truthy (message self) then set_message_info
   else
     b <- lift (convert_number_to_byte 0 4) ;;
     assign (set_message_field b))%M.

(** Step.2 of [run]: [common_data] *)
Definition run_step2 : M unit :=
  (extend_common_data (call get_transaction_type) ;;
   extend_common_data (call get_version) ;;
   extend_common_data get_timestamp ;;
   extend_common_data (call get_publickey_length) ;;
   extend_common_data (call get_publickey) ;;
   extend_common_data (call calc_fee) ;;
   extend_common_data get_deadline)%M.

(** Step.3 of [run]: [transfer_data] *)
Definition run_step3 : M unit :=
  (extend_transfer_data (call get_address_length) ;;
   extend_transfer_data (call get_address) ;;
   extend_transfer_data (call get_amount) ;;
   extend_transfer_data (call (fun self => attr (message_field self))) ;;
   self <- get_self ;;
   if truthy (message self) then
     extend_transfer_data (call (fun self => as_bytes (message_type self))) ;;
     extend_transfer_data (call (fun self => attr (payload_length self))) ;;
     extend_transfer_data (call (fun self => attr (payload self)))
   else ret tt)%M.

Definition run : M bytes :=
  (run_step1 ;;
   run_step2 ;;
   run_step3 ;;
   (* Step. 4 *)
   self <- get_self ;;
   ret (common_data self ++ transfer_data self))%M.

(** What Step.2 appends to [common_data] when nothing raises, the clock
    having been read [n] times before: the common header. *)
Definition common_header (self : TransactionCreator) (n : nat) : result bytes :=
  (ty <- get_transaction_type self ;;
   version <- get_version self ;;
   timestamp <- convert_number_to_byte (clock n) 4 ;;
   pk_len <- get_publickey_length self ;;
   pk <- get_publickey self ;;
   fee <- calc_fee self ;;
   deadline <- convert_number_to_byte (clock (S n) + deadline_span self) 4 ;;
   Ok (ty ++ version ++ timestamp ++ pk_len ++ pk ++ fee ++ deadline))%result.

(** [k] encodes one after the other, each on an object built anew from
    the same arguments ([request] is that object as [__init__] leaves it);
    the clock is the only thing that goes from one encode to the next. *)
Fixpoint encode_times (request : TransactionCreator) (k n : nat)
    : list (result bytes) :=
  match k with
  | O => []
  | S k' =>
      let r := run (request, n) in
      fst r :: encode_times request k' (snd (snd r))
  end.

End Clock.

(** ** The statements of the specification

    Definitions that follow the words of the specification, to be
    compared with the methods above. *)

(** "a network identifier byte (0x68 for main, 0x98 for test)" *)
Definition spec_network_byte (network : pystr) : option Z :=
  if pystr_eqb network (str "main") then Some 0x68
  else if pystr_eqb network (str "test") then Some 0x98
  else None.

(** "a structure-version integer: 2 if kind is one of {transfer,
    multisig_aggregate_modification}, else 1" *)
Definition spec_structure_version (kind : pystr) : Z :=
  if pystr_eqb kind (str "transfer") then 2
  else if pystr_eqb kind (str "multisig_aggregate_modification") then 2
  else 1.

(** "a fixed table of protocol type constants" *)
Definition spec_type_table : list (pystr * Z) :=
  [ (str "transfer", 0x0101);
    (str "importance_transfer", 0x0801);
    (str "multisig_aggregate_modification", 0x1001);
    (str "multisig_signature", 0x1002);
    (str "multisig", 0x1004);
    (str "provision_namespace", 0x2001);
    (str "mosaic_definition_creation", 0x4001);
    (str "mosaic_supply_change", 0x4002) ].

(** "floor": the largest integer that is not above the number *)
Definition spec_floor (f : float) : result Z :=
  match f with
  | S754_nan => Err ValueError
  | S754_infinity _ => Err OverflowError
  | S754_zero _ => Ok 0
  | S754_finite s m e => Ok (Z.shiftl (cond_Zopp s (Zpos m)) e)
  end.

(** "clamp(x, lo, hi)" *)
Definition spec_clamp (x lo hi : float) : float :=
  if flt x lo then lo else if flt hi x then hi else x.

(** "transfer_fee = clamp(floor(amount / base_amount) *
    fee_per_base_amount, min_fee, max_fee)", with base_amount = 10000,
    fee_per_base_amount = 0.05, min_fee = 0.05, max_fee = 1.25, in the
    arithmetic of doubles. *)
Definition spec_transfer_fee (amount : pynum) : result float :=
  (q <- py_truediv amount (PyInt 10000) ;;
   k <- spec_floor q ;;
   kf <- float_of_int k ;;
   Ok (spec_clamp (fmul kf f_0_05) f_0_05 f_1_25))%result.

(** The value of a hexadecimal digit, of either case *)
Definition hexval (c : N) : option Z :=
  match digit_value c with
  | Some d => if d <? 16 then Some d else None
  | None => None
  end.

(** "decode from hex": every two hexadecimal digits give one byte, the
    high nibble first ([bytes.fromhex] without white space); there is no
    decoding for an odd number of characters or for another character. *)
Fixpoint spec_hex_decode (s : pystr) : option bytes :=
  match s with
  | [] => Some []
  | [_] => None
  | c1 :: c2 :: r =>
      match hexval c1, hexval c2, spec_hex_decode r with
      | Some h, Some l, Some b => Some (byte_of_Z (16 * h + l) :: b)
      | _, _, _ => None
      end
  end.

(** "the ASCII hex digits" of a byte sequence: two bytes for each byte,
    the characters of its high and of its low nibble. *)
Definition hex_ascii (b : bytes) : bytes :=
  flat_map (fun x => [byte_of_Z (Z.of_N (hex_digit (Z_of_byte x / 16)));
                      byte_of_Z (Z.of_N (hex_digit (Z_of_byte x mod 16)))]) b.

(** ** Conditions on objects and numbers *)

(** The numeric tag that [set_message_info] gives to a message type *)
Definition message_type_tag (t : str_or_bytes) : option Z :=
  match t with
  | AStr s =>
      if pystr_eqb s (str "plane") then Some 1
      else if pystr_eqb s (str "encryption") then Some 2
      else None
  | ABytes _ => None
  end.

(** The attributes that [__init__] takes from its arguments, and the two
    constants it sets, are the same in two objects. *)
Definition same_request (s s' : TransactionCreator) : Prop :=
  nem_to_micronem s' = nem_to_micronem s /\
  deadline_span s' = deadline_span s /\
  public_key s' = public_key s /\
  amount s' = amount s /\
  address s' = address s /\
  message s' = message s /\
  transaction_type s' = transaction_type s /\
  network_type s' = network_type s.

(** A number that is not a NaN and has the given sign *)
Definition signed (s : bool) (f : float) : Prop :=
  match f with
  | S754_zero s' | S754_infinity s' | S754_finite s' _ _ => s' = s
  | S754_nan => False
  end.

(** [f] is a zero or a positive finite number below [2^B]. *)
Definition fbound (B : Z) (f : float) : Prop :=
  match f with
  | S754_zero _ => True
  | S754_finite false m e => Zpos (digits2_pos m) + e <= B
  | _ => False
  end.

(** The significand has at most 53 digits. *)
Definition short_significand (f : float) : Prop :=
  match f with
  | S754_finite _ m _ => Zpos (digits2_pos m) <= prec
  | _ => True
  end.

(** A non-negative amount: an [int] from 0 and below [2^1024], or a
    [float] that is a zero or a positive finite double. *)
Definition amount_in_range (a : pynum) : Prop :=
  match a with
  | PyInt z => 0 <= z < 2 ^ 1024
  | PyFloat (S754_zero _) => True
  | PyFloat (S754_finite false m e) => bounded prec emax m e = true
  | PyFloat _ => False
  end.

(** An amount whose count of micro-units fits the 8 bytes of the amount
    field for sure: an [int] from 0 and below [2^40], or a [float] that
    is a zero or a positive double below [2^40]. *)
Definition amount_encodable (a : pynum) : Prop :=
  match a with
  | PyInt z => 0 <= z < 2 ^ 40
  | PyFloat (S754_zero _) => True
  | PyFloat (S754_finite false m e) =>
      bounded prec emax m e = true /\ Zpos (digits2_pos m) + e <= 40
  | PyFloat _ => False
  end.

(** ** Sample data *)

Definition sample_public_key : pystr :=
  str "0123456789abcdef0123456789abcdef0123456789abcdef0123456789abcdef".

Definition sample_address : pystr :=
  str "TALICELCD3XPH4FFI5STGGNSNSWPOTG5E4DS2TOS".

(** A clock that stands still, 100000000 seconds after the epoch *)
Definition sample_clock : nat -> Z := fun _ => 100000000.

(** ['12Xem'] to the sample address, as in the [__main__] block *)
Definition sample_request (message : option pystr) : TransactionCreator :=
  init_default sample_public_key (PyInt 12) sample_address message.

(** ** Integers that are doubles *)

(** The double of the integer [P] or [- P] ([s] is the sign), for
    [0 < P < 2^53]: its significand is [P] shifted to 53 digits. *)
Definition exact_double (s : bool) (P : Z) : float :=
  S754_finite s (Z.to_pos (P * 2 ^ (prec - Zdigits2 P))) (Zdigits2 P - prec).

(** ** The fee in steps

    [calc_fee] after its two truncated divisions: [k] is
    [int(self.amount / base_amount)] and [t] is
    [1 + int(payload_length / base_message_size)], or [0] when there is
    no message. *)
Definition transfer_fee_of_steps (k : Z) : result float :=
  (kf <- float_of_int k ;;
   let transfer_fee := fmul kf fee_per_base_amount in
   let transfer_fee := py_min transfer_fee maximum_fee in
   let transfer_fee := py_max transfer_fee minimum_fee in
   Ok transfer_fee)%result.

Definition fee_of_steps (k t : Z) : result Z :=
  (transfer_fee <- transfer_fee_of_steps k ;;
   message_fee <-
     (if t =? 0 then Ok (PyInt 0)
      else py_mul (PyFloat fee_per_base_message) (PyInt t)) ;;
   total <- py_add (PyFloat transfer_fee) message_fee ;;
   fee <- py_mul total (PyFloat f_1000000) ;;
   py_int fee)%result.

(** The integers from [a], [n] of them *)
Definition zrange (a : Z) (n : nat) : list Z :=
  map (fun i => a + Z.of_nat i) (seq 0 n).

(** The fee for the steps [k] and [t] is from [lo] to [hi]. *)
Definition fee_in (k t lo hi : Z) : bool :=
  match fee_of_steps k t with
  | Ok f => (lo <=? f) && (f <=? hi)
  | Err _ => false
  end.

(** ** Byte strings as text *)

(** The text of a byte string, one character for each byte
    ([b.decode('latin-1')]) *)
Definition bytes_text (b : bytes) : pystr :=
  map (fun x => Z.to_N (Z_of_byte x)) b.

(** ** The exceptions of an encode *)

(** The exceptions that the arithmetic and the conversions raise *)
Definition conversion_error (e : exn) : Prop :=
  e = OverflowError \/ e = ValueError.

(** The exceptions that [run] lets out *)
Definition run_error (e : exn) : Prop :=
  e = KeyError \/ e = InvalidMessageTypeError \/ e = UnicodeEncodeError \/
  conversion_error e.

(** The attributes that the steps 2 and 3 of [run] read are there: Step.1
    has set [message_field] and, with a message, [payload],
    [payload_length] and the tag in [message_type]. *)
Definition prepared (s : TransactionCreator) : Prop :=
  (exists mf, message_field s = Some mf) /\
  (truthy (message s) = true ->
   exists t p pl,
     message_type s = ABytes t /\ payload s = Some p /\
     payload_length s = Some pl).

(** * Properties *)

(** ** Facts on bytes *)

Lemma Z_of_byte_of_Z (z : Z) : Z_of_byte (byte_of_Z z) = z mod 256.
Proof.
  unfold Z_of_byte, byte_of_Z.
  assert (Hr : 0 <= z mod 256 < 256) by (apply Z.mod_pos_bound; lia).
  destruct (Byte.of_N (Z.to_N (z mod 256))) as [b|] eqn:E.
  - apply Byte.to_of_N in E. rewrite E. lia.
  - apply Byte.of_N_None_iff in E. lia.
Qed.

Lemma Z_of_byte_range (b : byte) : 0 <= Z_of_byte b < 256.
Proof.
  unfold Z_of_byte. pose proof (Byte.to_N_bounded b). lia.
Qed.

Lemma byte_of_Z_of_byte (b : byte) : byte_of_Z (Z_of_byte b) = b.
Proof.
  unfold byte_of_Z.
  rewrite Z.mod_small by apply Z_of_byte_range.
  unfold Z_of_byte. rewrite N2Z.id, Byte.of_to_N. reflexivity.
Qed.

Lemma byte_of_Z_add_mul (a b : Z) : byte_of_Z (a + 256 * b) = byte_of_Z a.
Proof.
  unfold byte_of_Z.
  rewrite (Z.mul_comm 256), Z.mod_add by lia. reflexivity.
Qed.

Lemma le_digits_length (n : nat) (v : Z) : length (le_digits n v) = n.
Proof.
  revert v. induction n as [|n IH]; intros v; simpl; [|rewrite IH]; reflexivity.
Qed.

Lemma from_bytes_le_digits (n : nat) (v : Z) :
  from_bytes_little (le_digits n v) = v mod 2 ^ (8 * Z.of_nat n).
Proof.
  revert v. induction n as [|n IH]; intros v.
  - simpl. rewrite Z.mod_1_r. reflexivity.
  - cbn [le_digits from_bytes_little].
    rewrite Z_of_byte_of_Z, IH.
    replace (8 * Z.of_nat (S n)) with (8 + 8 * Z.of_nat n) by lia.
    rewrite Z.pow_add_r by lia.
    change (2 ^ 8) with 256.
    rewrite Z.rem_mul_r by lia. reflexivity.
Qed.

Lemma from_bytes_little_range (b : bytes) :
  0 <= from_bytes_little b < 2 ^ (8 * Z.of_nat (length b)).
Proof.
  induction b as [|x b IH].
  - simpl. lia.
  - cbn [from_bytes_little length].
    replace (8 * Z.of_nat (S (length b))) with (8 + 8 * Z.of_nat (length b)) by lia.
    rewrite Z.pow_add_r by lia. change (2 ^ 8) with 256.
    pose proof (Z_of_byte_range x). lia.
Qed.

Lemma le_digits_from_bytes (b : bytes) :
  le_digits (length b) (from_bytes_little b) = b.
Proof.
  induction b as [|x b IH].
  - reflexivity.
  - cbn [from_bytes_little length le_digits].
    pose proof (Z_of_byte_range x) as Hx.
    rewrite byte_of_Z_add_mul, byte_of_Z_of_byte.
    replace ((Z_of_byte x + 256 * from_bytes_little b) / 256)
      with (from_bytes_little b).
    2:{ rewrite Z.add_comm, Z.mul_comm, Z.div_add_l by lia.
        rewrite Z.div_small by exact Hx. lia. }
    rewrite IH. reflexivity.
Qed.

(** ** The scalar encoder *)

Lemma to_bytes_little_ok (value length : Z) :
  0 <= length -> 0 <= value < 2 ^ (8 * length) ->
  to_bytes_little value length = Ok (le_digits (Z.to_nat length) value).
Proof.
  intros Hl Hv. unfold to_bytes_little.
  destruct (Z.ltb_spec length 0); [lia|].
  destruct (Z.ltb_spec value 0); [lia|].
  destruct (Z.leb_spec (2 ^ (8 * length)) value); [lia|].
  reflexivity.
Qed.

Lemma to_bytes_little_inv (value length : Z) (b : bytes) :
  to_bytes_little value length = Ok b ->
  0 <= length /\ 0 <= value < 2 ^ (8 * length) /\
  b = le_digits (Z.to_nat length) value.
Proof.
  unfold to_bytes_little.
  destruct (Z.ltb_spec length 0); [discriminate|].
  destruct (Z.ltb_spec value 0); [discriminate|].
  destruct (Z.leb_spec (2 ^ (8 * length)) value); [discriminate|].
  intros E. injection E as <-. repeat split; lia || reflexivity.
Qed.

Lemma from_bytes_le_digits_small (n : nat) (v : Z) :
  0 <= v < 2 ^ (8 * Z.of_nat n) ->
  from_bytes_little (le_digits n v) = v.
Proof.
  intros Hv. rewrite from_bytes_le_digits. apply Z.mod_small. exact Hv.
Qed.

(** C9.  [convert_number_to_byte value width] ([encode_uint] in the
    specification), for a byte count [width]: when
    [0 <= value < 2^(8*width)] it returns exactly [width] bytes, the
    little-endian digits of [value], which read back as [value]; when
    [value] is negative or [2^(8*width) <= value] it raises
    [OverflowError] (the specification's EncodingError).  So a returned
    byte sequence always reads back as the value: nothing is truncated. *)
Theorem convert_number_to_byte_spec (value width : Z) :
  0 <= width ->
  (0 <= value < 2 ^ (8 * width) ->
   exists b,
     convert_number_to_byte value width = Ok b /\
     len b = width /\
     b = le_digits (Z.to_nat width) value /\
     from_bytes_little b = value) /\
  (value < 0 \/ 2 ^ (8 * width) <= value ->
   convert_number_to_byte value width = Err OverflowError) /\
  (forall b, convert_number_to_byte value width = Ok b ->
             len b = width /\ from_bytes_little b = value).
Proof.
  intros Hw. unfold convert_number_to_byte, len.
  assert (Hgood : 0 <= value < 2 ^ (8 * width) ->
                  Z.of_nat (List.length (le_digits (Z.to_nat width) value)) = width /\
                  from_bytes_little (le_digits (Z.to_nat width) value) = value).
  { intros Hv. rewrite le_digits_length. split; [lia|].
    apply from_bytes_le_digits_small. rewrite Z2Nat.id by lia. exact Hv. }
  split; [|split].
  - intros Hv. exists (le_digits (Z.to_nat width) value).
    rewrite to_bytes_little_ok by assumption.
    destruct (Hgood Hv). auto.
  - intros Hv. unfold to_bytes_little.
    destruct (Z.ltb_spec width 0); [lia|].
    destruct (Z.ltb_spec value 0); [reflexivity|].
    destruct (Z.leb_spec (2 ^ (8 * width)) value); [reflexivity|lia].
  - intros b E. apply to_bytes_little_inv in E as (_ & Hv & ->).
    apply Hgood. exact Hv.
Qed.

Lemma convert_number_to_byte_spec_witness :
  0 <= 4 /\
  exists b,
    convert_number_to_byte 0x0101 4 = Ok b /\
    len b = 4 /\
    b = le_digits (Z.to_nat 4) 0x0101 /\
    from_bytes_little b = 0x0101.
Proof.
  split; [lia|].
  apply (convert_number_to_byte_spec 0x0101 4); [lia|].
  vm_compute. split; [discriminate | reflexivity].
Defined.

(** ** The version word *)

Lemma pystr_eqb_eq (a b : pystr) : pystr_eqb a b = true <-> a = b.
Proof.
  unfold pystr_eqb. destruct (pystr_eq_dec a b); split; congruence.
Qed.

Lemma pystr_eqb_refl (a : pystr) : pystr_eqb a a = true.
Proof. apply pystr_eqb_eq. reflexivity. Qed.

Lemma pystr_eqb_sym (a b : pystr) : pystr_eqb a b = pystr_eqb b a.
Proof.
  unfold pystr_eqb.
  destruct (pystr_eq_dec a b), (pystr_eq_dec b a); congruence.
Qed.

Lemma convert_number_to_byte_4 (v : Z) :
  0 <= v < 2 ^ 32 ->
  convert_number_to_byte v 4 = Ok (le_digits 4 v) /\
  from_bytes_little (le_digits 4 v) = v.
Proof.
  intros Hv. split.
  - unfold convert_number_to_byte. rewrite to_bytes_little_ok by lia. reflexivity.
  - apply from_bytes_le_digits_small. exact Hv.
Qed.

(** C3.  The version word is the 4-byte little-endian encoding of
    [(network byte << 24) + structure version], the network byte being
    0x68 for ['main'] and 0x98 for ['test'], the structure version 2 for the
    kinds ['transfer'] and ['multisig_aggregate_modification'] and 1 for
    every other kind.  For ['transfer'] on ['test'] the word reads back as
    0x98000002, for ['importance_transfer'] on ['main'] as 0x68000001. *)
Theorem get_version_spec :
  (forall (self : TransactionCreator) (nb : Z),
      spec_network_byte (network_type self) = Some nb ->
      let v := Z.shiftl nb 24 + spec_structure_version (transaction_type self) in
      get_version self = Ok (le_digits 4 v) /\
      len (le_digits 4 v) = 4 /\
      from_bytes_little (le_digits 4 v) = v) /\
  (forall self,
      transaction_type self = str "transfer" ->
      network_type self = str "test" ->
      exists b, get_version self = Ok b /\ from_bytes_little b = 0x98000002) /\
  (forall self,
      transaction_type self = str "importance_transfer" ->
      network_type self = str "main" ->
      exists b, get_version self = Ok b /\ from_bytes_little b = 0x68000001).
Proof.
  assert (Hgen : forall (self : TransactionCreator) (nb : Z),
      spec_network_byte (network_type self) = Some nb ->
      let v := Z.shiftl nb 24 + spec_structure_version (transaction_type self) in
      get_version self = Ok (le_digits 4 v) /\
      len (le_digits 4 v) = 4 /\
      from_bytes_little (le_digits 4 v) = v).
  { intros self nb Hnb v.
    assert (Hv : 0 <= v < 2 ^ 32 /\ get_version self = convert_number_to_byte v 4).
    { subst v. unfold get_version, spec_network_byte, spec_structure_version in *.
      cbn [existsb].
      destruct (pystr_eqb (network_type self) (str "main")).
      - injection Hnb as <-.
        destruct (pystr_eqb (transaction_type self) (str "transfer"));
          destruct (pystr_eqb (transaction_type self)
                      (str "multisig_aggregate_modification"));
          cbn [orb]; (split; [vm_compute; split; [discriminate|reflexivity] | reflexivity]).
      - destruct (pystr_eqb (network_type self) (str "test")); [|discriminate].
        injection Hnb as <-.
        destruct (pystr_eqb (transaction_type self) (str "transfer"));
          destruct (pystr_eqb (transaction_type self)
                      (str "multisig_aggregate_modification"));
          cbn [orb]; (split; [vm_compute; split; [discriminate|reflexivity] | reflexivity]). }
    destruct Hv as [Hv ->].
    destruct (convert_number_to_byte_4 v Hv) as [-> Hd].
    split; [reflexivity | split; [reflexivity | exact Hd]]. }
  split; [exact Hgen|]. split.
  - intros self Hk Hn. eexists. split.
    + apply Hgen. rewrite Hn. reflexivity.
    + rewrite Hk. reflexivity.
  - intros self Hk Hn. eexists. split.
    + apply Hgen. rewrite Hn. reflexivity.
    + rewrite Hk. reflexivity.
Qed.

Lemma get_version_spec_witness :
  exists b,
    get_version (sample_request None) = Ok b /\
    from_bytes_little b = 0x98000002.
Proof.
  apply (proj1 (proj2 get_version_spec) (sample_request None)); reflexivity.
Defined.

(** ** Running the methods *)

Lemma bind_ok {A B} (m : M A) (k : A -> M B) (st st' : state) (a : A) :
  m st = (Ok a, st') -> bind m k st = k a st'.
Proof. intros E. unfold bind. rewrite E. reflexivity. Qed.

Lemma bind_err {A B} (m : M A) (k : A -> M B) (st st' : state) (e : exn) :
  m st = (Err e, st') -> bind m k st = (Err e, st').
Proof. intros E. unfold bind. rewrite E. reflexivity. Qed.

Lemma extend_common_data_ok (m : M bytes) (st : state) (v : bytes)
    (s' : TransactionCreator) (n' : nat) :
  m st = (Ok v, (s', n')) ->
  extend_common_data m st =
    (Ok tt, (set_common_data (common_data s' ++ v) s', n')).
Proof.
  intros E. unfold extend_common_data. rewrite (bind_ok _ _ _ _ _ E).
  reflexivity.
Qed.

Lemma extend_common_data_err (m : M bytes) (st st' : state) (e : exn) :
  m st = (Err e, st') -> extend_common_data m st = (Err e, st').
Proof.
  intros E. unfold extend_common_data. apply bind_err. exact E.
Qed.

Lemma extend_transfer_data_ok (m : M bytes) (st : state) (v : bytes)
    (s' : TransactionCreator) (n' : nat) :
  m st = (Ok v, (s', n')) ->
  extend_transfer_data m st =
    (Ok tt, (set_transfer_data (transfer_data s' ++ v) s', n')).
Proof.
  intros E. unfold extend_transfer_data. rewrite (bind_ok _ _ _ _ _ E).
  reflexivity.
Qed.

Lemma extend_transfer_data_err (m : M bytes) (st st' : state) (e : exn) :
  m st = (Err e, st') -> extend_transfer_data m st = (Err e, st').
Proof.
  intros E. unfold extend_transfer_data. apply bind_err. exact E.
Qed.

Lemma call_eq {A} (f : TransactionCreator -> result A)
    (s : TransactionCreator) (n : nat) (r : result A) :
  f s = r -> call f (s, n) = (r, (s, n)).
Proof. intros <-. reflexivity. Qed.

Section RunFacts.

Variable clock : nat -> Z.

Lemma get_timestamp_eq (s : TransactionCreator) (n : nat) :
  get_timestamp clock (s, n) =
    (convert_number_to_byte (clock n) 4, (s, S n)).
Proof. reflexivity. Qed.

Lemma get_deadline_eq (s : TransactionCreator) (n : nat) :
  get_deadline clock (s, n) =
    (convert_number_to_byte (clock n + deadline_span s) 4, (s, S n)).
Proof. reflexivity. Qed.

Ltac step_ok E :=
  erewrite bind_ok;
  [| first [ apply extend_common_data_ok | apply extend_transfer_data_ok ];
     first [ apply call_eq; exact E
           | rewrite get_timestamp_eq; rewrite E; reflexivity
           | rewrite get_deadline_eq; rewrite E; reflexivity ] ].

Lemma run_step2_ok (s : TransactionCreator) (n : nat) (h : bytes) :
  common_header clock s n = Ok h ->
  run_step2 clock (s, n) =
    (Ok tt, (set_common_data (common_data s ++ h) s, S (S n))).
Proof.
  unfold common_header. intros H.
  destruct (get_transaction_type s) as [ty|] eqn:E1; [|discriminate].
  destruct (get_version s) as [ve|] eqn:E2; [|discriminate].
  destruct (convert_number_to_byte (clock n) 4) as [ts|] eqn:E3; [|discriminate].
  destruct (get_publickey_length s) as [pl|] eqn:E4; [|discriminate].
  destruct (get_publickey s) as [pk|] eqn:E5; [|discriminate].
  destruct (calc_fee s) as [fe|] eqn:E6; [|discriminate].
  destruct (convert_number_to_byte (clock (S n) + deadline_span s) 4)
    as [dl|] eqn:E7; [|discriminate].
  cbn [rbind] in H. injection H as <-.
  unfold run_step2.
  step_ok E1. step_ok E2. step_ok E3. step_ok E4. step_ok E5. step_ok E6.
  erewrite extend_common_data_ok;
    [| rewrite get_deadline_eq; cbn [deadline_span set_common_data];
       rewrite E7; reflexivity ].
  cbn [common_data set_common_data].
  rewrite <- !app_assoc. reflexivity.
Qed.


Lemma run_step2_err (s : TransactionCreator) (n : nat) (e : exn) :
  common_header clock s n = Err e ->
  exists st', run_step2 clock (s, n) = (Err e, st').
Proof.
  unfold common_header, run_step2. intros H.
  destruct (get_transaction_type s) as [ty|] eqn:E1;
    [| injection H as <-; eexists; erewrite bind_err;
       [reflexivity | apply extend_common_data_err, call_eq; exact E1] ].
  step_ok E1.
  destruct (get_version s) as [ve|] eqn:E2;
    [| injection H as <-; eexists; erewrite bind_err;
       [reflexivity | apply extend_common_data_err, call_eq; exact E2] ].
  step_ok E2.
  destruct (convert_number_to_byte (clock n) 4) as [ts|] eqn:E3;
    [| injection H as <-; eexists; erewrite bind_err;
       [reflexivity
       | apply extend_common_data_err; rewrite get_timestamp_eq, E3;
         reflexivity] ].
  step_ok E3.
  destruct (get_publickey_length s) as [pl|] eqn:E4;
    [| injection H as <-; eexists; erewrite bind_err;
       [reflexivity | apply extend_common_data_err, call_eq; exact E4] ].
  step_ok E4.
  destruct (get_publickey s) as [pk|] eqn:E5;
    [| injection H as <-; eexists; erewrite bind_err;
       [reflexivity | apply extend_common_data_err, call_eq; exact E5] ].
  step_ok E5.
  destruct (calc_fee s) as [fe|] eqn:E6;
    [| injection H as <-; eexists; erewrite bind_err;
       [reflexivity | apply extend_common_data_err, call_eq; exact E6] ].
  step_ok E6.
  destruct (convert_number_to_byte (clock (S n) + deadline_span s) 4)
    as [dl|] eqn:E7; [discriminate|].
  injection H as <-. eexists.
  apply extend_common_data_err. rewrite get_deadline_eq.
  cbn [deadline_span set_common_data]. rewrite E7. reflexivity.
Qed.

(** The first thing Step.2 does is the lookup of the type code: when it
    raises, nothing has been appended. *)
Lemma run_step2_type_err (s : TransactionCreator) (n : nat) (e : exn) :
  get_transaction_type s = Err e ->
  run_step2 clock (s, n) = (Err e, (s, n)).
Proof.
  intros E. unfold run_step2. apply bind_err.
  apply extend_common_data_err, call_eq. exact E.
Qed.

Lemma run_step3_ok (s : TransactionCreator) (n : nat) (b : bytes) :
  transfer_payload s = Ok b ->
  run_step3 (s, n) =
    (Ok tt, (set_transfer_data (transfer_data s ++ b) s, n)).
Proof.
  unfold transfer_payload. intros H.
  destruct (get_address_length s) as [al|] eqn:E1; [|discriminate].
  destruct (get_address s) as [ad|] eqn:E2; [|discriminate].
  destruct (get_amount s) as [am|] eqn:E3; [|discriminate].
  destruct (attr (message_field s)) as [mf|] eqn:E4; [|discriminate].
  cbn [rbind] in H. unfold run_step3.
  step_ok E1. step_ok E2. step_ok E3. step_ok E4.
  unfold bind at 1, get_self at 1. cbn [fst message set_transfer_data].
  destruct (truthy (message s)).
  - destruct (as_bytes (message_type s)) as [mt|] eqn:E5; [|discriminate].
    destruct (attr (payload_length s)) as [pl|] eqn:E6; [|discriminate].
    destruct (attr (payload s)) as [p|] eqn:E7; [|discriminate].
    cbn [rbind] in H. injection H as <-.
    step_ok E5. step_ok E6.
    erewrite extend_transfer_data_ok; [| apply call_eq; exact E7].
    cbn [transfer_data set_transfer_data].
    rewrite <- !app_assoc. reflexivity.
  - cbn [rbind] in H. injection H as <-.
    unfold ret. cbn [transfer_data set_transfer_data].
    rewrite <- !app_assoc, app_nil_r. reflexivity.
Qed.

Lemma run_step3_err (s : TransactionCreator) (n : nat) (e : exn) :
  transfer_payload s = Err e ->
  exists st', run_step3 (s, n) = (Err e, st').
Proof.
  unfold transfer_payload, run_step3. intros H.
  destruct (get_address_length s) as [al|] eqn:E1;
    [| injection H as <-; eexists; erewrite bind_err;
       [reflexivity | apply extend_transfer_data_err, call_eq; exact E1] ].
  step_ok E1.
  destruct (get_address s) as [ad|] eqn:E2;
    [| injection H as <-; eexists; erewrite bind_err;
       [reflexivity | apply extend_transfer_data_err, call_eq; exact E2] ].
  step_ok E2.
  destruct (get_amount s) as [am|] eqn:E3;
    [| injection H as <-; eexists; erewrite bind_err;
       [reflexivity | apply extend_transfer_data_err, call_eq; exact E3] ].
  step_ok E3.
  destruct (attr (message_field s)) as [mf|] eqn:E4;
    [| injection H as <-; eexists; erewrite bind_err;
       [reflexivity | apply extend_transfer_data_err, call_eq; exact E4] ].
  step_ok E4.
  unfold bind at 1, get_self at 1. cbn [fst message set_transfer_data].
  cbn [rbind] in H.
  destruct (truthy (message s)); [|discriminate].
  destruct (as_bytes (message_type s)) as [mt|] eqn:E5;
    [| injection H as <-; eexists; erewrite bind_err;
       [reflexivity | apply extend_transfer_data_err, call_eq; exact E5] ].
  step_ok E5.
  destruct (attr (payload_length s)) as [pl|] eqn:E6;
    [| injection H as <-; eexists; erewrite bind_err;
       [reflexivity | apply extend_transfer_data_err, call_eq; exact E6] ].
  step_ok E6.
  destruct (attr (payload s)) as [p|] eqn:E7; [discriminate|].
  injection H as <-. eexists.
  apply extend_transfer_data_err, call_eq. exact E7.
Qed.

(** [run] when no step raises *)
Lemma run_ok (st : state) (s1 : TransactionCreator) (n1 : nat) (h b : bytes) :
  run_step1 st = (Ok tt, (s1, n1)) ->
  common_header clock s1 n1 = Ok h ->
  transfer_payload s1 = Ok b ->
  run clock st =
    (Ok ((common_data s1 ++ h) ++ (transfer_data s1 ++ b)),
     (set_transfer_data (transfer_data s1 ++ b)
        (set_common_data (common_data s1 ++ h) s1), S (S n1))).
Proof.
  intros H1 H2 H3. unfold run.
  rewrite (bind_ok _ _ _ _ _ H1).
  rewrite (bind_ok _ _ _ _ _ (run_step2_ok _ _ _ H2)).
  erewrite bind_ok; [| apply run_step3_ok; exact H3].
  reflexivity.
Qed.

(** [run] when Step.1 raises *)
Lemma run_err_step1 (st st' : state) (e : exn) :
  run_step1 st = (Err e, st') -> run clock st = (Err e, st').
Proof. intros H. unfold run. apply bind_err. exact H. Qed.

(** [run] when the lookup of the type code raises *)
Lemma run_err_type (st : state) (s1 : TransactionCreator) (n1 : nat) (e : exn) :
  run_step1 st = (Ok tt, (s1, n1)) ->
  get_transaction_type s1 = Err e ->
  run clock st = (Err e, (s1, n1)).
Proof.
  intros H1 H2. unfold run.
  rewrite (bind_ok _ _ _ _ _ H1).
  apply bind_err. apply run_step2_type_err. exact H2.
Qed.

(** What a successful [run] went through *)
Lemma run_inv (st : state) (out : bytes) :
  fst (run clock st) = Ok out ->
  exists s1 n1 h b,
    run_step1 st = (Ok tt, (s1, n1)) /\
    common_header clock s1 n1 = Ok h /\
    transfer_payload s1 = Ok b /\
    out = (common_data s1 ++ h) ++ (transfer_data s1 ++ b).
Proof.
  intros H.
  destruct (run_step1 st) as [[[]|e] [s1 n1]] eqn:H1.
  2:{ rewrite (run_err_step1 _ _ _ H1) in H. discriminate. }
  destruct (common_header clock s1 n1) as [h|e] eqn:H2.
  2:{ destruct (run_step2_err _ _ _ H2) as [st' H2'].
      unfold run in H. rewrite (bind_ok _ _ _ _ _ H1) in H.
      rewrite (bind_err _ _ _ _ _ H2') in H. discriminate. }
  destruct (transfer_payload s1) as [b|e] eqn:H3.
  2:{ destruct (run_step3_err (set_common_data (common_data s1 ++ h) s1)
                  (S (S n1)) e H3) as [st' H3'].
      unfold run in H. rewrite (bind_ok _ _ _ _ _ H1) in H.
      rewrite (bind_ok _ _ _ _ _ (run_step2_ok _ _ _ H2)) in H.
      rewrite (bind_err _ _ _ _ _ H3') in H. discriminate. }
  rewrite (run_ok _ _ _ _ _ H1 H2 H3) in H. injection H as <-.
  exists s1, n1, h, b. auto.
Qed.

End RunFacts.

(** ** Rounding to binary64 *)

Lemma pow2_pos (k : Z) : 0 < 2 ^ k \/ (k < 0 /\ 2 ^ k = 0).
Proof.
  destruct (Z.le_gt_cases 0 k).
  - left. apply Z.pow_pos_nonneg; lia.
  - right. split; [lia|]. apply Z.pow_neg_r. lia.
Qed.

Lemma pow2_gt0 (k : Z) : 0 <= k -> 0 < 2 ^ k.
Proof. intros. apply Z.pow_pos_nonneg; lia. Qed.

Lemma pow2_split (a b : Z) : 0 <= a -> 0 <= b -> 2 ^ (a + b) = 2 ^ a * 2 ^ b.
Proof. intros. apply Z.pow_add_r; lia. Qed.

Lemma pow2_le (a b : Z) : 0 <= a <= b -> 2 ^ a <= 2 ^ b.
Proof. intros. apply Z.pow_le_mono_r; lia. Qed.

Lemma pow2_lt (a b : Z) : 0 <= a < b -> 2 ^ a < 2 ^ b.
Proof. intros. apply Z.pow_lt_mono_r; lia. Qed.

Lemma digits2_pos_bounds (p : positive) :
  2 ^ (Zpos (digits2_pos p) - 1) <= Zpos p < 2 ^ Zpos (digits2_pos p).
Proof.
  induction p as [p IH | p IH |]; cbn [digits2_pos].
  - rewrite Pos2Z.inj_succ.
    replace (Z.succ (Z.pos (digits2_pos p)) - 1) with (1 + (Z.pos (digits2_pos p) - 1)) by lia.
    replace (Z.succ (Z.pos (digits2_pos p))) with (1 + Z.pos (digits2_pos p)) by lia.
    rewrite !pow2_split by lia. change (2 ^ 1) with 2. lia.
  - rewrite Pos2Z.inj_succ.
    replace (Z.succ (Z.pos (digits2_pos p)) - 1) with (1 + (Z.pos (digits2_pos p) - 1)) by lia.
    replace (Z.succ (Z.pos (digits2_pos p))) with (1 + Z.pos (digits2_pos p)) by lia.
    rewrite !pow2_split by lia. change (2 ^ 1) with 2. lia.
  - cbn. lia.
Qed.

Lemma Zdigits2_nonneg (m : Z) : 0 <= Zdigits2 m.
Proof. destruct m; cbn; lia. Qed.

Lemma Zdigits2_pos (m : Z) : 0 < m -> 0 < Zdigits2 m.
Proof. destruct m; cbn; lia. Qed.

Lemma Zdigits2_lt_pow (m : Z) : 0 <= m -> m < 2 ^ Zdigits2 m.
Proof.
  destruct m as [|p|p]; intros H; [cbn; lia | | lia].
  apply digits2_pos_bounds.
Qed.

Lemma Zdigits2_ge_pow (m : Z) : 0 < m -> 2 ^ (Zdigits2 m - 1) <= m.
Proof.
  destruct m as [|p|p]; intros H; [lia | | lia].
  apply digits2_pos_bounds.
Qed.

(** A number below [2^k] has at most [k] binary digits. *)
Lemma Zdigits2_le (m k : Z) : 0 <= m < 2 ^ k -> 0 <= k -> Zdigits2 m <= k.
Proof.
  intros Hm Hk.
  destruct (Z.eq_dec m 0) as [->|Hne]; [cbn; lia|].
  destruct (Z.le_gt_cases (Zdigits2 m) k) as [|Hgt]; [assumption|].
  pose proof (Zdigits2_ge_pow m ltac:(lia)) as Hge.
  assert (2 ^ k <= 2 ^ (Zdigits2 m - 1)) by (apply pow2_le; lia).
  lia.
Qed.

Lemma Zdigits2_unique (m d : Z) :
  2 ^ (d - 1) <= m < 2 ^ d -> 0 < m -> Zdigits2 m = d.
Proof.
  intros Hm Hpos.
  assert (Hd : 0 < d).
  { destruct (Z.le_gt_cases d 0); [|assumption].
    destruct (Z.eq_dec d 0) as [->|]; [cbn in Hm; lia|].
    rewrite (Z.pow_neg_r 2 d) in Hm by lia. lia. }
  pose proof (Zdigits2_ge_pow m Hpos) as H1.
  pose proof (Zdigits2_lt_pow m ltac:(lia)) as H2.
  pose proof (Zdigits2_pos m Hpos) as H3.
  destruct (Z.lt_trichotomy (Zdigits2 m) d) as [Hlt|[Heq|Hgt]]; [|assumption|].
  - assert (2 ^ Zdigits2 m <= 2 ^ (d - 1)) by (apply pow2_le; lia). lia.
  - assert (2 ^ d <= 2 ^ (Zdigits2 m - 1)) by (apply pow2_le; lia). lia.
Qed.

Lemma Zdigits2_mul_pow (m k : Z) :
  0 < m -> 0 <= k -> Zdigits2 (m * 2 ^ k) = Zdigits2 m + k.
Proof.
  intros Hm Hk.
  pose proof (Zdigits2_ge_pow m Hm) as H1.
  pose proof (Zdigits2_lt_pow m ltac:(lia)) as H2.
  pose proof (Zdigits2_pos m Hm) as H3.
  pose proof (pow2_gt0 k Hk) as H4.
  apply Zdigits2_unique; [|nia].
  replace (Zdigits2 m + k - 1) with ((Zdigits2 m - 1) + k) by lia.
  rewrite !pow2_split by lia. nia.
Qed.

Lemma Zdigits2_mono (a b : Z) : 0 <= a <= b -> Zdigits2 a <= Zdigits2 b.
Proof.
  intros H. apply Zdigits2_le; [|apply Zdigits2_nonneg].
  pose proof (Zdigits2_lt_pow b ltac:(lia)). lia.
Qed.

(** Dividing by [2^k] removes [k] digits. *)
Lemma div_pow2_lt (m D k : Z) :
  0 <= m < 2 ^ D -> 0 <= k <= D -> m / 2 ^ k < 2 ^ (D - k).
Proof.
  intros Hm Hk.
  apply Z.div_lt_upper_bound; [apply pow2_gt0; lia|].
  rewrite <- pow2_split by lia. replace (k + (D - k)) with D by lia. lia.
Qed.

Lemma div_pow2_small (m D k : Z) :
  0 <= m < 2 ^ D -> 0 <= D <= k -> m / 2 ^ k = 0.
Proof.
  intros Hm Hk. apply Z.div_small.
  assert (2 ^ D <= 2 ^ k) by (apply pow2_le; lia). lia.
Qed.

(** *** Shifting to the right *)

Lemma shr_1_m (r : shr_record) :
  0 <= shr_m r -> shr_m (shr_1 r) = shr_m r / 2 /\ 0 <= shr_m (shr_1 r).
Proof.
  destruct r as [m r s]. cbn [shr_m]. intros Hm.
  destruct m as [|[p|p|]|p]; cbn [shr_1 shr_m]; try lia.
  - split; [reflexivity | lia].
  - split; [|lia].
    apply Z.div_unique with (r := 1); lia.
  - split; [|lia].
    apply Z.div_unique with (r := 0); lia.
  - split; [reflexivity | lia].
Qed.

Lemma iter_shr_1_m (p : positive) (r : shr_record) :
  0 <= shr_m r ->
  shr_m (iter_pos shr_1 p r) = shr_m r / 2 ^ Zpos p /\
  0 <= shr_m (iter_pos shr_1 p r).
Proof.
  revert r. induction p as [p IH | p IH |]; intros r Hr; cbn [iter_pos].
  - destruct (shr_1_m r Hr) as [E1 P1].
    destruct (IH _ P1) as [E2 P2].
    destruct (IH _ P2) as [E3 P3].
    split; [|assumption].
    rewrite E3, E2, E1.
    rewrite !Z.div_div by (try apply pow2_gt0; lia).
    f_equal.
    replace (Z.pos p~1) with (1 + Z.pos p + Z.pos p) by lia.
    rewrite !pow2_split by lia. change (2 ^ 1) with 2. lia.
  - destruct (IH _ Hr) as [E2 P2].
    destruct (IH _ P2) as [E3 P3].
    split; [|assumption].
    rewrite E3, E2.
    rewrite !Z.div_div by (try apply pow2_gt0; lia).
    f_equal.
    replace (Z.pos p~0) with (Z.pos p + Z.pos p) by lia.
    rewrite !pow2_split by lia. lia.
  - destruct (shr_1_m r Hr) as [E1 P1]. split; [|assumption].
    rewrite E1. reflexivity.
Qed.

Lemma shr_spec (r : shr_record) (e n : Z) :
  0 <= shr_m r ->
  snd (shr r e n) = e + Z.max n 0 /\
  shr_m (fst (shr r e n)) = shr_m r / 2 ^ Z.max n 0 /\
  0 <= shr_m (fst (shr r e n)).
Proof.
  intros Hr. destruct n as [|p|p]; cbn [shr fst snd].
  - rewrite Z.div_1_r. cbn. lia.
  - destruct (iter_shr_1_m p r Hr) as [E P].
    rewrite E. replace (Z.max (Z.pos p) 0) with (Z.pos p) by lia. lia.
  - replace (Z.max (Z.neg p) 0) with 0 by lia. rewrite Z.div_1_r. lia.
Qed.

Lemma shr_m_of_loc (m : Z) (l : location) :
  shr_m (shr_record_of_loc m l) = m.
Proof. destruct l as [|[]]; reflexivity. Qed.

Lemma shr_fexp_spec (m e : Z) (l : location) :
  0 <= m ->
  let e' := Z.max e (fexp prec emax (Zdigits2 m + e)) in
  snd (shr_fexp prec emax m e l) = e' /\
  shr_m (fst (shr_fexp prec emax m e l)) = m / 2 ^ (e' - e) /\
  0 <= shr_m (fst (shr_fexp prec emax m e l)).
Proof.
  intros Hm e'. unfold shr_fexp.
  destruct (shr_spec (shr_record_of_loc m l) e
              (fexp prec emax (Zdigits2 m + e) - e)) as (E1 & E2 & E3).
  { rewrite shr_m_of_loc. exact Hm. }
  rewrite shr_m_of_loc in E2.
  replace (Z.max (fexp prec emax (Zdigits2 m + e) - e) 0) with (e' - e) in * by (subst e'; lia).
  repeat split; [lia | exact E2 | exact E3].
Qed.

Lemma round_nearest_even_bounds (m : Z) (l : location) :
  m <= round_nearest_even m l <= m + 1.
Proof.
  destruct l as [|[]]; cbn [round_nearest_even]; try lia.
  destruct (Z.even m); lia.
Qed.

(** *** [binary_round_aux] *)

Lemma fexp_mono (a b : Z) : a <= b -> fexp prec emax a <= fexp prec emax b.
Proof. unfold fexp, emin, prec, emax. lia. Qed.

Lemma binary_round_aux_spec (s : bool) (m e : Z) (l : location) :
  0 <= m ->
  let e1 := Z.max e (fexp prec emax (Zdigits2 m + e)) in
  exists m2,
    m / 2 ^ (e1 - e) <= m2 <= m / 2 ^ (e1 - e) + 1 /\
    let e2 := Z.max e1 (fexp prec emax (Zdigits2 m2 + e1)) in
    let m3 := m2 / 2 ^ (e2 - e1) in
    0 <= m3 /\
    binary_round_aux prec emax s m e l =
      match m3 with
      | Z0 => S754_zero s
      | Zpos p =>
          if e2 <=? emax - prec then S754_finite s p e2 else S754_infinity s
      | Zneg _ => S754_nan
      end.
Proof.
  intros Hm e1. unfold binary_round_aux.
  pose proof (shr_fexp_spec m e l Hm) as H1. cbv zeta in H1.
  destruct (shr_fexp prec emax m e l) as [mrs' e'] eqn:E1.
  cbn [fst snd] in H1. destruct H1 as (He' & Hm1 & Hpos1).
  fold e1 in He', Hm1. subst e'.
  set (m2 := round_nearest_even (shr_m mrs') (loc_of_shr_record mrs')).
  pose proof (round_nearest_even_bounds (shr_m mrs') (loc_of_shr_record mrs')) as Hb.
  fold m2 in Hb.
  exists m2. split; [lia|]. cbv zeta.
  pose proof (shr_fexp_spec m2 e1 loc_Exact ltac:(lia)) as H2. cbv zeta in H2.
  destruct (shr_fexp prec emax m2 e1 loc_Exact) as [mrs'' e''] eqn:E2.
  cbn [fst snd] in H2. destruct H2 as (He'' & Hm3 & Hpos3).
  subst e''. rewrite <- Hm3. split; [exact Hpos3 | reflexivity].
Qed.

(** The rounding of a non-negative significand is not a NaN and keeps
    the sign. *)
Lemma binary_round_aux_signed (s : bool) (m e : Z) (l : location) :
  0 <= m -> signed s (binary_round_aux prec emax s m e l).
Proof.
  intros Hm.
  destruct (binary_round_aux_spec s m e l Hm) as (m2 & _ & H3 & ->).
  destruct (m2 / 2 ^ _) as [|p|p]; [reflexivity | | lia].
  destruct (_ <=? _); reflexivity.
Qed.

(** The rounding does not overflow when the number is below [2^1023],
    and the result is no larger than the next power of two. *)
Lemma binary_round_aux_fbound (m e : Z) (l : location) (B : Z) :
  0 <= m ->
  Z.max e (fexp prec emax (Zdigits2 m + e + 1)) <= emax - prec ->
  Z.max (Zdigits2 m + e) (emin prec emax) + 1 <= B ->
  fbound B (binary_round_aux prec emax false m e l).
Proof.
  intros Hm Hov HB.
  destruct (binary_round_aux_spec false m e l Hm) as (m2 & Hm2 & H3 & ->).
  cbv zeta in *.
  set (e1 := Z.max e (fexp prec emax (Zdigits2 m + e))) in *.
  set (e2 := Z.max e1 (fexp prec emax (Zdigits2 m2 + e1))) in *.
  pose proof (Zdigits2_nonneg m) as Hd0.
  pose proof (Zdigits2_lt_pow m Hm) as Hlt.
  assert (Hm1 : 0 <= m / 2 ^ (e1 - e)).
  { apply Z.div_pos; [exact Hm | apply pow2_gt0; lia]. }
  assert (HA : Zdigits2 m2 + e1 <= Z.max (Zdigits2 m + e) (emin prec emax) + 1).
  { destruct (Z.le_gt_cases e1 (Zdigits2 m + e)) as [Hc|Hc].
    - assert (H1 : m / 2 ^ (e1 - e) < 2 ^ (Zdigits2 m - (e1 - e))).
      { apply div_pow2_lt; lia. }
      assert (H2 : m2 < 2 ^ (Zdigits2 m - (e1 - e) + 1)).
      { rewrite pow2_split by lia. change (2 ^ 1) with 2. lia. }
      pose proof (Zdigits2_le m2 (Zdigits2 m - (e1 - e) + 1) ltac:(lia) ltac:(lia)). lia.
    - assert (H1 : m / 2 ^ (e1 - e) = 0).
      { apply (div_pow2_small m (Zdigits2 m)); lia. }
      assert (H2 : Zdigits2 m2 <= 1).
      { apply Zdigits2_le; [change (2 ^ 1) with 2; lia | lia]. }
      assert (e1 = emin prec emax).
      { subst e1. unfold fexp, emin, prec, emax in *. lia. }
      lia. }
  assert (HB2 : e2 <= emax - prec).
  { subst e2 e1. unfold fexp, emin, prec, emax in *. lia. }
  destruct (m2 / 2 ^ (e2 - e1)) as [|p|p] eqn:E3; [exact I | | lia].
  destruct (Z.leb_spec e2 (emax - prec)); [|lia].
  cbn [fbound].
  assert (HC : Zdigits2 (Z.pos p) + e2 <= Zdigits2 m2 + e1).
  { pose proof (Zdigits2_lt_pow m2 ltac:(lia)) as Hlt2.
    pose proof (Zdigits2_nonneg m2).
    destruct (Z.le_gt_cases (e2 - e1) (Zdigits2 m2)) as [Hc|Hc].
    - assert (H1 : m2 / 2 ^ (e2 - e1) < 2 ^ (Zdigits2 m2 - (e2 - e1))).
      { apply div_pow2_lt; [lia | subst e2; lia]. }
      rewrite E3 in H1.
      pose proof (Zdigits2_le (Z.pos p) (Zdigits2 m2 - (e2 - e1)) ltac:(lia) ltac:(lia)). lia.
    - assert (H1 : m2 / 2 ^ (e2 - e1) = 0).
      { apply (div_pow2_small m2 (Zdigits2 m2)); lia. }
      lia. }
  cbn [Zdigits2] in HC. lia.
Qed.

(** *** Division *)

Lemma div_eucl_div (a b : Z) : fst (Z.div_eucl a b) = a / b.
Proof. reflexivity. Qed.

Lemma fdiv_fbound (mx my : positive) (ex ey c B : Z) :
  0 <= c -> 2 ^ c <= Zpos my ->
  Zpos (digits2_pos mx) + ex - ey - c <= B ->
  emin prec emax <= B <= emax - 1 ->
  fbound (B + 1) (fdiv (S754_finite false mx ex) (S754_finite false my ey)).
Proof.
  intros Hc Hmy HB HB2.
  unfold fdiv, SFdiv, SFdiv_core_binary. cbn [xorb].
  set (d1 := Zdigits2 (Z.pos mx)). set (d2 := Zdigits2 (Z.pos my)).
  set (e' := Z.min (fexp prec emax (d1 + ex - (d2 + ey))) (ex - ey)).
  set (s := ex - ey - e').
  assert (Hs : 0 <= s) by (subst s e'; lia).
  set (m' := match s with
             | 0 => Z.pos mx
             | Z.pos _ => Z.shiftl (Z.pos mx) s
             | Z.neg _ => 0
             end).
  assert (Hm' : m' = Z.pos mx * 2 ^ s).
  { subst m'. destruct s as [|p|p] eqn:Es; [cbn; lia | | lia].
    rewrite Z.shiftl_mul_pow2 by lia. reflexivity. }
  pose proof (div_eucl_div m' (Z.pos my)) as Hq.
  destruct (Z.div_eucl m' (Z.pos my)) as [q r]. cbn [fst] in Hq. subst q.
  assert (Hd1 : Z.pos mx < 2 ^ d1) by (apply Zdigits2_lt_pow; lia).
  assert (Hd1pos : 0 < d1) by (apply Zdigits2_pos; lia).
  assert (Hd2 : c < d2).
  { pose proof (Zdigits2_lt_pow (Z.pos my) ltac:(lia)) as H. fold d2 in H.
    destruct (Z.le_gt_cases d2 c) as [Hle|]; [|lia].
    pose proof (Zdigits2_nonneg (Z.pos my)). fold d2 in H0.
    assert (2 ^ d2 <= 2 ^ c) by (apply pow2_le; lia). lia. }
  assert (Hm'lt : 0 <= m' < 2 ^ (d1 + s)).
  { rewrite Hm', pow2_split by lia. pose proof (pow2_gt0 s Hs). nia. }
  assert (Hq0 : 0 <= m' / Z.pos my) by (apply Z.div_pos; lia).
  assert (He' : e' <= fexp prec emax (d1 + ex - (d2 + ey))) by (subst e'; lia).
  assert (HE : Zdigits2 (m' / Z.pos my) + e' <= B).
  { destruct (Z.le_gt_cases c (d1 + s)) as [Hcase|Hcase].
    - assert (m' / Z.pos my < 2 ^ (d1 + s - c)).
      { apply Z.div_lt_upper_bound; [lia|].
        assert (2 ^ (d1 + s) = 2 ^ c * 2 ^ (d1 + s - c)).
        { rewrite <- pow2_split by lia. f_equal. lia. }
        pose proof (pow2_gt0 (d1 + s - c) ltac:(lia)). nia. }
      pose proof (Zdigits2_le (m' / Z.pos my) (d1 + s - c) ltac:(lia) ltac:(lia)).
      subst s d1. cbn [Zdigits2] in *. lia.
    - assert (m' / Z.pos my = 0) as ->.
      { apply Z.div_small.
        assert (2 ^ (d1 + s) <= 2 ^ c) by (apply pow2_le; lia). lia. }
      cbn [Zdigits2]. subst d1. cbn [Zdigits2] in *.
      unfold fexp, emin, prec, emax in *. lia. }
  apply binary_round_aux_fbound.
  - exact Hq0.
  - pose proof (fexp_mono (Zdigits2 (m' / Z.pos my) + e' + 1) (B + 1) ltac:(lia)).
    subst d1. cbn [Zdigits2] in *.
    unfold fexp, emin, prec, emax in *. lia.
  - lia.
Qed.

(** *** [float(k)] and [int(f)] *)

Lemma pos_iter_xO (p n : positive) :
  Z.pos (Pos.iter xO p n) = Z.pos p * 2 ^ Z.pos n.
Proof.
  induction n as [|n IH] using Pos.peano_ind.
  - cbn. lia.
  - rewrite Pos.iter_succ, Pos2Z.inj_xO, IH, Pos2Z.inj_succ, Z.pow_succ_r by lia.
    lia.
Qed.

Lemma binary_round_fbound (p : positive) (D : Z) :
  Z.pos p < 2 ^ D -> 0 <= D <= emax - 1 ->
  fbound (D + 1) (binary_round prec emax false p 0).
Proof.
  intros Hp HD.
  pose proof (Zdigits2_le (Z.pos p) D ltac:(lia) ltac:(lia)) as Hd.
  pose proof (Zdigits2_pos (Z.pos p) ltac:(lia)) as Hd0.
  cbn [Zdigits2] in Hd, Hd0.
  unfold binary_round, shl_align.
  set (e0 := fexp prec emax (Z.pos (digits2_pos p) + 0)).
  destruct (e0 - 0) as [|n|n] eqn:En.
  - apply binary_round_aux_fbound; [lia | |]; cbn [Zdigits2];
      subst e0; unfold fexp, emin, prec, emax in *; lia.
  - apply binary_round_aux_fbound; [lia | |]; cbn [Zdigits2];
      subst e0; unfold fexp, emin, prec, emax in *; lia.
  - assert (Hz : Zdigits2 (Z.pos (Pos.iter xO p n)) = Z.pos (digits2_pos p) + Z.pos n).
    { rewrite pos_iter_xO, Zdigits2_mul_pow by lia. reflexivity. }
    apply binary_round_aux_fbound; [lia | |]; rewrite Hz;
      subst e0; unfold fexp, emin, prec, emax in *; lia.
Qed.

Lemma float_of_int_fbound (k D : Z) :
  0 <= k < 2 ^ D -> 0 <= D <= emax - 1 ->
  exists f, float_of_int k = Ok f /\ fbound (D + 1) f /\ signed false f.
Proof.
  intros Hk HD. unfold float_of_int, binary_normalize.
  destruct k as [|p|p]; [| |lia].
  - eexists. split; [reflexivity|]. split; exact I || reflexivity.
  - pose proof (binary_round_fbound p D ltac:(lia) HD) as Hb.
    destruct (binary_round prec emax false p 0) as [s|s| |s m e] eqn:E;
      cbn [fbound] in Hb; try contradiction.
    + pose proof (binary_round_aux_signed false) as Hs.
      eexists. split; [reflexivity|]. split; [exact I|].
      unfold binary_round in E.
      destruct (shl_align p 0 _) as [mz ez].
      pose proof (Hs (Z.pos mz) ez loc_Exact ltac:(lia)) as Hs'.
      rewrite E in Hs'. exact Hs'.
    + destruct s; [contradiction|].
      eexists. split; [reflexivity|]. split; [exact Hb | reflexivity].
Qed.

Lemma int_of_float_fbound (f : float) (B : Z) :
  fbound B f -> 0 <= B ->
  exists k, int_of_float f = Ok k /\ 0 <= k < 2 ^ B.
Proof.
  intros Hf HB. pose proof (pow2_gt0 B HB) as HpB.
  destruct f as [s|s| |s m e]; cbn [fbound] in Hf; try contradiction.
  - exists 0. split; [reflexivity | lia].
  - destruct s; [contradiction|]. cbn [int_of_float cond_Zopp].
    eexists. split; [reflexivity|].
    pose proof (Zdigits2_lt_pow (Z.pos m) ltac:(lia)) as Hlt.
    pose proof (Zdigits2_pos (Z.pos m) ltac:(lia)) as Hd0.
    cbn [Zdigits2] in Hlt, Hd0.
    destruct (Z.le_gt_cases 0 e) as [He|He].
    + rewrite Z.shiftl_mul_pow2 by lia.
      pose proof (pow2_gt0 e He).
      assert (2 ^ (Z.pos (digits2_pos m) + e) <= 2 ^ B) by (apply pow2_le; lia).
      rewrite pow2_split in H0 by lia. nia.
    + rewrite Z.shiftl_div_pow2 by lia.
      split; [apply Z.div_pos; [lia | apply pow2_gt0; lia]|].
      destruct (Z.le_gt_cases (- e) (Z.pos (digits2_pos m))) as [Hc|Hc].
      * pose proof (div_pow2_lt (Z.pos m) (Z.pos (digits2_pos m)) (- e) ltac:(lia) ltac:(lia)).
        assert (2 ^ (Z.pos (digits2_pos m) - - e) <= 2 ^ B) by (apply pow2_le; lia).
        lia.
      * rewrite (div_pow2_small (Z.pos m) (Z.pos (digits2_pos m))) by lia. lia.
Qed.

(** *** Comparisons *)

Lemma SFcompare_antisym (a b : float) :
  SFcompare b a = option_map CompOpp (SFcompare a b).
Proof.
  destruct a as [sa|sa| |sa ma ea], b as [sb|sb| |sb mb eb];
    try destruct sa; try destruct sb; try reflexivity;
    cbn [SFcompare option_map]; f_equal;
    rewrite (Z.compare_antisym ea eb);
    destruct (ea ?= eb); cbn [CompOpp]; try reflexivity;
    rewrite <- (Pos.compare_cont_antisym _ _ Eq); cbn [CompOpp];
    try rewrite CompOpp_involutive; reflexivity.
Qed.

Lemma flt_false_fle (a b : float) :
  SFcompare a b <> None -> flt a b = false -> fle b a = true.
Proof.
  unfold flt, fle, SFltb, SFleb. rewrite (SFcompare_antisym a b).
  destruct (SFcompare a b) as [[]|]; cbn; congruence.
Qed.

Lemma signed_compare (s : bool) (p c : float) :
  signed s p -> c <> S754_nan ->
  SFcompare p c <> None /\ SFcompare c p <> None.
Proof.
  intros Hp Hc.
  destruct p as [sp|sp| |sp mp ep]; [| | contradiction|];
    destruct c as [sc|sc| |sc mc ec]; try congruence;
    cbn [SFcompare]; split; try discriminate;
    destruct sp, sc; discriminate.
Qed.

(** Nothing is above 1.25 and below 0.05. *)
Lemma not_above_and_below (p : float) :
  flt f_1_25 p = true -> flt p f_0_05 = false.
Proof.
  unfold flt, SFltb, f_1_25, f_0_05.
  destruct p as [s|s| |s m e]; try destruct s; try reflexivity;
    try discriminate.
  cbn [SFcompare].
  destruct (Z.compare_spec (-52) e); destruct (Z.compare_spec e (-57));
    try lia; try reflexivity; try discriminate.
Qed.

(** The two assignments [min(transfer_fee, maximum_fee)] and
    [max(transfer_fee, minimum_fee)] are the clamp, and they put a number
    that is not a NaN between the two bounds. *)
Lemma min_max_clamp (p : float) :
  signed false p ->
  let r := py_max (py_min p f_1_25) f_0_05 in
  r = spec_clamp p f_0_05 f_1_25 /\
  fle f_0_05 r = true /\ fle r f_1_25 = true.
Proof.
  intros Hp r. subst r. unfold py_max, py_min, spec_clamp.
  destruct (signed_compare false p f_1_25 Hp ltac:(discriminate)) as [H1 H1'].
  destruct (signed_compare false p f_0_05 Hp ltac:(discriminate)) as [H2 H2'].
  destruct (flt f_1_25 p) eqn:Ehi.
  - rewrite (not_above_and_below p Ehi).
    change (flt f_1_25 f_0_05) with false. cbv iota.
    split; [reflexivity|]. split; reflexivity.
  - pose proof (flt_false_fle _ _ H1' Ehi) as Hle.
    destruct (flt p f_0_05) eqn:Elo.
    + split; [reflexivity|]. split; reflexivity.
    + pose proof (flt_false_fle _ _ H2 Elo) as Hge.
      split; [reflexivity|]. split; assumption.
Qed.

(** *** Exact results *)

Lemma shr_1_even (m : Z) :
  0 <= m ->
  shr_1 (Build_shr_record (2 * m) false false) = Build_shr_record m false false.
Proof. destruct m as [|p|p]; intros H; [reflexivity | reflexivity | lia]. Qed.

Lemma iter_shr_1_exact (p : positive) (m : Z) :
  0 <= m ->
  iter_pos shr_1 p (Build_shr_record (m * 2 ^ Z.pos p) false false) =
    Build_shr_record m false false.
Proof.
  revert m. induction p as [p IH | p IH |]; intros m Hm; cbn [iter_pos].
  - replace (m * 2 ^ Z.pos p~1) with (2 * ((m * 2 ^ Z.pos p) * 2 ^ Z.pos p)).
    2:{ replace (Z.pos p~1) with (1 + Z.pos p + Z.pos p) by lia.
        rewrite !pow2_split by lia. change (2 ^ 1) with 2. lia. }
    pose proof (pow2_gt0 (Z.pos p) ltac:(lia)).
    rewrite shr_1_even by nia. rewrite IH by nia. apply IH. exact Hm.
  - replace (m * 2 ^ Z.pos p~0) with ((m * 2 ^ Z.pos p) * 2 ^ Z.pos p).
    2:{ replace (Z.pos p~0) with (Z.pos p + Z.pos p) by lia.
        rewrite !pow2_split by lia. lia. }
    pose proof (pow2_gt0 (Z.pos p) ltac:(lia)).
    rewrite IH by nia. apply IH. exact Hm.
  - change (2 ^ 1) with 2. rewrite Z.mul_comm. apply shr_1_even. exact Hm.
Qed.

(** A significand that ends in enough zeros is rounded to itself. *)
Lemma binary_round_aux_exact (s : bool) (m0 : positive) (n e : Z) :
  0 <= n ->
  fexp prec emax (Z.pos (digits2_pos m0) + (e + n)) = e + n ->
  e + n <= emax - prec ->
  binary_round_aux prec emax s (Z.pos m0 * 2 ^ n) e loc_Exact =
    S754_finite s m0 (e + n).
Proof.
  intros Hn Hcan Hmax.
  unfold binary_round_aux, shr_fexp.
  rewrite Zdigits2_mul_pow by lia. cbn [Zdigits2].
  replace (Z.pos (digits2_pos m0) + n + e) with (Z.pos (digits2_pos m0) + (e + n)) by lia.
  rewrite Hcan. replace (e + n - e) with n by lia.
  cbn [shr_record_of_loc].
  assert (Hshr : shr (Build_shr_record (Z.pos m0 * 2 ^ n) false false) e n =
                 (Build_shr_record (Z.pos m0) false false, e + n)).
  { destruct n as [|p|p]; [| |lia].
    - cbn [shr]. rewrite Z.mul_1_r, Z.add_0_r. reflexivity.
    - cbn [shr]. rewrite iter_shr_1_exact by lia. reflexivity. }
  rewrite Hshr. cbn [shr_m loc_of_shr_record round_nearest_even Zdigits2].
  rewrite Hcan, Z.sub_diag. cbn [shr_record_of_loc shr shr_m].
  destruct (Z.leb_spec (e + n) (emax - prec)); [reflexivity | lia].
Qed.

(** [int(n / 2)] on an even [int] is its half ([n] below [2^53]). *)
Lemma int_half_bind (L : Z) :
  0 <= L < 2 ^ 52 ->
  (q <- int_truediv (2 * L) 2 ;; int_of_float q)%result = Ok L.
Proof.
  intros HL. unfold int_truediv. change (2 =? 0) with false. cbv iota.
  destruct L as [|p|p]; [reflexivity | | lia].
  change (2 * Z.pos p) with (Z.pos p~0). cbn [exact_of_int].
  pose proof (Zdigits2_le (Z.pos p) 52 ltac:(lia) ltac:(lia)) as Hd.
  pose proof (Zdigits2_pos (Z.pos p) ltac:(lia)) as Hd0.
  cbn [Zdigits2] in Hd, Hd0.
  set (dp := Z.pos (digits2_pos p)) in *.
  assert (Hdiv : fdiv (S754_finite false p~0 0) (S754_finite false 2 0) =
                 S754_finite false (Z.to_pos (Z.pos p * 2 ^ (53 - dp))) (dp - 53)).
  { unfold fdiv, SFdiv, SFdiv_core_binary. cbn [xorb].
    change (Zdigits2 2) with 2.
    replace (Zdigits2 (Z.pos p~0)) with (dp + 1).
    2:{ cbn [Zdigits2 digits2_pos]. subst dp. lia. }
    replace (Z.min (fexp prec emax (dp + 1 + 0 - (2 + 0))) (0 - 0)) with (dp - 54).
    2:{ unfold fexp, emin, prec, emax. lia. }
    replace (0 - 0 - (dp - 54)) with (54 - dp) by lia.
    set (m' := match 54 - dp with
               | 0 => Z.pos p~0
               | Z.pos _ => Z.shiftl (Z.pos p~0) (54 - dp)
               | Z.neg _ => 0
               end).
    assert (Hm' : m' = 2 * (Z.pos p * 2 ^ (54 - dp))).
    { subst m'. destruct (54 - dp) as [|k|k] eqn:Ek; [lia | | lia].
      rewrite Z.shiftl_mul_pow2 by lia. lia. }
    pose proof (pow2_gt0 (54 - dp) ltac:(lia)) as Hpw.
    pose proof (Z.div_eucl_eq m' 2 ltac:(lia)) as Heq.
    pose proof (Z.mod_pos_bound m' 2 ltac:(lia)) as Hmod.
    unfold Z.modulo in Hmod.
    destruct (Z.div_eucl m' 2) as [q r].
    assert (r = 0) by lia. assert (q = Z.pos p * 2 ^ (54 - dp)) by lia.
    subst r q.
    change (new_location 2 0) with loc_Exact.
    replace (Z.pos p * 2 ^ (54 - dp))
      with (Z.pos (Z.to_pos (Z.pos p * 2 ^ (53 - dp))) * 2 ^ 1).
    2:{ pose proof (pow2_gt0 (53 - dp) ltac:(lia)).
        rewrite Z2Pos.id by nia.
        replace (54 - dp) with ((53 - dp) + 1) by lia.
        rewrite pow2_split by lia. lia. }
    replace (dp - 53) with (dp - 54 + 1) by lia.
    apply binary_round_aux_exact; [lia | | unfold emax, prec; lia].
    assert (Hz : Z.pos (digits2_pos (Z.to_pos (Z.pos p * 2 ^ (53 - dp)))) = 53).
    { pose proof (pow2_gt0 (53 - dp) ltac:(lia)).
      change (Z.pos (digits2_pos ?x)) with (Zdigits2 (Z.pos x)).
      rewrite Z2Pos.id by nia.
      rewrite Zdigits2_mul_pow by lia. cbn [Zdigits2]. subst dp. lia. }
    rewrite Hz. unfold fexp, emin, prec, emax. lia. }
  rewrite Hdiv. cbn [rbind int_of_float cond_Zopp].
  f_equal.
  pose proof (pow2_gt0 (53 - dp) ltac:(lia)).
  rewrite Z2Pos.id by nia.
  rewrite Z.shiftl_div_pow2 by lia.
  replace (- (dp - 53)) with (53 - dp) by lia.
  apply Z.div_mul. lia.
Qed.

Lemma int_half (L : Z) :
  0 <= L < 2 ^ 52 ->
  exists q, int_truediv (2 * L) 2 = Ok q /\ int_of_float q = Ok L.
Proof.
  intros HL. pose proof (int_half_bind L HL) as H.
  destruct (int_truediv (2 * L) 2) as [q|e]; [|discriminate].
  exists q. split; [reflexivity | exact H].
Qed.

(** *** Short significands and products *)

Lemma binary_round_aux_short (s : bool) (m e : Z) (l : location) :
  0 <= m -> short_significand (binary_round_aux prec emax s m e l).
Proof.
  intros Hm.
  destruct (binary_round_aux_spec s m e l Hm) as (m2 & Hm2 & H3 & ->).
  cbv zeta in *.
  set (e1 := Z.max e (fexp prec emax (Zdigits2 m + e))) in *.
  set (e2 := Z.max e1 (fexp prec emax (Zdigits2 m2 + e1))) in *.
  assert (Hm1 : 0 <= m / 2 ^ (e1 - e)).
  { apply Z.div_pos; [exact Hm | apply pow2_gt0; subst e1; lia]. }
  destruct (m2 / 2 ^ (e2 - e1)) as [|p|p] eqn:E3; [exact I | | exact I].
  destruct (e2 <=? emax - prec); [|exact I].
  cbn [short_significand].
  pose proof (Zdigits2_lt_pow m2 ltac:(lia)) as Hlt2.
  pose proof (Zdigits2_nonneg m2) as Hd2.
  assert (He2 : Zdigits2 m2 - prec <= e2 - e1).
  { subst e2. unfold fexp. lia. }
  destruct (Z.le_gt_cases (e2 - e1) (Zdigits2 m2)) as [Hc|Hc].
  - assert (H1 : m2 / 2 ^ (e2 - e1) < 2 ^ (Zdigits2 m2 - (e2 - e1))).
    { apply div_pow2_lt; [lia | subst e2; lia]. }
    rewrite E3 in H1.
    pose proof (Zdigits2_le (Z.pos p) (Zdigits2 m2 - (e2 - e1))
                  ltac:(lia) ltac:(lia)) as H.
    cbn [Zdigits2] in H. lia.
  - assert (H1 : m2 / 2 ^ (e2 - e1) = 0).
    { apply (div_pow2_small m2 (Zdigits2 m2)); lia. }
    lia.
Qed.

Lemma Zdigits2_mul_le (a b : positive) :
  Zdigits2 (Z.pos (a * b)) <= Zdigits2 (Z.pos a) + Zdigits2 (Z.pos b).
Proof.
  pose proof (Zdigits2_lt_pow (Z.pos a) ltac:(lia)) as Ha.
  pose proof (Zdigits2_lt_pow (Z.pos b) ltac:(lia)) as Hb.
  pose proof (Zdigits2_nonneg (Z.pos a)).
  pose proof (Zdigits2_nonneg (Z.pos b)).
  apply Zdigits2_le; [|lia].
  rewrite Pos2Z.inj_mul, pow2_split by lia. nia.
Qed.

(** The product of a zero or positive finite number below [2^B] with
    1000000.0 is a zero or a positive finite number below [2^(B + 21)]. *)
Lemma fmul_1000000_fbound (f : float) (B : Z) :
  fbound B f -> B <= 1000 ->
  fbound (Z.max (B + 20) (emin prec emax) + 1) (fmul f f_1000000).
Proof.
  intros Hf HB.
  destruct f as [s|s| |s m e]; cbn [fbound] in Hf; try contradiction.
  - exact I.
  - destruct s; [contradiction|].
    unfold fmul, SFmul, f_1000000. cbn [xorb].
    pose proof (Zdigits2_mul_le m 8589934592000000) as Hd.
    change (Zdigits2 (Z.pos 8589934592000000)) with 53 in Hd.
    cbn [Zdigits2] in Hd.
    pose proof (Zdigits2_pos (Z.pos m) ltac:(lia)) as Hm0. cbn [Zdigits2] in Hm0.
    apply binary_round_aux_fbound; [lia | |]; cbn [Zdigits2];
      unfold fexp, emin, prec, emax in *; lia.
Qed.

Lemma fmul_short (a b : float) : short_significand (fmul a b).
Proof.
  destruct a as [sa|sa| |sa ma ea], b as [sb|sb| |sb mb eb]; try exact I.
  unfold fmul, SFmul. apply binary_round_aux_short. lia.
Qed.

(** A number with a short significand that is not above 1.25 and not
    below 0.05 is positive, finite and below 2. *)
Lemma between_fbound (r : float) :
  short_significand r ->
  fle f_0_05 r = true -> fle r f_1_25 = true ->
  fbound 1 r /\ exists m e, r = S754_finite false m e.
Proof.
  intros Hs Hlo Hhi.
  destruct r as [s|s| |s m e]; try destruct s; try discriminate.
  cbn [short_significand fbound] in *.
  split; [|eexists _, _; reflexivity].
  unfold fle, SFleb, f_1_25 in Hhi. cbn [SFcompare] in Hhi.
  destruct (Z.compare_spec e (-52)); unfold prec in *; try lia;
    try discriminate.
Qed.

Lemma clamp_short (p : float) :
  short_significand p ->
  short_significand (py_max (py_min p f_1_25) f_0_05).
Proof.
  intros Hp. unfold py_max, py_min.
  destruct (flt f_1_25 p); [change (flt f_1_25 f_0_05) with false; cbv iota|].
  - cbn. unfold prec. lia.
  - destruct (flt p f_0_05); [cbn; unfold prec; lia | exact Hp].
Qed.

(** ** The fee *)

Lemma fmul_signed (kf : float) :
  signed false kf -> fbound (emax + 1) kf -> signed false (fmul kf f_0_05).
Proof.
  intros Hs Hb.
  destruct kf as [s|s| |s m e]; cbn [fbound signed] in *; try contradiction;
    subst s.
  - reflexivity.
  - unfold fmul, SFmul, f_0_05. cbn [xorb].
    apply binary_round_aux_signed. lia.
Qed.

Lemma bounded_magnitude (m : positive) (e : Z) :
  bounded prec emax m e = true -> Z.pos (digits2_pos m) + e <= emax.
Proof.
  unfold bounded, canonical_mantissa. intros H.
  apply andb_prop in H as [H1 H2].
  apply Z.eqb_eq in H1. apply Z.leb_le in H2.
  unfold fexp, emin, prec, emax in *. lia.
Qed.

Lemma py_truediv_base_amount (a : pynum) :
  amount_in_range a ->
  exists q, py_truediv a (PyInt 10000) = Ok q /\ fbound 1012 q.
Proof.
  intros Ha. destruct a as [z|f]; cbn [amount_in_range] in Ha.
  - cbn [py_truediv]. unfold int_truediv.
    change (10000 =? 0) with false. cbv iota.
    destruct z as [|p|p]; [| |lia].
    + eexists. split; [reflexivity | exact I].
    + cbn [exact_of_int].
      pose proof (fdiv_fbound p 10000 0 0 13 1011 ltac:(lia) ltac:(cbn; lia)) as Hb.
      pose proof (Zdigits2_le (Z.pos p) 1024 ltac:(lia) ltac:(lia)) as Hd.
      cbn [Zdigits2] in Hd.
      specialize (Hb ltac:(lia) ltac:(unfold emin, prec, emax; lia)).
      change (1011 + 1) with 1012 in Hb.
      destruct (fdiv _ _) as [s|s| |s m e]; cbn [fbound] in Hb;
        try contradiction; eexists; (split; [reflexivity | exact Hb]).
  - destruct f as [s|s| |s m e]; try contradiction.
    + eexists. split; [reflexivity | exact I].
    + destruct s; [contradiction|].
      apply bounded_magnitude in Ha.
      pose proof (fdiv_fbound m 5497558138880000 e (-39) 52 1011
                    ltac:(lia) ltac:(cbn; lia)
                    ltac:(unfold emax in Ha; lia)
                    ltac:(unfold emin, prec, emax; lia)) as Hb.
      change (1011 + 1) with 1012 in Hb.
      eexists. split; [reflexivity | exact Hb].
Qed.

Lemma transfer_fee_clamped (self : TransactionCreator) :
  amount_in_range (amount self) ->
  exists fee,
    transfer_fee self = Ok fee /\
    spec_transfer_fee (amount self) = Ok fee /\
    fle f_0_05 fee = true /\ fle fee f_1_25 = true.
Proof.
  intros Ha. unfold transfer_fee, spec_transfer_fee, base_amount.
  destruct (py_truediv_base_amount _ Ha) as (q & -> & Hq).
  cbn [rbind].
  destruct (int_of_float_fbound q 1012 Hq ltac:(lia)) as (k & Hk & Hkr).
  assert (Hfl : spec_floor q = Ok k).
  { destruct q as [s|s| |s m e]; cbn [fbound] in Hq; try contradiction.
    - exact Hk.
    - destruct s; [contradiction | exact Hk]. }
  rewrite Hk, Hfl. cbn [rbind].
  destruct (float_of_int_fbound k 1012 Hkr ltac:(unfold emax; lia))
    as (kf & -> & Hkf & Hs).
  cbn [rbind].
  assert (Hp : signed false (fmul kf f_0_05)).
  { apply fmul_signed; [exact Hs|].
    destruct kf as [s|s| |s m e]; cbn [fbound] in *; try contradiction;
      [exact I|]. destruct s; [contradiction|]. unfold emax. lia. }
  destruct (min_max_clamp _ Hp) as (Hc & Hlo & Hhi).
  eexists. split; [reflexivity|].
  unfold fee_per_base_amount, maximum_fee, minimum_fee.
  rewrite <- Hc. split; [reflexivity|]. split; assumption.
Qed.

(** The decimal literals of the source denote the doubles nearest to
    5/100, 5/4 and 1000000. *)
Example literals_nearest :
  int_truediv 5 100 = Ok f_0_05 /\
  int_truediv 5 4 = Ok f_1_25 /\
  float_of_int 1000000 = Ok f_1000000.
Proof. repeat split; reflexivity. Qed.

(** The transfer fee at the amounts 0, 9999, 10000, 30000, 250000,
    260000 and 10^30: 0.05 below 20000, then 0.05 per full 10000, and
    1.25 from 250000 on. *)
Example transfer_fee_at_boundaries :
  transfer_fee (sample_request None) = Ok f_0_05 /\
  map (fun a => transfer_fee
                  (init_default sample_public_key (PyInt a) sample_address None))
      [0; 9999; 10000; 30000; 250000; 260000; 10 ^ 30]
  = [Ok f_0_05; Ok f_0_05; Ok f_0_05;
     Ok (S754_finite false 5404319552844596 (-55));
     Ok f_1_25; Ok f_1_25; Ok f_1_25].
Proof. split; vm_compute; reflexivity. Qed.

(** C2.  For every non-negative amount (an [int], or a finite [float])
    the transfer fee is clamp(floor(amount / 10000) * 0.05, 0.05, 1.25),
    so that 0.05 <= transfer_fee <= 1.25; and for the amount 12 without a
    message the fee field is 8 bytes that read 50000. *)
Theorem calc_fee_transfer_fee :
  (forall self : TransactionCreator,
      amount_in_range (amount self) ->
      exists fee,
        transfer_fee self = Ok fee /\
        spec_transfer_fee (amount self) = Ok fee /\
        fle f_0_05 fee = true /\ fle fee f_1_25 = true) /\
  (forall self : TransactionCreator,
      amount self = PyInt 12 ->
      truthy (message self) = false ->
      nem_to_micronem self = f_1000000 ->
      exists b,
        calc_fee self = Ok b /\ len b = 8 /\ from_bytes_little b = 50000).
Proof.
  split.
  - exact transfer_fee_clamped.
  - intros self Ha Hm Hc.
    exists (le_digits 8 50000).
    unfold calc_fee, transfer_fee, message_fee.
    rewrite Ha, Hm, Hc.
    split; [vm_compute; reflexivity|]. split; reflexivity.
Qed.

Lemma calc_fee_transfer_fee_witness :
  let self := sample_request None in
  amount_in_range (amount self) /\
  exists fee,
    transfer_fee self = Ok fee /\
    spec_transfer_fee (amount self) = Ok fee /\
    fle f_0_05 fee = true /\ fle fee f_1_25 = true.
Proof.
  intros self.
  assert (H : amount_in_range (amount self)).
  { cbn. split; [lia | reflexivity]. }
  split; [exact H|].
  exact (proj1 calc_fee_transfer_fee self H).
Defined.

(** *** The fee and the amount of a request without a message *)

Lemma transfer_fee_below_2 (self : TransactionCreator) :
  amount_in_range (amount self) ->
  exists m e,
    transfer_fee self = Ok (S754_finite false m e) /\
    Zpos (digits2_pos m) + e <= 1.
Proof.
  intros Ha.
  destruct (transfer_fee_clamped self Ha) as (fee & Hfee & _ & Hlo & Hhi).
  assert (Hs : short_significand fee).
  { unfold transfer_fee in Hfee.
    destruct (py_truediv _ _) as [q|]; [|discriminate]. cbn [rbind] in Hfee.
    destruct (int_of_float q) as [k|]; [|discriminate]. cbn [rbind] in Hfee.
    destruct (float_of_int k) as [kf|]; [|discriminate]. cbn [rbind] in Hfee.
    injection Hfee as <-. apply clamp_short, fmul_short. }
  destruct (between_fbound fee Hs Hlo Hhi) as (Hb & m & e & ->).
  exists m, e. split; [exact Hfee | exact Hb].
Qed.

Lemma calc_fee_no_message (self : TransactionCreator) :
  amount_in_range (amount self) ->
  truthy (message self) = false ->
  nem_to_micronem self = f_1000000 ->
  exists fee, calc_fee self = Ok fee.
Proof.
  intros Ha Hmsg Hc.
  destruct (transfer_fee_below_2 self Ha) as (m & e & Htf & Hb).
  unfold calc_fee, message_fee. rewrite Htf, Hmsg, Hc.
  cbn [rbind negb].
  change (py_add (PyFloat (S754_finite false m e)) (PyInt 0))
    with (Ok (PyFloat (S754_finite false m e))).
  cbn [rbind py_mul as_float py_int].
  pose proof (fmul_1000000_fbound (S754_finite false m e) 1 Hb ltac:(lia)) as Hf.
  replace (Z.max (1 + 20) (emin prec emax) + 1) with 22 in Hf
    by (unfold emin, prec, emax; lia).
  destruct (int_of_float_fbound _ 22 Hf ltac:(lia)) as (v & -> & Hv).
  cbn [rbind]. unfold convert_number_to_byte.
  assert (2 ^ 22 < 2 ^ (8 * 8)) by reflexivity.
  rewrite to_bytes_little_ok by lia. eexists. reflexivity.
Qed.

Lemma amount_encodable_in_range (a : pynum) :
  amount_encodable a -> amount_in_range a.
Proof.
  destruct a as [z|[s|s| |s m e]]; cbn; try tauto.
  - intros H. assert (2 ^ 40 < 2 ^ 1024) by reflexivity. lia.
  - destruct s; tauto.
Qed.

Lemma get_amount_total (self : TransactionCreator) :
  amount_encodable (amount self) ->
  nem_to_micronem self = f_1000000 ->
  exists amt, get_amount self = Ok amt.
Proof.
  intros Ha Hc. unfold get_amount. rewrite Hc.
  assert (Hf : exists f, py_mul (amount self) (PyFloat f_1000000) = Ok (PyFloat f) /\
                         fbound 62 f).
  { destruct (amount self) as [z|f]; cbn [amount_encodable] in Ha.
    - cbn [py_mul as_float].
      destruct (float_of_int_fbound z 40 Ha ltac:(unfold emax; lia))
        as (zf & -> & Hzf & _).
      cbn [rbind]. eexists. split; [reflexivity|].
      pose proof (fmul_1000000_fbound zf 41 Hzf ltac:(lia)) as H.
      replace (Z.max (41 + 20) (emin prec emax) + 1) with 62 in H
        by (unfold emin, prec, emax; lia).
      exact H.
    - cbn [py_mul as_float rbind]. eexists. split; [reflexivity|].
      assert (Hb : fbound 40 f).
      { destruct f as [s|s| |s m e]; try contradiction; [exact I|].
        destruct s; [contradiction|]. cbn [fbound]. tauto. }
      pose proof (fmul_1000000_fbound f 40 Hb ltac:(lia)) as H.
      destruct (fmul f f_1000000) as [s|s| |s m e]; cbn [fbound] in *;
        try contradiction; [exact I|].
      destruct s; [contradiction|]. unfold emin, prec, emax in H. lia. }
  destruct Hf as (f & -> & Hf). cbn [rbind py_int].
  destruct (int_of_float_fbound _ 62 Hf ltac:(lia)) as (v & -> & Hv).
  cbn [rbind]. unfold convert_number_to_byte.
  assert (2 ^ 62 < 2 ^ (8 * 8)) by reflexivity.
  rewrite to_bytes_little_ok by lia. eexists. reflexivity.
Qed.

(** ** The message fields *)

Lemma utf8_char_ascii (c : N) :
  Z.of_N c < 0x80 -> utf8_char c = Ok [byte_of_Z (Z.of_N c)].
Proof.
  intros H. unfold utf8_char. cbv zeta.
  destruct (Z.ltb_spec (Z.of_N c) 0x80); [reflexivity | lia].
Qed.

Lemma hex_digit_ascii (d : Z) : 0 <= d < 16 -> Z.of_N (hex_digit d) < 0x80.
Proof.
  intros H. unfold hex_digit. destruct (d <? 10); lia.
Qed.

Lemma encode_utf8_bytes_hex (u : bytes) :
  encode_utf8 (bytes_hex u) = Ok (hex_ascii u).
Proof.
  induction u as [|x u IH]; [reflexivity|].
  cbn [bytes_hex hex_ascii flat_map app encode_utf8].
  fold (bytes_hex u). fold (hex_ascii u).
  pose proof (Z_of_byte_range x) as Hx.
  rewrite !utf8_char_ascii.
  - cbn [rbind]. rewrite IH. reflexivity.
  - apply hex_digit_ascii. apply Z.mod_pos_bound. lia.
  - apply hex_digit_ascii. split; [apply Z.div_pos; lia|].
    apply Z.div_lt_upper_bound; lia.
Qed.

Lemma hex_ascii_length (u : bytes) : len (hex_ascii u) = 2 * len u.
Proof.
  unfold len. induction u as [|x u IH]; [reflexivity|].
  cbn [hex_ascii flat_map app List.length]. fold (hex_ascii u). lia.
Qed.

Lemma message_type_tag_range (t : str_or_bytes) (tag : Z) :
  message_type_tag t = Some tag -> tag = 1 \/ tag = 2.
Proof.
  destruct t as [s|b]; cbn [message_type_tag]; [|discriminate].
  destruct (pystr_eqb s (str "plane")); [intros [= <-]; auto|].
  destruct (pystr_eqb s (str "encryption")); [intros [= <-]; auto|].
  discriminate.
Qed.

(** The state that a successful [set_message_info] leaves *)
Lemma set_message_info_ok (s : TransactionCreator) (n : nat) (tag : Z)
    (m : pystr) (u : bytes) :
  message_type_tag (message_type s) = Some tag ->
  message s = Some m ->
  encode_utf8 m = Ok u ->
  len u + 8 < 2 ^ 32 ->
  set_message_info (s, n) =
    (Ok tt,
     (set_payload_length (le_digits 4 (len u))
        (set_message_field (le_digits 4 (8 + len u))
           (set_payload (hex_ascii u)
              (set_message_type (ABytes (le_digits 4 tag)) s))), n)).
Proof.
  intros Htag Hm Hu HL.
  assert (Hlen : 0 <= len u) by (unfold len; lia).
  unfold set_message_info.
  rewrite (bind_ok _ _ (s, n) (s, n) s) by reflexivity.
  set (s1 := set_message_type (ABytes (le_digits 4 tag)) s).
  erewrite (bind_ok _ _ (s, n) (s1, n) tt).
  2:{ destruct (message_type s) as [t|b]; cbn [message_type_tag] in Htag;
        [|discriminate].
      destruct (pystr_eqb t (str "plane")).
      - injection Htag as <-. reflexivity.
      - destruct (pystr_eqb t (str "encryption")); [|discriminate].
        injection Htag as <-. reflexivity. }
  rewrite Hm. cbn [attr].
  rewrite (bind_ok _ _ (s1, n) (s1, n) m) by reflexivity.
  rewrite (bind_ok _ _ (s1, n) (s1, n) u) by (unfold lift; rewrite Hu; reflexivity).
  rewrite (bind_ok _ _ (s1, n) (s1, n) (hex_ascii u))
    by (unfold lift; rewrite encode_utf8_bytes_hex; reflexivity).
  rewrite (bind_ok _ _ (s1, n) (set_payload (hex_ascii u) s1, n) tt) by reflexivity.
  rewrite hex_ascii_length.
  destruct (int_half (len u)) as (q & Hq & Hi).
  { split; [lia|]. assert (2 ^ 32 < 2 ^ 52) by reflexivity. lia. }
  erewrite bind_ok; [| unfold lift; rewrite Hq; reflexivity].
  erewrite bind_ok; [| unfold lift; rewrite Hi; reflexivity].
  replace (4 + 4 + len u) with (8 + len u) by lia.
  destruct (convert_number_to_byte_4 (8 + len u) ltac:(lia)) as [E1 _].
  destruct (convert_number_to_byte_4 (len u) ltac:(lia)) as [E2 _].
  erewrite bind_ok; [| unfold lift; rewrite E1; reflexivity].
  erewrite bind_ok; [| reflexivity].
  erewrite bind_ok; [| unfold lift; rewrite E2; reflexivity].
  reflexivity.
Qed.

(** Any other message type: [set_message_info] raises at once. *)
Lemma set_message_info_invalid (s : TransactionCreator) (n : nat) :
  message_type_tag (message_type s) = None ->
  set_message_info (s, n) = (Err InvalidMessageTypeError, (s, n)).
Proof.
  intros Htag. unfold set_message_info.
  rewrite (bind_ok _ _ (s, n) (s, n) s) by reflexivity.
  apply bind_err.
  destruct (message_type s) as [t|b]; cbn [message_type_tag] in Htag;
    [|reflexivity].
  destruct (pystr_eqb t (str "plane")); [discriminate|].
  destruct (pystr_eqb t (str "encryption")); [discriminate|].
  reflexivity.
Qed.

Lemma run_step1_message (s : TransactionCreator) (n : nat) :
  truthy (message s) = true -> run_step1 (s, n) = set_message_info (s, n).
Proof.
  intros H. unfold run_step1.
  rewrite (bind_ok _ _ (s, n) (s, n) s) by reflexivity.
  rewrite H. reflexivity.
Qed.

Lemma run_step1_no_message (s : TransactionCreator) (n : nat) :
  truthy (message s) = false ->
  run_step1 (s, n) = (Ok tt, (set_message_field (le_digits 4 0) s, n)).
Proof.
  intros H. unfold run_step1.
  rewrite (bind_ok _ _ (s, n) (s, n) s) by reflexivity.
  rewrite H. reflexivity.
Qed.

(** [set_message_info], case by case *)
Lemma set_message_info_eq (s : TransactionCreator) (n : nat) :
  set_message_info (s, n) =
    match message_type_tag (message_type s) with
    | None => (Err InvalidMessageTypeError, (s, n))
    | Some tag =>
        let s1 := set_message_type (ABytes (le_digits 4 tag)) s in
        match (m <- attr (message s) ;;
               u <- encode_utf8 m ;;
               encode_utf8 (bytes_hex u))%result with
        | Err e => (Err e, (s1, n))
        | Ok p =>
            let s2 := set_payload p s1 in
            match (q <- int_truediv (len p) 2 ;; int_of_float q)%result with
            | Err e => (Err e, (s2, n))
            | Ok L =>
                match convert_number_to_byte (4 + 4 + L) 4 with
                | Err e => (Err e, (s2, n))
                | Ok mf =>
                    let s3 := set_message_field mf s2 in
                    match convert_number_to_byte L 4 with
                    | Err e => (Err e, (s3, n))
                    | Ok pl => (Ok tt, (set_payload_length pl s3, n))
                    end
                end
            end
        end
    end.
Proof.
  unfold set_message_info.
  rewrite (bind_ok _ _ (s, n) (s, n) s) by reflexivity.
  unfold message_type_tag.
  destruct (message_type s) as [t|b]; [|reflexivity].
  assert (Hgo : forall tag,
    bind (b <- lift (convert_number_to_byte tag 4) ;;
          assign (set_message_type (ABytes b)))%M
      (fun _ =>
        (m <- lift (attr (message s)) ;;
         u <- lift (encode_utf8 m) ;;
         p <- lift (encode_utf8 (bytes_hex u)) ;;
         assign (set_payload p) ;;
         q <- lift (int_truediv (len p) 2) ;;
         payload_length <- lift (int_of_float q) ;;
         mf <- lift (convert_number_to_byte (4 + 4 + payload_length) 4) ;;
         assign (set_message_field mf) ;;
         pl <- lift (convert_number_to_byte payload_length 4) ;;
         assign (set_payload_length pl))%M) (s, n) =
    match convert_number_to_byte tag 4 with
    | Err e => (Err e, (s, n))
    | Ok tb =>
        let s1 := set_message_type (ABytes tb) s in
        match (m <- attr (message s) ;;
               u <- encode_utf8 m ;;
               encode_utf8 (bytes_hex u))%result with
        | Err e => (Err e, (s1, n))
        | Ok p =>
            let s2 := set_payload p s1 in
            match (q <- int_truediv (len p) 2 ;; int_of_float q)%result with
            | Err e => (Err e, (s2, n))
            | Ok L =>
                match convert_number_to_byte (4 + 4 + L) 4 with
                | Err e => (Err e, (s2, n))
                | Ok mf =>
                    let s3 := set_message_field mf s2 in
                    match convert_number_to_byte L 4 with
                    | Err e => (Err e, (s3, n))
                    | Ok pl => (Ok tt, (set_payload_length pl s3, n))
                    end
                end
            end
        end
    end).
  { intros tag. unfold bind, lift, assign, rbind. cbn [fst snd].
    destruct (convert_number_to_byte tag 4) as [tb|]; [|reflexivity].
    destruct (attr (message s)) as [m|]; [|reflexivity].
    destruct (encode_utf8 m) as [u|]; [|reflexivity].
    destruct (encode_utf8 (bytes_hex u)) as [p|]; [|reflexivity].
    destruct (int_truediv (len p) 2) as [q|]; [|reflexivity].
    destruct (int_of_float q) as [L|]; [|reflexivity].
    destruct (convert_number_to_byte (4 + 4 + L) 4) as [mf|]; [|reflexivity].
    destruct (convert_number_to_byte L 4) as [pl|]; reflexivity. }
  destruct (pystr_eqb t (str "plane")); [exact (Hgo 1)|].
  destruct (pystr_eqb t (str "encryption")); [exact (Hgo 2)|].
  reflexivity.
Qed.

(** The cases of [set_message_info_eq], one goal for each *)
Ltac set_message_info_cases s :=
  rewrite ?set_message_info_eq;
  destruct (message_type_tag (message_type s)) as [?tag|]; cbv zeta;
  [ destruct (m <- attr (message s) ;; u <- encode_utf8 m ;;
              encode_utf8 (bytes_hex u))%result as [?p|];
    [ match goal with
      | |- context [int_truediv (len ?p) 2] =>
          destruct (q <- int_truediv (len p) 2 ;; int_of_float q)%result
            as [?L|];
          [ match goal with
            | |- context [convert_number_to_byte (4 + 4 + ?L) 4] =>
                destruct (convert_number_to_byte (4 + 4 + L) 4) as [?mf|];
                [ destruct (convert_number_to_byte L 4) as [?pl|] | ]
            end
          | ]
      end
    | ]
  | ].

Lemma message_type_tag_plane (t : str_or_bytes) :
  t = AStr (str "plane") -> message_type_tag t = Some 1.
Proof. intros ->. reflexivity. Qed.

Lemma message_type_tag_encryption (t : str_or_bytes) :
  t = AStr (str "encryption") -> message_type_tag t = Some 2.
Proof. intros ->. reflexivity. Qed.

Lemma message_type_tag_other (t : str_or_bytes) :
  t <> AStr (str "plane") -> t <> AStr (str "encryption") ->
  message_type_tag t = None.
Proof.
  intros H1 H2. destruct t as [s|b]; [|reflexivity]. cbn [message_type_tag].
  destruct (pystr_eqb s (str "plane")) eqn:E1.
  { apply pystr_eqb_eq in E1. subst s. contradiction. }
  destruct (pystr_eqb s (str "encryption")) eqn:E2.
  { apply pystr_eqb_eq in E2. subst s. contradiction. }
  reflexivity.
Qed.

Lemma le_digits_4 (v : Z) :
  0 <= v < 2 ^ 32 ->
  len (le_digits 4 v) = 4 /\ from_bytes_little (le_digits 4 v) = v.
Proof.
  intros Hv. split; [reflexivity|].
  apply from_bytes_le_digits_small. exact Hv.
Qed.

(** When [run] returns for an object with a message, its output ends with
    the four message fields. *)
Lemma run_message_suffix (clock : nat -> Z) (s : TransactionCreator) (n : nat)
    (tag : Z) (m : pystr) (u out : bytes) :
  message_type_tag (message_type s) = Some tag ->
  message s = Some m ->
  encode_utf8 m = Ok u ->
  len u + 8 < 2 ^ 32 ->
  truthy (message s) = true ->
  fst (run clock (s, n)) = Ok out ->
  exists pre,
    out = pre ++ le_digits 4 (8 + len u) ++ le_digits 4 tag ++
          le_digits 4 (len u) ++ hex_ascii u.
Proof.
  intros Htag Hm Hu HL Ht Hrun.
  destruct (run_inv clock _ _ Hrun) as (s1 & n1 & h & b & H1 & H2 & H3 & ->).
  rewrite (run_step1_message _ _ Ht) in H1.
  rewrite (set_message_info_ok _ _ _ _ _ Htag Hm Hu HL) in H1.
  pose proof (f_equal (fun x => fst (snd x)) H1) as Hs.
  cbn [fst snd] in Hs. subst s1. clear H1 H2.
  unfold transfer_payload in H3.
  destruct (get_address_length _) as [al|]; [|discriminate].
  destruct (get_address _) as [ad|]; [|discriminate].
  destruct (get_amount _) as [am|]; [|discriminate].
  cbn [rbind attr as_bytes message_field message_type payload_length
       payload message set_payload_length set_message_field set_payload
       set_message_type] in H3.
  rewrite Ht in H3. cbn [rbind] in H3.
  assert (Hb : b = al ++ ad ++ am ++ le_digits 4 (8 + len u) ++
                   le_digits 4 tag ++ le_digits 4 (len u) ++ hex_ascii u)
    by congruence.
  rewrite Hb.
  match goal with
  | |- exists _, (?c ++ h) ++ ?t ++ _ = _ =>
      exists ((c ++ h) ++ t ++ al ++ ad ++ am)
  end.
  rewrite <- !app_assoc. reflexivity.
Qed.

(** C4.  For a message whose UTF-8 encoding has [L] bytes (and a message
    type that [set_message_info] accepts, [8 + L] fitting 4 bytes),
    [set_message_info] returns and leaves the four fields of the message
    sub-block: the 4-byte [message_field] reading [8 + L], the 4-byte type
    tag, the 4-byte [payload_length] reading [L], and the payload, which
    is the [2 * L] ASCII hex digits of the UTF-8 bytes; the output of
    [run] ends with these four fields in this order.  For the message
    ['NEM'] the payload length reads 3, the message field length 11, and
    the payload has 6 bytes. *)
Theorem set_message_info_layout :
  (forall (s : TransactionCreator) (n : nat) (tag : Z) (m : pystr) (u : bytes),
      message_type_tag (message_type s) = Some tag ->
      message s = Some m ->
      encode_utf8 m = Ok u ->
      len u + 8 < 2 ^ 32 ->
      exists s' mf mt pl p,
        set_message_info (s, n) = (Ok tt, (s', n)) /\
        message_field s' = Some mf /\ message_type s' = ABytes mt /\
        payload_length s' = Some pl /\ payload s' = Some p /\
        len mf = 4 /\ from_bytes_little mf = 8 + len u /\
        len mt = 4 /\ from_bytes_little mt = tag /\
        len pl = 4 /\ from_bytes_little pl = len u /\
        p = hex_ascii u /\ len p = 2 * len u /\
        (forall clock out,
            truthy (message s) = true ->
            fst (run clock (s, n)) = Ok out ->
            exists pre, out = pre ++ mf ++ mt ++ pl ++ p)) /\
  (forall (s : TransactionCreator) (n : nat) (tag : Z),
      message_type_tag (message_type s) = Some tag ->
      message s = Some (str "NEM") ->
      exists s' mf pl p,
        set_message_info (s, n) = (Ok tt, (s', n)) /\
        message_field s' = Some mf /\
        payload_length s' = Some pl /\ payload s' = Some p /\
        from_bytes_little pl = 3 /\ from_bytes_little mf = 11 /\ len p = 6).
Proof.
  split.
  - intros s n tag m u Htag Hm Hu HL.
    assert (Hlen : 0 <= len u) by (unfold len; lia).
    pose proof (set_message_info_ok s n tag m u Htag Hm Hu HL) as Hok.
    destruct (le_digits_4 (8 + len u) ltac:(lia)) as [L1 D1].
    destruct (le_digits_4 (len u) ltac:(lia)) as [L3 D3].
    destruct (le_digits_4 tag) as [L2 D2].
    { destruct (message_type_tag_range _ _ Htag) as [-> | ->]; lia. }
    eexists _, _, _, _, _. split; [exact Hok|].
    cbn [message_field message_type payload_length payload
         set_payload_length set_message_field set_payload set_message_type].
    repeat match goal with |- _ /\ _ => split end;
      try reflexivity; try assumption.
    + apply hex_ascii_length.
    + intros clock out Ht Hrun.
      exact (run_message_suffix clock s n tag m u out Htag Hm Hu HL Ht Hrun).
  - intros s n tag Htag Hm.
    pose proof (set_message_info_ok s n tag (str "NEM") _ Htag Hm eq_refl
                  ltac:(reflexivity)) as Hok.
    eexists _, _, _, _. split; [exact Hok|].
    cbn [message_field message_type payload_length payload
         set_payload_length set_message_field set_payload set_message_type].
    repeat match goal with |- _ /\ _ => split end; reflexivity.
Qed.

Lemma set_message_info_layout_witness :
  let s := init_default (str "ab") (PyInt 12) (str "TB") (Some (str "NEM")) in
  message_type_tag (message_type s) = Some 1 /\
  message s = Some (str "NEM") /\
  exists s' mf pl p,
    set_message_info (s, O) = (Ok tt, (s', O)) /\
    message_field s' = Some mf /\
    payload_length s' = Some pl /\ payload s' = Some p /\
    from_bytes_little pl = 3 /\ from_bytes_little mf = 11 /\ len p = 6.
Proof.
  intros s. split; [reflexivity|]. split; [reflexivity|].
  apply (proj2 set_message_info_layout s O 1); reflexivity.
Defined.

(** The message types of the specification are not those of the code:
    with ['plain'], and with ['encrypted'], [run] raises. *)
Lemma plain_message_type_raises :
  fst (run sample_clock
         (init sample_public_key (PyInt 12) sample_address (Some (str "NEM"))
               (str "plain") (str "transfer") (str "test"), O))
    = Err InvalidMessageTypeError /\
  fst (run sample_clock
         (init sample_public_key (PyInt 12) sample_address (Some (str "NEM"))
               (str "encrypted") (str "transfer") (str "test"), O))
    = Err InvalidMessageTypeError.
Proof. split; vm_compute; reflexivity. Qed.

(** C5, amended.  For a request that carries a message, the message type
    ['plane'] gives the 4-byte tag 1 and ['encryption'] the 4-byte tag 2,
    and the tag follows the message field length in the output of [run];
    any other message type (['plain'] and ['encrypted'] among them) makes
    [set_message_info], and with it [run], raise the invalid-message-type
    exception, the object left as it was. *)
Theorem message_type_tags :
  (forall (s : TransactionCreator) (n : nat) (m : pystr) (u : bytes) (tag : Z),
      message s = Some m ->
      encode_utf8 m = Ok u ->
      len u + 8 < 2 ^ 32 ->
      (message_type s = AStr (str "plane") /\ tag = 1) \/
      (message_type s = AStr (str "encryption") /\ tag = 2) ->
      exists s' mt,
        set_message_info (s, n) = (Ok tt, (s', n)) /\
        message_type s' = ABytes mt /\
        len mt = 4 /\ from_bytes_little mt = tag /\
        (forall clock out,
            truthy (message s) = true ->
            fst (run clock (s, n)) = Ok out ->
            exists pre post,
              out = pre ++ le_digits 4 (8 + len u) ++ mt ++ post)) /\
  (forall (s : TransactionCreator) (n : nat),
      message_type s <> AStr (str "plane") ->
      message_type s <> AStr (str "encryption") ->
      set_message_info (s, n) = (Err InvalidMessageTypeError, (s, n)) /\
      (truthy (message s) = true ->
       forall clock, run clock (s, n) = (Err InvalidMessageTypeError, (s, n)))).
Proof.
  split.
  - intros s n m u tag Hm Hu HL Hty.
    assert (Htag : message_type_tag (message_type s) = Some tag).
    { destruct Hty as [[-> ->] | [-> ->]]; reflexivity. }
    assert (Hr : 0 <= tag < 2 ^ 32).
    { destruct Hty as [[_ ->] | [_ ->]]; lia. }
    destruct (le_digits_4 tag Hr) as [L2 D2].
    eexists _, _. split; [exact (set_message_info_ok s n tag m u Htag Hm Hu HL)|].
    cbn [message_type set_payload_length set_message_field set_payload
         set_message_type].
    split; [reflexivity|]. split; [exact L2|]. split; [exact D2|].
    intros clock out Ht Hrun.
    destruct (run_message_suffix clock s n tag m u out Htag Hm Hu HL Ht Hrun)
      as [pre ->].
    exists pre, (le_digits 4 (len u) ++ hex_ascii u). reflexivity.
  - intros s n H1 H2.
    pose proof (set_message_info_invalid s n (message_type_tag_other _ H1 H2))
      as Hinv.
    split; [exact Hinv|].
    intros Ht clock. apply run_err_step1.
    rewrite (run_step1_message _ _ Ht). exact Hinv.
Qed.

Lemma message_type_tags_witness :
  let s := sample_request (Some (str "NEM")) in
  message s = Some (str "NEM") /\
  message_type s = AStr (str "plane") /\
  exists s' mt,
    set_message_info (s, O) = (Ok tt, (s', O)) /\
    message_type s' = ABytes mt /\
    len mt = 4 /\ from_bytes_little mt = 1 /\
    (forall clock out,
        truthy (message s) = true ->
        fst (run clock (s, O)) = Ok out ->
        exists pre post,
          out = pre ++ le_digits 4 (8 + 3) ++ mt ++ post).
Proof.
  intros s. split; [reflexivity|]. split; [reflexivity|].
  apply (proj1 message_type_tags s O (str "NEM")
           [byte_of_Z 78; byte_of_Z 69; byte_of_Z 77] 1);
    [reflexivity | reflexivity | reflexivity | left; split; reflexivity].
Defined.

(** ** The type code *)

Lemma dict_get_absent (d : list (pystr * Z)) (key : pystr) :
  ~ In key (map fst d) -> dict_get d key = Err KeyError.
Proof.
  induction d as [|[k v] d IH]; intros H; [reflexivity|].
  cbn [dict_get]. cbn [map fst In] in H.
  destruct (pystr_eqb k key) eqn:E.
  - apply pystr_eqb_eq in E. tauto.
  - apply IH. tauto.
Qed.

(** Step.1 of [run] assigns the message attributes only, whether it
    raises or not. *)
Lemma run_step1_preserves (s : TransactionCreator) (n : nat) :
  let st' := snd (run_step1 (s, n)) in
  same_request s (fst st') /\
  common_data (fst st') = common_data s /\
  transfer_data (fst st') = transfer_data s /\
  snd st' = n.
Proof.
  cbv zeta. destruct (truthy (message s)) eqn:Ht.
  - rewrite (run_step1_message _ _ Ht).
    set_message_info_cases s; cbn [fst snd]; unfold same_request;
      repeat split; reflexivity.
  - rewrite (run_step1_no_message _ _ Ht). cbn [fst snd].
    unfold same_request. repeat split; reflexivity.
Qed.

Lemma get_transaction_type_same (s s' : TransactionCreator) :
  same_request s s' -> get_transaction_type s' = get_transaction_type s.
Proof.
  intros (_ & _ & _ & _ & _ & _ & H & _).
  unfold get_transaction_type. rewrite H. reflexivity.
Qed.

(** With an unknown kind and a message type that is not accepted, the
    exception that [run] raises is the one of the message type. *)
Lemma unknown_kind_other_exception :
  let s := init sample_public_key (PyInt 12) sample_address (Some (str "NEM"))
                (str "secret") (str "transfre") (str "test") in
  ~ In (transaction_type s) (map fst spec_type_table) /\
  get_transaction_type s = Err KeyError /\
  fst (run sample_clock (s, O)) = Err InvalidMessageTypeError.
Proof.
  intros s. split; [|split; vm_compute; reflexivity].
  cbn. intros H.
  repeat (destruct H as [H|H]; [discriminate H|]). exact H.
Qed.

(** C7, amended.  [get_transaction_type] maps each kind of the table to
    the 4 little-endian bytes of its code and raises [KeyError] for every
    kind that is not in the table; with such a kind [run] raises before a
    byte is appended to [common_data] or [transfer_data], and the
    exception is [KeyError] unless Step.1, which runs first, has raised
    already (as it does on a message with a message type that is not
    accepted); without a message it is always [KeyError]. *)
Theorem get_transaction_type_spec :
  TRANSACTION_TYPE = spec_type_table /\
  Forall (fun kc =>
            forall self : TransactionCreator,
              transaction_type self = fst kc ->
              get_transaction_type self = Ok (le_digits 4 (snd kc)) /\
              len (le_digits 4 (snd kc)) = 4 /\
              from_bytes_little (le_digits 4 (snd kc)) = snd kc)
         spec_type_table /\
  (forall self : TransactionCreator,
      ~ In (transaction_type self) (map fst spec_type_table) ->
      get_transaction_type self = Err KeyError) /\
  (forall (clock : nat -> Z) (self : TransactionCreator) (n : nat),
      ~ In (transaction_type self) (map fst spec_type_table) ->
      exists e st',
        run clock (self, n) = (Err e, st') /\
        common_data (fst st') = common_data self /\
        transfer_data (fst st') = transfer_data self /\
        (fst (run_step1 (self, n)) = Ok tt -> e = KeyError) /\
        (truthy (message self) = false -> e = KeyError)).
Proof.
  assert (Habs : forall self : TransactionCreator,
             ~ In (transaction_type self) (map fst spec_type_table) ->
             get_transaction_type self = Err KeyError).
  { intros self H. unfold get_transaction_type.
    rewrite (dict_get_absent TRANSACTION_TYPE _ H). reflexivity. }
  split; [reflexivity|]. split; [|split; [exact Habs|]].
  - unfold spec_type_table.
    repeat (apply Forall_cons;
            [intros self H; unfold get_transaction_type; rewrite H;
             repeat split; reflexivity|]).
    apply Forall_nil.
  - intros clock self n H.
    pose proof (run_step1_preserves self n) as Hp. cbv zeta in Hp.
    destruct (run_step1 (self, n)) as [[[]|e] [s1 n1]] eqn:H1;
      cbn [fst snd] in Hp; destruct Hp as (Hsame & Hcd & Htd & Hn).
    + exists KeyError, (s1, n1). split.
      * apply (run_err_type clock _ _ _ _ H1).
        rewrite (get_transaction_type_same _ _ Hsame). apply Habs. exact H.
      * cbn [fst]. repeat split; auto.
    + exists e, (s1, n1). split; [apply run_err_step1; exact H1|].
      cbn [fst]. split; [exact Hcd|]. split; [exact Htd|]. split.
      * discriminate.
      * intros Ht. rewrite (run_step1_no_message _ _ Ht) in H1. discriminate.
Qed.

Lemma get_transaction_type_spec_witness :
  let self := init sample_public_key (PyInt 12) sample_address None
                   (str "plane") (str "transfre") (str "test") in
  ~ In (transaction_type self) (map fst spec_type_table) /\
  get_transaction_type self = Err KeyError.
Proof.
  intros self.
  assert (H : ~ In (transaction_type self) (map fst spec_type_table)).
  { cbn. intros H.
    repeat (destruct H as [H|H]; [discriminate H|]). exact H. }
  split; [exact H|].
  exact (proj1 (proj2 (proj2 get_transaction_type_spec)) self H).
Defined.

(** ** The public key *)

Lemma hexval_inv (c : N) (d : Z) :
  hexval c = Some d ->
  digit_value c = Some d /\ 0 <= d < 16 /\
  py_isspace c = false /\ (c =? 95)%N = false /\
  c <> 43%N /\ c <> 45%N /\ ((c =? 120) || (c =? 88))%N = false.
Proof.
  unfold hexval, digit_value, py_isspace.
  destruct ((48 <=? c) && (c <=? 57))%N eqn:E1.
  { apply andb_prop in E1 as [A B]. apply N.leb_le in A, B.
    destruct (Z.ltb_spec (Z.of_N c - 48) 16); [|discriminate].
    intros [= <-].
    repeat split; try lia;
      repeat match goal with
             | |- context [(?a =? ?b)%N] => destruct (N.eqb_spec a b); try lia
             | |- context [(?a <=? ?b)%N] => destruct (N.leb_spec a b); try lia
             end; reflexivity. }
  destruct ((97 <=? c) && (c <=? 122))%N eqn:E2.
  { apply andb_prop in E2 as [A B]. apply N.leb_le in A, B.
    destruct (Z.ltb_spec (Z.of_N c - 87) 16); [|discriminate].
    intros [= <-].
    repeat split; try lia;
      repeat match goal with
             | |- context [(?a =? ?b)%N] => destruct (N.eqb_spec a b); try lia
             | |- context [(?a <=? ?b)%N] => destruct (N.leb_spec a b); try lia
             end; reflexivity. }
  destruct ((65 <=? c) && (c <=? 90))%N eqn:E3; [|discriminate].
  apply andb_prop in E3 as [A B]. apply N.leb_le in A, B.
  destruct (Z.ltb_spec (Z.of_N c - 55) 16); [|discriminate].
  intros [= <-].
  repeat split; try lia;
    repeat match goal with
           | |- context [(?a =? ?b)%N] => destruct (N.eqb_spec a b); try lia
           | |- context [(?a <=? ?b)%N] => destruct (N.leb_spec a b); try lia
           end; reflexivity.
Qed.

Lemma spec_hex_decode_cons (s : pystr) (x : byte) (b : bytes) :
  spec_hex_decode s = Some (x :: b) ->
  exists c1 c2 r h l,
    s = c1 :: c2 :: r /\ hexval c1 = Some h /\ hexval c2 = Some l /\
    x = byte_of_Z (16 * h + l) /\ spec_hex_decode r = Some b.
Proof.
  destruct s as [|c1 [|c2 r]]; cbn [spec_hex_decode]; try discriminate.
  destruct (hexval c1) as [h|] eqn:E1; [|discriminate].
  destruct (hexval c2) as [l|] eqn:E2; [|discriminate].
  destruct (spec_hex_decode r) as [b'|] eqn:E3; [|discriminate].
  intros [= <- <-]. exists c1, c2, r, h, l. repeat split; assumption.
Qed.

Lemma spec_hex_decode_nil (s : pystr) :
  spec_hex_decode s = Some [] -> s = [].
Proof.
  destruct s as [|c1 [|c2 r]]; cbn [spec_hex_decode]; try discriminate.
  - reflexivity.
  - destruct (hexval c1); [|discriminate].
    destruct (hexval c2); [|discriminate].
    destruct (spec_hex_decode r); discriminate.
Qed.

(** The digit loop of [int(s, 16)] on the hexadecimal digits of a byte
    sequence reads the bytes as a big-endian number. *)
Lemma scan_digits_hex (b : bytes) :
  forall (s : pystr) (acc : Z) (nd : nat),
    spec_hex_decode s = Some b ->
    scan_digits 16 s false acc nd =
      Some (fold_left (fun a x => a * 256 + Z_of_byte x) b acc,
            (nd + 2 * List.length b)%nat, []).
Proof.
  induction b as [|x b IH]; intros s acc nd H.
  - apply spec_hex_decode_nil in H. subst s. cbn [scan_digits fold_left List.length].
    replace (nd + 2 * 0)%nat with nd by lia. reflexivity.
  - apply spec_hex_decode_cons in H
      as (c1 & c2 & r & h & l & -> & H1 & H2 & -> & Hr).
    apply hexval_inv in H1 as (D1 & R1 & _ & U1 & _).
    apply hexval_inv in H2 as (D2 & R2 & _ & U2 & _).
    cbn [scan_digits]. rewrite U1, D1.
    destruct (Z.ltb_spec h 16); [|lia].
    cbn [scan_digits]. rewrite U2, D2.
    destruct (Z.ltb_spec l 16); [|lia].
    rewrite (IH r _ _ Hr). cbn [fold_left List.length].
    rewrite Z_of_byte_of_Z, Z.mod_small by lia.
    replace ((acc * 16 + h) * 16 + l) with (acc * 256 + (16 * h + l)) by lia.
    replace (S (S nd) + 2 * List.length b)%nat
      with (nd + 2 * S (List.length b))%nat by lia.
    reflexivity.
Qed.

(** [PyLong_FromString] on a string that begins with a digit and has no
    prefix: the digit loop decides. *)
Lemma long_from_string_16_head (c1 c2 : N) (r : pystr) :
  py_isspace c1 = false -> c1 <> 43%N -> c1 <> 45%N -> c1 <> 95%N ->
  ((c2 =? 120) || (c2 =? 88))%N = false ->
  long_from_string_16 (c1 :: c2 :: r) =
    match scan_digits 16 (c1 :: c2 :: r) false 0 0 with
    | None => Err ValueError
    | Some (_, O, _) => Err ValueError
    | Some (v, S _, rest) =>
        match skip_space rest with
        | [] => Ok v
        | _ :: _ => Err ValueError
        end
    end.
Proof.
  intros S1 P1 M1 U1 X2.
  unfold long_from_string_16. cbn [skip_space]. rewrite S1.
  destruct c1 as [|p]; [reflexivity|].
  do 7 (try destruct p as [p|p|]); try reflexivity; try congruence.
  rewrite X2. reflexivity.
Qed.

(** The same after a minus sign: the number is negated. *)
Lemma long_from_string_16_minus (c1 c2 : N) (r : pystr) :
  py_isspace c1 = false -> c1 <> 43%N -> c1 <> 45%N -> c1 <> 95%N ->
  ((c2 =? 120) || (c2 =? 88))%N = false ->
  long_from_string_16 (45%N :: c1 :: c2 :: r) =
    match scan_digits 16 (c1 :: c2 :: r) false 0 0 with
    | None => Err ValueError
    | Some (_, O, _) => Err ValueError
    | Some (v, S _, rest) =>
        match skip_space rest with
        | [] => Ok (- v)
        | _ :: _ => Err ValueError
        end
    end.
Proof.
  intros S1 P1 M1 U1 X2.
  unfold long_from_string_16. cbn [skip_space].
  change (py_isspace 45) with false. cbv beta iota zeta.
  destruct c1 as [|p]; [reflexivity|].
  do 7 (try destruct p as [p|p|]); try reflexivity; try congruence.
  rewrite X2. reflexivity.
Qed.

(** A hexadecimal digit is an ASCII character. *)
Lemma hexval_ascii (c : N) (d : Z) :
  hexval c = Some d -> (c <? 128)%N = true.
Proof.
  unfold hexval, digit_value. intros H. apply N.ltb_lt.
  destruct ((48 <=? c) && (c <=? 57))%N eqn:E1.
  { apply andb_prop in E1 as [_ B]. apply N.leb_le in B. lia. }
  destruct ((97 <=? c) && (c <=? 122))%N eqn:E2.
  { apply andb_prop in E2 as [_ B]. apply N.leb_le in B. lia. }
  destruct ((65 <=? c) && (c <=? 90))%N eqn:E3; [|discriminate].
  apply andb_prop in E3 as [_ B]. apply N.leb_le in B. lia.
Qed.

Lemma spec_hex_decode_ascii (b : bytes) :
  forall s : pystr,
    spec_hex_decode s = Some b ->
    forallb (fun ch => (ch <? 128)%N) s = true.
Proof.
  induction b as [|x b IH]; intros s H.
  - rewrite (spec_hex_decode_nil s H). reflexivity.
  - apply spec_hex_decode_cons in H
      as (c1 & c2 & r & h & l & -> & H1 & H2 & _ & Hr).
    cbn [forallb].
    rewrite (hexval_ascii c1 h H1), (hexval_ascii c2 l H2), (IH r Hr).
    reflexivity.
Qed.

(** An ASCII string goes to [PyLong_FromString] as it is. *)
Lemma int_base16_ascii (s : pystr) :
  forallb (fun ch => (ch <? 128)%N) s = true ->
  int_base16 s = long_from_string_16 s.
Proof.
  intros H. unfold int_base16, transform_decimal_and_space_to_ascii.
  rewrite H. reflexivity.
Qed.

Lemma int_base16_hex (s : pystr) (b : bytes) :
  spec_hex_decode s = Some b -> b <> [] ->
  int_base16 s = Ok (fold_left (fun a x => a * 256 + Z_of_byte x) b 0).
Proof.
  intros H Hne.
  rewrite (int_base16_ascii s (spec_hex_decode_ascii b s H)).
  pose proof (scan_digits_hex b s 0 O H) as Hscan.
  destruct b as [|x b]; [congruence|].
  apply spec_hex_decode_cons in H
    as (c1 & c2 & r & h & l & -> & H1 & H2 & _ & _).
  apply hexval_inv in H1 as (_ & _ & S1 & U1 & P1 & M1 & _).
  apply hexval_inv in H2 as (_ & _ & _ & _ & _ & _ & X2).
  rewrite long_from_string_16_head; try assumption.
  - rewrite Hscan. reflexivity.
  - intros ->. discriminate U1.
Qed.

(** The hexadecimal digits of a byte sequence after a minus sign *)
Lemma int_base16_minus_hex (s : pystr) (b : bytes) :
  spec_hex_decode s = Some b -> b <> [] ->
  int_base16 (45%N :: s) =
    Ok (- fold_left (fun a x => a * 256 + Z_of_byte x) b 0).
Proof.
  intros H Hne.
  rewrite int_base16_ascii
    by (cbn [forallb]; rewrite (spec_hex_decode_ascii b s H); reflexivity).
  pose proof (scan_digits_hex b s 0 O H) as Hscan.
  destruct b as [|x b]; [congruence|].
  apply spec_hex_decode_cons in H
    as (c1 & c2 & r & h & l & -> & H1 & H2 & _ & _).
  apply hexval_inv in H1 as (_ & _ & S1 & U1 & P1 & M1 & _).
  apply hexval_inv in H2 as (_ & _ & _ & _ & _ & _ & X2).
  rewrite long_from_string_16_minus; try assumption.
  - rewrite Hscan. reflexivity.
  - intros ->. discriminate U1.
Qed.

Lemma from_bytes_little_app (a b : bytes) :
  from_bytes_little (a ++ b) =
    from_bytes_little a + 2 ^ (8 * len a) * from_bytes_little b.
Proof.
  unfold len. induction a as [|x a IH].
  - cbn [app from_bytes_little List.length]. change (2 ^ (8 * Z.of_nat 0)) with 1. lia.
  - cbn [app from_bytes_little List.length]. rewrite IH.
    replace (8 * Z.of_nat (S (List.length a)))
      with (8 + 8 * Z.of_nat (List.length a)) by lia.
    rewrite pow2_split by lia. change (2 ^ 8) with 256. lia.
Qed.

(** Reading a byte sequence as a big-endian number is reading its
    reverse as a little-endian one. *)
Lemma big_endian_rev (b : bytes) (acc : Z) :
  fold_left (fun a x => a * 256 + Z_of_byte x) b acc =
    from_bytes_little (rev b) + 2 ^ (8 * len b) * acc.
Proof.
  revert acc. unfold len. induction b as [|x b IH]; intros acc.
  - cbn [fold_left rev from_bytes_little List.length].
    change (2 ^ (8 * Z.of_nat 0)) with 1. lia.
  - cbn [fold_left rev List.length]. rewrite IH, from_bytes_little_app.
    unfold len. rewrite length_rev. cbn [from_bytes_little].
    replace (8 * Z.of_nat (S (List.length b)))
      with (8 * Z.of_nat (List.length b) + 8) by lia.
    rewrite pow2_split by lia. change (2 ^ 8) with 256. lia.
Qed.

Lemma le_digits_zero (k : nat) : le_digits k 0 = repeat x00 k.
Proof.
  induction k as [|k IH]; [reflexivity|].
  cbn [le_digits repeat]. change (0 / 256) with 0. rewrite IH. reflexivity.
Qed.

(** Encoding on more bytes than needed pads with zeros at the end. *)
Lemma le_digits_pad (b : bytes) (k : nat) :
  le_digits (List.length b + k) (from_bytes_little b) = b ++ repeat x00 k.
Proof.
  induction b as [|x b IH].
  - apply le_digits_zero.
  - cbn [from_bytes_little List.length le_digits Nat.add app].
    pose proof (Z_of_byte_range x) as Hx.
    rewrite byte_of_Z_add_mul, byte_of_Z_of_byte.
    replace ((Z_of_byte x + 256 * from_bytes_little b) / 256)
      with (from_bytes_little b).
    2:{ rewrite Z.add_comm, Z.mul_comm, Z.div_add_l by lia.
        rewrite Z.div_small by exact Hx. lia. }
    rewrite IH. reflexivity.
Qed.

Lemma int_base16_error (s : pystr) (e : exn) :
  int_base16 s = Err e -> e = ValueError.
Proof.
  unfold int_base16.
  generalize (transform_decimal_and_space_to_ascii s). clear s. intros s.
  unfold long_from_string_16.
  repeat match goal with
         | |- context [match ?x with _ => _ end] =>
             lazymatch x with
             | context [match _ with _ => _ end] => fail
             | _ => destruct x
             end
         end; congruence.
Qed.

(** A key of at most 32 bytes in hexadecimal: [get_publickey] returns
    its bytes in the reverse order, then zeros up to 32 bytes. *)
Lemma get_publickey_hex (self : TransactionCreator) (b : bytes) :
  spec_hex_decode (public_key self) = Some b ->
  (0 < List.length b <= 32)%nat ->
  get_publickey self = Ok (rev b ++ repeat x00 (32 - List.length b)).
Proof.
  intros H Hlen. unfold get_publickey.
  rewrite (int_base16_hex _ b H) by (destruct b; [cbn in Hlen; lia | discriminate]).
  cbn [rbind]. rewrite big_endian_rev, Z.mul_0_r, Z.add_0_r.
  pose proof (from_bytes_little_range (rev b)) as Hr.
  rewrite length_rev in Hr.
  assert (2 ^ (8 * Z.of_nat (List.length b)) <= 2 ^ (8 * 32))
    by (apply pow2_le; lia).
  unfold convert_number_to_byte. rewrite to_bytes_little_ok by lia.
  f_equal.
  replace (Z.to_nat 32) with (List.length (rev b) + (32 - List.length b))%nat
    by (rewrite length_rev; lia).
  apply le_digits_pad.
Qed.

(** The placeholder of the [__main__] block is not a number. *)
Example get_publickey_placeholder :
  get_publickey
    (init_default (str "--- public key ---") (PyInt 12) sample_address None)
  = Err ValueError.
Proof. reflexivity. Qed.

(** A key with a minus sign is a negative number, which 32 bytes cannot
    hold; the empty key is not a number. *)
Example get_publickey_minus_one_and_empty :
  get_publickey (init_default (str "-1") (PyInt 12) sample_address None)
    = Err OverflowError /\
  get_publickey (init_default [] (PyInt 12) sample_address None)
    = Err ValueError.
Proof. split; reflexivity. Qed.

(** [int] reads the decimal digits of every script: the full-width digits
    U+FF11 U+FF12 are the key 0x12, also between no-break spaces. *)
Example get_publickey_fullwidth_digits :
  get_publickey
    (init_default [0xFF11; 0xFF12]%N (PyInt 12) sample_address None)
    = Ok (byte_of_Z 0x12 :: repeat x00 31) /\
  get_publickey
    (init_default [0xA0; 0xFF11; 0xFF12; 0x2003]%N (PyInt 12) sample_address
       None)
    = Ok (byte_of_Z 0x12 :: repeat x00 31) /\
  get_publickey
    (init_default [0x31; 0x32; 0xE9]%N (PyInt 12) sample_address None)
    = Err ValueError.
Proof. repeat split; reflexivity. Qed.

(** What [get_publickey] does with the integer that [int] returns *)
Lemma get_publickey_of_int (self : TransactionCreator) (v : Z) :
  int_base16 (public_key self) = Ok v ->
  get_publickey self =
    if (0 <=? v) && (v <? 2 ^ 256) then Ok (le_digits 32 v)
    else Err OverflowError.
Proof.
  intros H. unfold get_publickey. rewrite H. cbn [rbind].
  unfold convert_number_to_byte, to_bytes_little.
  change (32 <? 0) with false. cbv iota.
  change (8 * 32) with 256. change (Z.to_nat 32) with 32%nat.
  destruct (Z.ltb_spec v 0); destruct (Z.leb_spec 0 v); try lia;
    cbn [andb]; [reflexivity|].
  destruct (Z.leb_spec (2 ^ 256) v); destruct (Z.ltb_spec v (2 ^ 256));
    try lia; reflexivity.
Qed.

(** A key of one byte is accepted, and a key of 32 bytes is emitted in the
    reverse order. *)
Lemma public_key_unchecked_and_reversed :
  (spec_hex_decode (str "ab") = Some [byte_of_Z 0xab] /\
   get_publickey (init_default (str "ab") (PyInt 12) sample_address None)
     = Ok (byte_of_Z 0xab :: repeat x00 31)) /\
  (exists b,
      spec_hex_decode sample_public_key = Some b /\
      List.length b = 32%nat /\
      get_publickey (sample_request None) = Ok (rev b) /\
      rev b <> b).
Proof.
  split; [split; reflexivity|].
  eexists. split; [reflexivity|]. split; [reflexivity|].
  split; [reflexivity | discriminate].
Qed.

(** C6, amended.  [get_publickey] reads the key as an integer in base 16
    with [int] and encodes that integer on 32 bytes, little-endian; the
    key is not hex-decoded and its length is not checked.  For a key
    string that hex-decodes to a byte sequence [b]: when [b] has 32 bytes
    the field is [b] in the reverse order; when it has from 1 to 31, the
    key is accepted all the same and the field is the reverse of [b]
    followed by zeros; when the number is [2^256] or more, the encoding
    fails with [OverflowError]; when [b] is empty, so is the key, and
    [int] fails with [ValueError].  In general [get_publickey] returns
    exactly when [int] returns an integer from 0 and below [2^256], and
    the field is then that integer, little-endian; it fails with
    [OverflowError] exactly when [int] returns an integer that is
    negative or [2^256] or more (a key with a minus sign before the
    digits of a number other than 0 is one), with [ValueError] exactly
    when [int] fails, and with nothing else. *)
Theorem get_publickey_spec :
  (forall (self : TransactionCreator) (b : bytes),
      spec_hex_decode (public_key self) = Some b ->
      List.length b = 32%nat ->
      get_publickey self = Ok (rev b) /\ len (rev b) = 32) /\
  (forall (self : TransactionCreator) (b : bytes),
      spec_hex_decode (public_key self) = Some b ->
      (0 < List.length b <= 32)%nat ->
      get_publickey self = Ok (rev b ++ repeat x00 (32 - List.length b))) /\
  (forall (self : TransactionCreator) (b : bytes),
      spec_hex_decode (public_key self) = Some b ->
      b <> [] ->
      2 ^ 256 <= from_bytes_little (rev b) ->
      get_publickey self = Err OverflowError) /\
  (forall (self : TransactionCreator) (e : exn),
      int_base16 (public_key self) = Err e ->
      get_publickey self = Err ValueError) /\
  (forall (self : TransactionCreator) (pk : bytes),
      get_publickey self = Ok pk <->
      exists v, int_base16 (public_key self) = Ok v /\
                0 <= v < 2 ^ 256 /\ pk = le_digits 32 v) /\
  (forall self : TransactionCreator,
      get_publickey self = Err OverflowError <->
      exists v, int_base16 (public_key self) = Ok v /\
                (v < 0 \/ 2 ^ 256 <= v)) /\
  (forall self : TransactionCreator,
      get_publickey self = Err ValueError <->
      exists e, int_base16 (public_key self) = Err e) /\
  (forall (self : TransactionCreator) (e : exn),
      get_publickey self = Err e -> e = OverflowError \/ e = ValueError) /\
  (forall self : TransactionCreator,
      spec_hex_decode (public_key self) = Some [] ->
      get_publickey self = Err ValueError) /\
  (forall (self : TransactionCreator) (digits : pystr) (b : bytes),
      public_key self = 45%N :: digits ->
      spec_hex_decode digits = Some b ->
      b <> [] ->
      from_bytes_little (rev b) <> 0 ->
      get_publickey self = Err OverflowError).
Proof.
  assert (Hval : forall (self : TransactionCreator) (e : exn),
             int_base16 (public_key self) = Err e ->
             get_publickey self = Err ValueError).
  { intros self e H. unfold get_publickey. rewrite H. cbn [rbind].
    rewrite (int_base16_error _ _ H). reflexivity. }
  split; [|split; [exact get_publickey_hex | split; [|split; [exact Hval|]]]].
  - intros self b H Hlen.
    rewrite (get_publickey_hex self b H) by lia.
    rewrite Hlen. cbn [Nat.sub repeat]. rewrite app_nil_r.
    split; [reflexivity|]. unfold len. rewrite length_rev, Hlen. reflexivity.
  - intros self b H Hne Hbig. unfold get_publickey.
    rewrite (int_base16_hex _ b H Hne). cbn [rbind].
    rewrite big_endian_rev, Z.mul_0_r, Z.add_0_r.
    unfold convert_number_to_byte, to_bytes_little.
    change (32 <? 0) with false. cbv iota.
    destruct (Z.ltb_spec (from_bytes_little (rev b)) 0); [reflexivity|].
    destruct (Z.leb_spec (2 ^ (8 * 32)) (from_bytes_little (rev b)));
      [reflexivity|].
    change (8 * 32) with 256 in *. lia.
  - split; [|split; [|split; [|split; [|split]]]].
    + intros self pk. split.
      * intros H.
        destruct (int_base16 (public_key self)) as [v|e] eqn:E.
        -- rewrite (get_publickey_of_int self v E) in H.
           destruct (Z.leb_spec 0 v); destruct (Z.ltb_spec v (2 ^ 256));
             cbn [andb] in H; try discriminate.
           exists v. split; [reflexivity|]. split; [lia | congruence].
        -- rewrite (Hval self e E) in H. discriminate.
      * intros (v & E & Hv & ->).
        rewrite (get_publickey_of_int self v E).
        destruct (Z.leb_spec 0 v); destruct (Z.ltb_spec v (2 ^ 256));
          try lia. reflexivity.
    + intros self. split.
      * intros H.
        destruct (int_base16 (public_key self)) as [v|e] eqn:E.
        -- rewrite (get_publickey_of_int self v E) in H.
           exists v. split; [reflexivity|].
           destruct (Z.leb_spec 0 v); destruct (Z.ltb_spec v (2 ^ 256));
             cbn [andb] in H; try discriminate; lia.
        -- rewrite (Hval self e E) in H. discriminate.
      * intros (v & E & Hv).
        rewrite (get_publickey_of_int self v E).
        destruct (Z.leb_spec 0 v); destruct (Z.ltb_spec v (2 ^ 256));
          try lia; reflexivity.
    + intros self. split.
      * intros H.
        destruct (int_base16 (public_key self)) as [v|e] eqn:E.
        -- rewrite (get_publickey_of_int self v E) in H.
           destruct ((0 <=? v) && (v <? 2 ^ 256)); discriminate.
        -- exists e. reflexivity.
      * intros (e & E). exact (Hval self e E).
    + intros self e H.
      destruct (int_base16 (public_key self)) as [v|e'] eqn:E.
      * rewrite (get_publickey_of_int self v E) in H.
        destruct ((0 <=? v) && (v <? 2 ^ 256)); [discriminate|].
        left. congruence.
      * rewrite (Hval self e' E) in H. right. congruence.
    + intros self H.
      apply (Hval self ValueError).
      rewrite (spec_hex_decode_nil _ H). reflexivity.
    + intros self digits b Hk H Hne Hnz.
      assert (E : int_base16 (public_key self) =
                  Ok (- from_bytes_little (rev b))).
      { rewrite Hk, (int_base16_minus_hex digits b H Hne).
        rewrite big_endian_rev, Z.mul_0_r, Z.add_0_r. reflexivity. }
      rewrite (get_publickey_of_int self _ E).
      pose proof (from_bytes_little_range (rev b)) as Hr.
      destruct (Z.leb_spec 0 (- from_bytes_little (rev b))); [lia|].
      reflexivity.
Qed.

Lemma get_publickey_spec_witness :
  exists b,
    spec_hex_decode (public_key (sample_request None)) = Some b /\
    List.length b = 32%nat /\
    get_publickey (sample_request None) = Ok (rev b) /\ len (rev b) = 32.
Proof.
  eexists. split; [reflexivity|]. split; [reflexivity|].
  apply (proj1 get_publickey_spec (sample_request None)); reflexivity.
Defined.

(** ** The address *)

Ltac destruct_matches :=
  repeat match goal with
         | |- context [match ?x with _ => _ end] =>
             lazymatch x with
             | context [match _ with _ => _ end] => fail
             | _ => destruct x
             end
         end.

(** Step.1 of [run] does not look at the address. *)
Lemma run_step1_set_address (a : pystr) (s : TransactionCreator) (n : nat) :
  run_step1 (set_address a s, n) =
    (fst (run_step1 (s, n)),
     (set_address a (fst (snd (run_step1 (s, n)))),
      snd (snd (run_step1 (s, n))))).
Proof.
  destruct (truthy (message s)) eqn:Ht.
  - assert (Ht' : truthy (message (set_address a s)) = true) by exact Ht.
    rewrite (run_step1_message _ _ Ht), (run_step1_message _ _ Ht').
    rewrite !set_message_info_eq.
    change (message_type (set_address a s)) with (message_type s).
    change (message (set_address a s)) with (message s).
    set_message_info_cases s; reflexivity.
  - assert (Ht' : truthy (message (set_address a s)) = false) by exact Ht.
    rewrite (run_step1_no_message _ _ Ht), (run_step1_no_message _ _ Ht').
    reflexivity.
Qed.

Lemma get_address_ok (self : TransactionCreator) (u : bytes) :
  encode_utf8 (address self) = Ok u -> get_address self = Ok (hex_ascii u).
Proof.
  intros H. unfold get_address. rewrite H. cbn [rbind].
  apply encode_utf8_bytes_hex.
Qed.

Lemma utf8_char_error (c : N) (e : exn) :
  utf8_char c = Err e -> e = UnicodeEncodeError.
Proof.
  unfold utf8_char. cbv zeta. destruct_matches; congruence.
Qed.

Lemma encode_utf8_error (s : pystr) (e : exn) :
  encode_utf8 s = Err e -> e = UnicodeEncodeError.
Proof.
  induction s as [|c s IH]; cbn [encode_utf8]; [discriminate|].
  destruct (utf8_char c) as [b|e1] eqn:E1; cbn [rbind].
  - destruct (encode_utf8 s) as [r|e2]; cbn [rbind]; [discriminate|].
    intros [= <-]. apply IH. reflexivity.
  - intros [= <-]. apply (utf8_char_error _ _ E1).
Qed.

(** An address of three characters is encoded like any other. *)
Lemma short_address_accepted :
  let s := init_default sample_public_key (PyInt 12) (str "NEM") None in
  len (address s) = 3 /\
  get_address_length s = Ok (le_digits 4 40) /\
  is_ok (get_address s) = true /\
  is_ok (fst (run sample_clock (s, O))) = true.
Proof. repeat split; vm_compute; reflexivity. Qed.

(** C8, amended.  The length of the address is not checked.  The address
    length field is the constant 40; [get_address] returns for every
    address, of any length, that has a UTF-8 encoding, and raises only
    [UnicodeEncodeError] otherwise; and when [run] returns for a request,
    it returns for the same request with any other such address. *)
Theorem address_length_unchecked :
  (forall self : TransactionCreator,
      get_address_length self = Ok (le_digits 4 40) /\
      from_bytes_little (le_digits 4 40) = 40) /\
  (forall (self : TransactionCreator) (u : bytes),
      encode_utf8 (address self) = Ok u ->
      exists a, get_address self = Ok a) /\
  (forall (self : TransactionCreator) (e : exn),
      get_address self = Err e -> e = UnicodeEncodeError) /\
  (forall (clock : nat -> Z) (self : TransactionCreator) (n : nat)
          (out : bytes) (a : pystr) (u : bytes),
      fst (run clock (self, n)) = Ok out ->
      encode_utf8 a = Ok u ->
      exists out', fst (run clock (set_address a self, n)) = Ok out').
Proof.
  split; [|split; [|split]].
  - intros self. split; reflexivity.
  - intros self u H. exists (hex_ascii u). apply get_address_ok. exact H.
  - intros self e. unfold get_address.
    destruct (encode_utf8 (address self)) as [u|e1] eqn:E1; cbn [rbind].
    + rewrite encode_utf8_bytes_hex. discriminate.
    + intros [= <-]. apply (encode_utf8_error _ _ E1).
  - intros clock self n out a u Hrun Ha.
    destruct (run_inv clock _ _ Hrun) as (s1 & n1 & h & b & H1 & H2 & H3 & _).
    pose proof (run_step1_set_address a self n) as Hs.
    rewrite H1 in Hs. cbn [fst snd] in Hs.
    assert (H2' : common_header clock (set_address a s1) n1 = Ok h) by exact H2.
    assert (H3' : exists b', transfer_payload (set_address a s1) = Ok b').
    { unfold transfer_payload in *.
      change (get_address_length (set_address a s1)) with (get_address_length s1).
      change (get_amount (set_address a s1)) with (get_amount s1).
      rewrite (get_address_ok (set_address a s1) u Ha).
      destruct (get_address_length s1) as [al|]; [|discriminate].
      destruct (get_address s1) as [ad|]; [|discriminate].
      destruct (get_amount s1) as [am|]; [|discriminate].
      cbn [rbind] in *.
      change (message_field (set_address a s1)) with (message_field s1).
      change (message (set_address a s1)) with (message s1).
      change (message_type (set_address a s1)) with (message_type s1).
      change (payload_length (set_address a s1)) with (payload_length s1).
      change (payload (set_address a s1)) with (payload s1).
      destruct (attr (message_field s1)) as [mf|]; [|discriminate].
      cbn [rbind] in *.
      destruct (if truthy (message s1) then _ else _) as [msg|]; [|discriminate].
      cbn [rbind]. eexists. reflexivity. }
    destruct H3' as [b' H3'].
    rewrite (run_ok clock _ _ _ _ _ Hs H2' H3'). eexists. reflexivity.
Qed.

Lemma address_length_unchecked_witness :
  let self := sample_request None in
  (exists out, fst (run sample_clock (self, O)) = Ok out) /\
  encode_utf8 (str "NEM") = Ok [byte_of_Z 78; byte_of_Z 69; byte_of_Z 77] /\
  exists out', fst (run sample_clock (set_address (str "NEM") self, O)) = Ok out'.
Proof.
  intros self.
  assert (H : exists out, fst (run sample_clock (self, O)) = Ok out).
  { eexists. vm_compute. reflexivity. }
  split; [exact H|]. split; [reflexivity|].
  destruct H as [out H].
  apply (proj2 (proj2 (proj2 address_length_unchecked))
           sample_clock self O out (str "NEM")
           [byte_of_Z 78; byte_of_Z 69; byte_of_Z 77] H).
  reflexivity.
Defined.

(** ** The layout of the output *)

Lemma get_version_total (self : TransactionCreator) :
  exists version, get_version self = Ok version /\ len version = 4.
Proof.
  unfold get_version. cbn [existsb].
  destruct (pystr_eqb (network_type self) (str "main"));
    destruct (pystr_eqb (transaction_type self) (str "transfer"));
    destruct (pystr_eqb (transaction_type self)
                (str "multisig_aggregate_modification"));
    cbn [orb]; eexists; split; reflexivity.
Qed.

Lemma convert_number_to_byte_length (v w : Z) (b : bytes) :
  convert_number_to_byte v w = Ok b -> len b = w.
Proof.
  intros H. apply to_bytes_little_inv in H as (Hw & _ & ->).
  unfold len. rewrite le_digits_length. lia.
Qed.

Lemma get_publickey_length_32 (self : TransactionCreator) (pk : bytes) :
  get_publickey self = Ok pk -> len pk = 32.
Proof.
  unfold get_publickey.
  destruct (int_base16 (public_key self)) as [key|]; [|discriminate].
  cbn [rbind]. apply convert_number_to_byte_length.
Qed.

Lemma calc_fee_length_8 (self : TransactionCreator) (fee : bytes) :
  calc_fee self = Ok fee -> len fee = 8.
Proof.
  unfold calc_fee.
  destruct (transfer_fee self) as [tf|]; [|discriminate]. cbn [rbind].
  destruct (message_fee self) as [mf|]; [|discriminate]. cbn [rbind].
  destruct (py_add _ _) as [total|]; [|discriminate]. cbn [rbind].
  destruct (py_mul _ _) as [f|]; [|discriminate]. cbn [rbind].
  destruct (py_int f) as [v|]; [|discriminate]. cbn [rbind].
  apply convert_number_to_byte_length.
Qed.

Lemma get_amount_length_8 (self : TransactionCreator) (amt : bytes) :
  get_amount self = Ok amt -> len amt = 8.
Proof.
  unfold get_amount.
  destruct (py_mul _ _) as [a|]; [|discriminate]. cbn [rbind].
  destruct (py_int a) as [v|]; [|discriminate]. cbn [rbind].
  apply convert_number_to_byte_length.
Qed.

Lemma len_app {A} (a b : list A) : len (a ++ b) = len a + len b.
Proof. unfold len. rewrite length_app. lia. Qed.

(** The fields of the specification's layout add up to 116 bytes, not
    to 112. *)
Example layout_sum : 4 + 4 + 4 + 4 + 32 + 8 + 4 + 4 + 40 + 8 + 4 = 116.
Proof. reflexivity. Qed.

(** The output for the sample request, without a message, has 156 bytes;
    its address field, from offset 64, holds the 80 hexadecimal
    digits of the 40 bytes of the address. *)
Lemma no_message_output_156 :
  exists out u,
    fst (run sample_clock (sample_request None, O)) = Ok out /\
    len (address (sample_request None)) = 40 /\
    encode_utf8 (address (sample_request None)) = Ok u /\
    len u = 40 /\
    len out = 156 /\
    len out <> 112 /\
    firstn 80 (skipn 64 out) = hex_ascii u /\
    firstn 40 (skipn 64 out) <> u /\
    from_bytes_little (skipn 152 out) = 0.
Proof.
  eexists _, _. split; [vm_compute; reflexivity|].
  split; [reflexivity|]. split; [vm_compute; reflexivity|].
  split; [reflexivity|]. split; [reflexivity|].
  split; [discriminate|]. split; [reflexivity|].
  split; [discriminate | reflexivity].
Qed.

(** The output of [run] without a message, from the fields *)
Lemma run_no_message_fields
    (clock : nat -> Z) (self : TransactionCreator) (n : nat)
    (pk fee addr amt : bytes) :
  transaction_type self = str "transfer" ->
  truthy (message self) = false ->
  common_data self = [] ->
  transfer_data self = [] ->
  0 <= clock n < 2 ^ 32 ->
  0 <= clock (S n) + deadline_span self < 2 ^ 32 ->
  get_publickey self = Ok pk ->
  calc_fee self = Ok fee ->
  get_address self = Ok addr ->
  get_amount self = Ok amt ->
  exists version out,
    get_version self = Ok version /\
    fst (run clock (self, n)) = Ok out /\
    out = le_digits 4 0x0101 ++ version ++ le_digits 4 (clock n) ++
          le_digits 4 32 ++ pk ++ fee ++
          le_digits 4 (clock (S n) + deadline_span self) ++
          le_digits 4 40 ++ addr ++ amt ++ le_digits 4 0 /\
    len version = 4 /\ len pk = 32 /\ len fee = 8 /\ len amt = 8 /\
    from_bytes_little (le_digits 4 0x0101) = 0x0101 /\
    from_bytes_little (le_digits 4 32) = 32 /\
    from_bytes_little (le_digits 4 40) = 40 /\
    from_bytes_little (le_digits 4 0) = 0 /\
    len out = 76 + len addr.
Proof.
  intros Hty Hmsg Hcd Htd Hts Hdl Hpk Hfee Haddr Hamt.
  destruct (get_version_total self) as (version & Hv & Lv).
  pose proof (get_publickey_length_32 _ _ Hpk) as Lpk.
  pose proof (calc_fee_length_8 _ _ Hfee) as Lfee.
  pose proof (get_amount_length_8 _ _ Hamt) as Lamt.
  destruct (convert_number_to_byte_4 _ Hts) as [Ets _].
  destruct (convert_number_to_byte_4 _ Hdl) as [Edl _].
  set (s1 := set_message_field (le_digits 4 0) self).
  pose proof (run_step1_no_message self n Hmsg) as H1. fold s1 in H1.
  assert (H2 : common_header clock s1 n =
               Ok (le_digits 4 0x0101 ++ version ++ le_digits 4 (clock n) ++
                   le_digits 4 32 ++ pk ++ fee ++
                   le_digits 4 (clock (S n) + deadline_span self))).
  { unfold common_header.
    change (get_transaction_type s1) with (get_transaction_type self).
    change (get_version s1) with (get_version self).
    change (get_publickey s1) with (get_publickey self).
    change (calc_fee s1) with (calc_fee self).
    change (deadline_span s1) with (deadline_span self).
    unfold get_transaction_type at 1. rewrite Hty.
    change (dict_get TRANSACTION_TYPE (str "transfer")) with (Ok 0x0101).
    cbn [rbind].
    change (convert_number_to_byte 257 4) with (Ok (le_digits 4 257)).
    rewrite Hv, Ets, Hpk, Hfee, Edl. reflexivity. }
  assert (H3 : transfer_payload s1 =
               Ok (le_digits 4 40 ++ addr ++ amt ++ le_digits 4 0 ++ [])).
  { unfold transfer_payload.
    change (get_address s1) with (get_address self).
    change (get_amount s1) with (get_amount self).
    change (message s1) with (message self).
    rewrite Haddr, Hamt, Hmsg. reflexivity. }
  pose proof (run_ok clock _ _ _ _ _ H1 H2 H3) as Hrun.
  change (common_data s1) with (common_data self) in Hrun.
  change (transfer_data s1) with (transfer_data self) in Hrun.
  rewrite Hcd, Htd in Hrun. cbn [app] in Hrun.
  eexists version, _. split; [exact Hv|].
  split; [rewrite Hrun; reflexivity|].
  split; [rewrite app_nil_r, <- !app_assoc; reflexivity|].
  repeat match goal with |- _ /\ _ => split end; try assumption;
    try reflexivity.
  rewrite !len_app. rewrite Lpk, Lfee, Lamt, Lv.
  change (len (le_digits 4 257)) with 4.
  change (len (le_digits 4 32)) with 4.
  change (len (le_digits 4 40)) with 4.
  change (len (le_digits 4 0)) with 4.
  change (len (le_digits 4 (clock n))) with 4.
  change (len (le_digits 4 (clock (S n) + deadline_span self))) with 4.
  change (len (@nil byte)) with 0. lia.
Qed.

(** ** The output for a request without a message *)

(** C1, amended.  For every transfer request without a message (the
    object as [__init__] builds it; a public key of at most 32 bytes in
    hexadecimal, an amount below [2^40], an address that has a UTF-8
    encoding, clock readings that fit 4 bytes) [run] returns
    [type:4][version:4][timestamp:4][pk_len:4=32][pubkey:32][fee:8]
    [deadline:4][addr_len:4=40][address field][amount:8][msg_field_len:4=0]:
    76 bytes and the address field, which is what [get_address] returns;
    the last 4 bytes read 0. *)
Theorem run_layout_no_message
    (clock : nat -> Z) (n : nat)
    (public_key : pystr) (amount : pynum) (address : pystr)
    (message : option pystr) (message_type network_type : pystr)
    (key u : bytes) :
  let self := init public_key amount address message message_type
                   (str "transfer") network_type in
  truthy message = false ->
  0 <= clock n < 2 ^ 32 ->
  0 <= clock (S n) + 3600 < 2 ^ 32 ->
  spec_hex_decode public_key = Some key ->
  (0 < List.length key <= 32)%nat ->
  amount_encodable amount ->
  encode_utf8 address = Ok u ->
  exists version pk fee addr amt out,
    get_version self = Ok version /\
    get_publickey self = Ok pk /\
    calc_fee self = Ok fee /\
    get_address self = Ok addr /\
    get_amount self = Ok amt /\
    fst (run clock (self, n)) = Ok out /\
    out = le_digits 4 0x0101 ++ version ++ le_digits 4 (clock n) ++
          le_digits 4 32 ++ pk ++ fee ++
          le_digits 4 (clock (S n) + 3600) ++
          le_digits 4 40 ++ addr ++ amt ++ le_digits 4 0 /\
    len version = 4 /\ len pk = 32 /\ len fee = 8 /\ len amt = 8 /\
    from_bytes_little (le_digits 4 0x0101) = 0x0101 /\
    from_bytes_little (le_digits 4 32) = 32 /\
    from_bytes_little (le_digits 4 40) = 40 /\
    from_bytes_little (le_digits 4 0) = 0 /\
    len out = 76 + len addr.
Proof.
  intros self Hmsg Hts Hdl Hkey Hklen Hamt Haddr.
  pose proof (get_publickey_hex self key Hkey Hklen) as Hpk.
  destruct (calc_fee_no_message self
              (amount_encodable_in_range _ Hamt) Hmsg eq_refl) as [fee Hfee].
  destruct (get_amount_total self Hamt eq_refl) as [amt Hamt'].
  pose proof (get_address_ok self u Haddr) as Had.
  destruct (run_no_message_fields clock self n _ fee _ amt
              eq_refl Hmsg eq_refl eq_refl Hts Hdl Hpk Hfee Had Hamt')
    as (version & out & Hv & Hrun & Hout & Hrest).
  exists version, (rev key ++ repeat x00 (32 - List.length key)), fee,
    (hex_ascii u), amt, out.
  repeat match goal with |- _ /\ _ => split end; try assumption;
    try apply Hrest.
Qed.

Lemma run_layout_no_message_witness :
  truthy None = false /\
  0 <= sample_clock O < 2 ^ 32 /\
  amount_encodable (PyInt 12) /\
  exists version pk fee addr amt out,
    get_version (sample_request None) = Ok version /\
    get_publickey (sample_request None) = Ok pk /\
    calc_fee (sample_request None) = Ok fee /\
    get_address (sample_request None) = Ok addr /\
    get_amount (sample_request None) = Ok amt /\
    fst (run sample_clock (sample_request None, O)) = Ok out /\
    len out = 76 + len addr.
Proof.
  assert (Ht : 0 <= sample_clock O < 2 ^ 32)
    by (vm_compute; split; [discriminate | reflexivity]).
  assert (Ha : amount_encodable (PyInt 12))
    by (vm_compute; split; [discriminate | reflexivity]).
  split; [reflexivity|]. split; [exact Ht|]. split; [exact Ha|].
  destruct (run_layout_no_message sample_clock O sample_public_key (PyInt 12)
              sample_address None (str "plane") (str "test")
              (match spec_hex_decode sample_public_key with
               | Some b => b
               | None => []
               end)
              (match encode_utf8 sample_address with
               | Ok b => b
               | Err _ => []
               end)
              eq_refl Ht
              ltac:(vm_compute; split; [discriminate | reflexivity])
              eq_refl
              ltac:(vm_compute; split; apply le_n_S, Nat.le_0_l || apply le_n)
              Ha eq_refl)
    as (version & pk & fee & addr & amt & out & H1 & H2 & H3 & H4 & H5 & H6 & H).
  exists version, pk, fee, addr, amt, out.
  repeat match goal with |- _ /\ _ => split end; try assumption.
  apply H.
Defined.

(** ** What persists between two encodes *)

(** Step.1 of [run] does not look at the clock. *)
Lemma run_step1_index (s : TransactionCreator) (n : nat) :
  run_step1 (s, n) =
    (fst (run_step1 (s, O)), (fst (snd (run_step1 (s, O))), n)).
Proof.
  destruct (truthy (message s)) eqn:Ht.
  - rewrite !(run_step1_message _ _ Ht).
    set_message_info_cases s; reflexivity.
  - rewrite !(run_step1_no_message _ _ Ht). reflexivity.
Qed.

Lemma run_snd_index (clock : nat -> Z) (s : TransactionCreator) (n : nat)
    (out : bytes) (st' : state) :
  run clock (s, n) = (Ok out, st') -> snd st' = S (S n).
Proof.
  intros H.
  destruct (run_inv clock (s, n) out) as (s1 & n1 & h & b & H1 & H2 & H3 & _).
  { rewrite H. reflexivity. }
  rewrite (run_ok clock _ _ _ _ _ H1 H2 H3) in H.
  rewrite run_step1_index in H1.
  pose proof (f_equal (fun x => snd (snd x)) H1) as Hn1.
  pose proof (f_equal snd H) as Hst.
  cbn [fst snd] in Hn1, Hst. subst n1 st'. reflexivity.
Qed.

(** The result of [run] depends on the clock through the two readings
    it takes, and on nothing else outside the object. *)
Lemma run_clock_ext (clock clock' : nat -> Z) (s : TransactionCreator)
    (n n' : nat) :
  clock n = clock' n' -> clock (S n) = clock' (S n') ->
  fst (run clock (s, n)) = fst (run clock' (s, n')).
Proof.
  intros E0 E1.
  pose proof (run_step1_index s n) as I1.
  pose proof (run_step1_index s n') as I2.
  destruct (run_step1 (s, O)) as [[[]|e] [s1 n1]]; cbn [fst snd] in I1, I2.
  2:{ rewrite (run_err_step1 clock _ _ _ I1), (run_err_step1 clock' _ _ _ I2).
      reflexivity. }
  assert (Hh : common_header clock s1 n = common_header clock' s1 n').
  { unfold common_header. rewrite E0, E1. reflexivity. }
  destruct (common_header clock s1 n) as [h|e] eqn:H2.
  2:{ destruct (run_step2_err clock _ _ _ H2) as [st2 H2'].
      symmetry in Hh.
      destruct (run_step2_err clock' _ _ _ Hh) as [st2' H2''].
      unfold run.
      rewrite (bind_ok _ _ _ _ _ I1), (bind_ok _ _ _ _ _ I2).
      rewrite (bind_err _ _ _ _ _ H2'), (bind_err _ _ _ _ _ H2'').
      reflexivity. }
  symmetry in Hh.
  destruct (transfer_payload s1) as [b|e] eqn:H3.
  - rewrite (run_ok clock _ _ _ _ _ I1 H2 H3).
    rewrite (run_ok clock' _ _ _ _ _ I2 Hh H3). reflexivity.
  - destruct (run_step3_err (set_common_data (common_data s1 ++ h) s1)
                (S (S n)) e H3) as [st3 H3'].
    destruct (run_step3_err (set_common_data (common_data s1 ++ h) s1)
                (S (S n')) e H3) as [st3' H3''].
    unfold run.
    rewrite (bind_ok _ _ _ _ _ I1), (bind_ok _ _ _ _ _ I2).
    rewrite (bind_ok _ _ _ _ _ (run_step2_ok clock _ _ _ H2)).
    rewrite (bind_ok _ _ _ _ _ (run_step2_ok clock' _ _ _ Hh)).
    rewrite (bind_err _ _ _ _ _ H3'), (bind_err _ _ _ _ _ H3'').
    reflexivity.
Qed.

(** After a successful Step.1 on a message, [message_type] is a [bytes]. *)
Lemma set_message_info_rebinds (s s1 : TransactionCreator) (n n1 : nat) :
  set_message_info (s, n) = (Ok tt, (s1, n1)) ->
  message_type_tag (message_type s1) = None.
Proof.
  set_message_info_cases s; intros H; try discriminate H.
  injection H as <- _. reflexivity.
Qed.

(** With the clock standing still, a second [run] of the same object
    does not return the bytes of the first: without a message it returns
    twice as many, with a message it raises. *)
Lemma second_run_differs :
  (let r1 := run sample_clock (sample_request None, O) in
   let r2 := run sample_clock (snd r1) in
   exists out1 out2,
     fst r1 = Ok out1 /\ fst r2 = Ok out2 /\
     out2 <> out1 /\ len out1 = 156 /\ len out2 = 312) /\
  (let r1 := run sample_clock (sample_request (Some (str "NEM")), O) in
   let r2 := run sample_clock (snd r1) in
   is_ok (fst r1) = true /\ fst r2 = Err InvalidMessageTypeError).
Proof.
  split.
  - eexists _, _. split; [vm_compute; reflexivity|].
    split; [vm_compute; reflexivity|].
    split; [discriminate|]. split; reflexivity.
  - split; vm_compute; reflexivity.
Qed.

Lemma encode_times_fixed_clock (clock : nat -> Z) (t : Z)
    (request : TransactionCreator) :
  (forall i, clock i = t) ->
  forall (k n : nat) (r : result bytes),
    In r (encode_times clock request k n) ->
    r = fst (run clock (request, O)).
Proof.
  intros Hc k. induction k as [|k IH]; intros n r H; [destruct H|].
  cbn [encode_times In] in H. destruct H as [<- | H].
  - apply run_clock_ext; rewrite !Hc; reflexivity.
  - apply (IH _ _ H).
Qed.

(** C10, amended.  An encode on a freshly built object is a function of
    the fields of the request and of the two clock readings: with the
    clock held fixed, any number of encodes, each on a fresh object built
    from the same fields, return the same result, whatever was encoded
    before.  The object itself keeps state: [run] appends to
    [common_data] and [transfer_data] and rebinds [message_type], so a
    second [run] of the same object returns, without a message, the
    header twice followed by the payload twice, and raises the
    invalid-message-type exception with a message. *)
Theorem run_fresh_object_only :
  (forall (clock clock' : nat -> Z) (s : TransactionCreator) (n n' : nat),
      clock n = clock' n' -> clock (S n) = clock' (S n') ->
      fst (run clock (s, n)) = fst (run clock' (s, n'))) /\
  (forall (clock : nat -> Z) (t : Z) (request : TransactionCreator),
      (forall i, clock i = t) ->
      forall (k n : nat) (r : result bytes),
        In r (encode_times clock request k n) ->
        r = fst (run clock (request, O))) /\
  (forall (clock : nat -> Z) (s : TransactionCreator) (n : nat)
          (out : bytes) (st' : state),
      clock (S (S n)) = clock n ->
      clock (S (S (S n))) = clock (S n) ->
      truthy (message s) = false ->
      common_data s = [] -> transfer_data s = [] ->
      run clock (s, n) = (Ok out, st') ->
      exists h b,
        out = h ++ b /\
        fst (run clock st') = Ok ((h ++ h) ++ (b ++ b))) /\
  (forall (clock : nat -> Z) (s : TransactionCreator) (n : nat)
          (out : bytes) (st' : state),
      truthy (message s) = true ->
      run clock (s, n) = (Ok out, st') ->
      fst (run clock st') = Err InvalidMessageTypeError).
Proof.
  split; [exact run_clock_ext|]. split; [exact encode_times_fixed_clock|].
  split.
  - intros clock s n out st' E0 E1 Hmsg Hcd Htd Hrun.
    destruct (run_inv clock (s, n) out) as (s1 & n1 & h & b & H1 & H2 & H3 & Hout).
    { rewrite Hrun. reflexivity. }
    rewrite (run_ok clock _ _ _ _ _ H1 H2 H3) in Hrun.
    rewrite (run_step1_no_message _ _ Hmsg) in H1.
    pose proof (f_equal (fun x => fst (snd x)) H1) as Hs1.
    pose proof (f_equal (fun x => snd (snd x)) H1) as Hn1.
    pose proof (f_equal snd Hrun) as Hst.
    cbn [fst snd] in Hs1, Hn1, Hst. subst s1 n1 st'. clear H1 Hrun.
    cbn [common_data transfer_data set_message_field] in Hout.
    rewrite Hcd, Htd in Hout. cbn [app] in Hout.
    exists h, b. split; [exact Hout|].
    set (s1 := set_message_field (le_digits 4 0) s) in *.
    set (s2 := set_transfer_data (transfer_data s1 ++ b)
                 (set_common_data (common_data s1 ++ h) s1)).
    assert (Hmsg2 : truthy (message s2) = false) by exact Hmsg.
    pose proof (run_step1_no_message s2 (S (S n)) Hmsg2) as H1'.
    assert (H2' : common_header clock
                    (set_message_field (le_digits 4 0) s2) (S (S n)) = Ok h).
    { rewrite <- H2. unfold common_header. rewrite E0, E1. reflexivity. }
    assert (H3' : transfer_payload (set_message_field (le_digits 4 0) s2) = Ok b)
      by exact H3.
    rewrite (run_ok clock _ _ _ _ _ H1' H2' H3'). cbn [fst].
    cbn [common_data transfer_data set_message_field set_transfer_data
         set_common_data s1 s2].
    rewrite Hcd, Htd. reflexivity.
  - intros clock s n out st' Hmsg Hrun.
    destruct (run_inv clock (s, n) out) as (s1 & n1 & h & b & H1 & H2 & H3 & Hout).
    { rewrite Hrun. reflexivity. }
    rewrite (run_ok clock _ _ _ _ _ H1 H2 H3) in Hrun.
    pose proof (f_equal snd Hrun) as Hst. cbn [snd] in Hst. subst st'.
    clear Hrun.
    pose proof (run_step1_preserves s n) as Hp. cbv zeta in Hp.
    rewrite H1 in Hp. cbn [fst snd] in Hp.
    destruct Hp as ((_ & _ & _ & _ & _ & Hm & _) & _).
    rewrite (run_step1_message _ _ Hmsg) in H1.
    apply set_message_info_rebinds in H1.
    set (s2 := set_transfer_data (transfer_data s1 ++ b)
                 (set_common_data (common_data s1 ++ h) s1)).
    assert (Hmsg2 : truthy (message s2) = true).
    { change (message s2) with (message s1). rewrite Hm. exact Hmsg. }
    assert (Htag : message_type_tag (message_type s2) = None) by exact H1.
    rewrite (run_err_step1 clock _ (s2, S (S n1)) InvalidMessageTypeError);
      [reflexivity|].
    rewrite (run_step1_message _ _ Hmsg2).
    apply set_message_info_invalid. exact Htag.
Qed.

Lemma run_fresh_object_only_witness :
  (forall i, sample_clock i = 100000000) /\
  forall (k n : nat) (r : result bytes),
    In r (encode_times sample_clock (sample_request None) k n) ->
    r = fst (run sample_clock (sample_request None, O)).
Proof.
  assert (H : forall i, sample_clock i = 100000000) by reflexivity.
  split; [exact H|].
  exact (proj1 (proj2 run_fresh_object_only) sample_clock 100000000
           (sample_request None) H).
Defined.

(** * Further properties *)

(** ** Results *)

Lemma rbind_inv {A B} (r : result A) (k : A -> result B) (b : B) :
  rbind r k = Ok b -> exists a, r = Ok a /\ k a = Ok b.
Proof. destruct r as [a|e]; [|discriminate]. intros H. exists a. auto. Qed.

(** What [run] returns, from the three steps *)
Lemma run_fst (clock : nat -> Z) (st : state) :
  fst (run clock st) =
    match run_step1 st with
    | (Ok _, (s1, n1)) =>
        (h <- common_header clock s1 n1 ;;
         b <- transfer_payload s1 ;;
         Ok ((common_data s1 ++ h) ++ transfer_data s1 ++ b))%result
    | (Err e, _) => Err e
    end.
Proof.
  destruct (run_step1 st) as [[[]|e] [s1 n1]] eqn:E1.
  - destruct (common_header clock s1 n1) as [h|e] eqn:Eh.
    + destruct (transfer_payload s1) as [b|e] eqn:Eb.
      * rewrite (run_ok clock st s1 n1 h b E1 Eh Eb). reflexivity.
      * cbn [rbind]. unfold run, bind at 1. rewrite E1.
        unfold bind at 1. rewrite (run_step2_ok clock s1 n1 h Eh).
        destruct (run_step3_err (set_common_data (common_data s1 ++ h) s1)
                    (S (S n1)) e Eb) as [st' H3].
        unfold bind at 1. rewrite H3. reflexivity.
    + cbn [rbind]. unfold run, bind at 1. rewrite E1.
      destruct (run_step2_err clock s1 n1 e Eh) as [st' H2].
      unfold bind at 1. rewrite H2. reflexivity.
  - rewrite (run_err_step1 clock st (s1, n1) e E1). reflexivity.
Qed.

Lemma rbind_err_inv {A B} (r : result A) (k : A -> result B) (e : exn) :
  rbind r k = Err e -> r = Err e \/ exists a, r = Ok a /\ k a = Err e.
Proof.
  destruct r as [a|e']; cbn [rbind]; intros H.
  - right. exists a. auto.
  - left. congruence.
Qed.

(** ** Scalars, both ways *)

Lemma to_bytes_little_inj (v v' w : Z) (b : bytes) :
  to_bytes_little v w = Ok b -> to_bytes_little v' w = Ok b -> v = v'.
Proof.
  intros H H'.
  apply to_bytes_little_inv in H as (Hw & Hv & ->).
  apply to_bytes_little_inv in H' as (_ & Hv' & E).
  apply (f_equal from_bytes_little) in E.
  rewrite !from_bytes_le_digits_small in E by (rewrite Z2Nat.id by lia; lia).
  exact E.
Qed.

(** X1.  [convert_number_to_byte] undoes the little-endian reading: for
    every byte string [b], the integer that [b] reads as, encoded on
    [len b] bytes, is [b] again; no byte string is left out. *)
Theorem convert_number_to_byte_of_bytes (b : bytes) :
  convert_number_to_byte (from_bytes_little b) (len b) = Ok b.
Proof.
  unfold convert_number_to_byte. rewrite to_bytes_little_ok.
  - unfold len. rewrite Nat2Z.id. f_equal. apply le_digits_from_bytes.
  - unfold len. lia.
  - apply from_bytes_little_range.
Qed.

(** X2.  At a given width [convert_number_to_byte] is injective: two
    values that encode to the same bytes are equal. *)
Theorem convert_number_to_byte_inj (v v' w : Z) (b : bytes) :
  convert_number_to_byte v w = Ok b ->
  convert_number_to_byte v' w = Ok b ->
  v = v'.
Proof. apply to_bytes_little_inj. Qed.

Lemma convert_number_to_byte_inj_witness :
  convert_number_to_byte 3600 4 = Ok [x10; x0e; x00; x00] /\
  convert_number_to_byte (3000 + 600) 4 = Ok [x10; x0e; x00; x00] /\
  3600 = 3000 + 600.
Proof.
  split; [reflexivity|]. split; [reflexivity|].
  apply (convert_number_to_byte_inj 3600 (3000 + 600) 4 [x10; x0e; x00; x00]);
    reflexivity.
Defined.

(** ** The version word and the type code, further *)

(** X3.  [get_version] does not check the network: for every
    [network_type] other than ['main'] (['test'], but also ['mainnet'] or
    ['Main']) it returns the word of the test network, whose last byte is
    0x98 and which reads as 0x98000001 or 0x98000002. *)
Theorem get_version_other_network (self : TransactionCreator) :
  network_type self <> str "main" ->
  exists v,
    get_version self = Ok v /\
    nth 3 v x00 = x98 /\
    (from_bytes_little v = 0x98000001 \/ from_bytes_little v = 0x98000002).
Proof.
  intros Hn. unfold get_version.
  destruct (pystr_eqb (network_type self) (str "main")) eqn:E.
  - apply pystr_eqb_eq in E. contradiction.
  - destruct (existsb _ _); eexists;
      (split; [reflexivity|]); (split; [reflexivity|]);
      [right | left]; reflexivity.
Qed.

Lemma get_version_other_network_witness :
  let self := init sample_public_key (PyInt 12) sample_address None
                (str "plane") (str "transfer") (str "mainnet") in
  network_type self <> str "main" /\
  exists v,
    get_version self = Ok v /\
    nth 3 v x00 = x98 /\
    (from_bytes_little v = 0x98000001 \/ from_bytes_little v = 0x98000002).
Proof.
  cbv zeta. split; [discriminate|].
  apply (get_version_other_network
           (init sample_public_key (PyInt 12) sample_address None
              (str "plane") (str "transfer") (str "mainnet"))).
  discriminate.
Defined.

Lemma dict_get_In (d : list (pystr * Z)) (key : pystr) (v : Z) :
  dict_get d key = Ok v -> In (key, v) d.
Proof.
  induction d as [|[k x] d IH]; cbn [dict_get]; [discriminate|].
  destruct (pystr_eqb k key) eqn:E.
  - apply pystr_eqb_eq in E. intros [= <-]. left. congruence.
  - intros H. right. apply IH, H.
Qed.

(** X4.  The codes of [TRANSACTION_TYPE] are distinct: when
    [get_transaction_type] returns the same four bytes for two objects,
    their [transaction_type] is the same. *)
Theorem get_transaction_type_inj (s s' : TransactionCreator) (b : bytes) :
  get_transaction_type s = Ok b -> get_transaction_type s' = Ok b ->
  transaction_type s = transaction_type s'.
Proof.
  unfold get_transaction_type. intros H H'.
  apply rbind_inv in H as (v & Hv & Hb).
  apply rbind_inv in H' as (v' & Hv' & Hb').
  pose proof (to_bytes_little_inj v v' 4 b Hb Hb') as <-.
  apply dict_get_In in Hv, Hv'.
  generalize dependent (transaction_type s).
  generalize dependent (transaction_type s').
  intros k' Hk' k Hk. clear - Hk Hk'.
  unfold TRANSACTION_TYPE in *. cbn [In] in *.
  repeat match goal with
         | H : _ \/ _ |- _ => destruct H as [H|H]
         | H : False |- _ => contradiction
         end;
    injection Hk as <- E; injection Hk' as <- E';
    first [reflexivity | exfalso; rewrite <- E' in E; discriminate E].
Qed.

Lemma get_transaction_type_inj_witness :
  let s := sample_request None in
  let s' := sample_request (Some (str "NEM")) in
  get_transaction_type s = Ok [x01; x01; x00; x00] /\
  get_transaction_type s' = Ok [x01; x01; x00; x00] /\
  transaction_type s = transaction_type s'.
Proof.
  cbv zeta. split; [reflexivity|]. split; [reflexivity|].
  apply (get_transaction_type_inj (sample_request None)
           (sample_request (Some (str "NEM"))) [x01; x01; x00; x00]);
    reflexivity.
Defined.

(** ** The public key, further *)

(** X5.  When [get_publickey] returns, its 32 bytes read little-endian as
    the integer that [int(self.public_key, 16)] gives, a number from 0
    and below 2^256. *)
Theorem get_publickey_value (self : TransactionCreator) (pk : bytes) :
  get_publickey self = Ok pk ->
  exists v,
    int_base16 (public_key self) = Ok v /\
    0 <= v < 2 ^ 256 /\ len pk = 32 /\ from_bytes_little pk = v.
Proof.
  unfold get_publickey. intros H.
  apply rbind_inv in H as (v & Hv & H).
  pose proof (convert_number_to_byte_length _ _ _ H) as Hl.
  apply to_bytes_little_inv in H as (_ & Hr & ->).
  exists v. split; [exact Hv|]. split; [exact Hr|]. split; [exact Hl|].
  apply from_bytes_le_digits_small. exact Hr.
Qed.

Lemma get_publickey_value_witness :
  let pk := match get_publickey (sample_request None) with
            | Ok b => b
            | Err _ => []
            end in
  get_publickey (sample_request None) = Ok pk /\
  exists v,
    int_base16 (public_key (sample_request None)) = Ok v /\
    0 <= v < 2 ^ 256 /\ len pk = 32 /\ from_bytes_little pk = v.
Proof.
  cbv zeta. split; [reflexivity|].
  apply (get_publickey_value (sample_request None)). reflexivity.
Defined.

Lemma long_from_string_16_0x (c1 c2 : N) (r : pystr) :
  py_isspace c1 = false -> c1 <> 43%N -> c1 <> 45%N -> c1 <> 95%N ->
  ((c2 =? 120) || (c2 =? 88))%N = false ->
  long_from_string_16 (48 :: 120 :: c1 :: c2 :: r)%N =
  long_from_string_16 (c1 :: c2 :: r).
Proof.
  intros S1 P1 M1 U1 X2.
  rewrite (long_from_string_16_head c1 c2 r S1 P1 M1 U1 X2).
  unfold long_from_string_16. cbn [skip_space].
  change (py_isspace 48) with false. cbv beta iota zeta.
  change ((120 =? 120) || (120 =? 88))%N with true. cbv beta iota zeta.
  destruct c1 as [|p]; [reflexivity|].
  do 7 (try destruct p as [p|p|]); try reflexivity; try congruence.
Qed.

(** X6.  [get_publickey] accepts a key written with the prefix [0x]: for
    a key of hexadecimal digits, two for each byte, the result with the
    prefix is the result without it. *)
Theorem get_publickey_0x_prefix (key : pystr) (b : bytes) (a : pynum)
    (addr : pystr) (msg : option pystr) (mt kind net : pystr) :
  spec_hex_decode key = Some b -> b <> [] ->
  get_publickey (init (str "0x" ++ key) a addr msg mt kind net) =
  get_publickey (init key a addr msg mt kind net).
Proof.
  intros H Hne. unfold get_publickey. cbn [public_key init].
  pose proof (spec_hex_decode_ascii b key H) as Hascii.
  rewrite (int_base16_ascii key Hascii).
  rewrite int_base16_ascii
    by (change (str "0x" ++ key) with (48 :: 120 :: key)%N;
        cbn [forallb]; rewrite Hascii; reflexivity).
  destruct b as [|x b]; [congruence|].
  apply spec_hex_decode_cons in H
    as (c1 & c2 & r & h & l & -> & H1 & H2 & _ & _).
  apply hexval_inv in H1 as (_ & _ & S1 & U1 & P1 & M1 & _).
  apply hexval_inv in H2 as (_ & _ & _ & _ & _ & _ & X2).
  change (str "0x" ++ c1 :: c2 :: r) with (48 :: 120 :: c1 :: c2 :: r)%N.
  rewrite long_from_string_16_0x; try assumption; try reflexivity.
  intros ->. discriminate U1.
Qed.

Lemma get_publickey_0x_prefix_witness :
  spec_hex_decode sample_public_key =
    Some (match spec_hex_decode sample_public_key with
          | Some b => b
          | None => []
          end) /\
  match spec_hex_decode sample_public_key with
  | Some b => b
  | None => []
  end <> [] /\
  get_publickey (init (str "0x" ++ sample_public_key) (PyInt 12)
                   sample_address None (str "plane") (str "transfer")
                   (str "test")) =
  get_publickey (init sample_public_key (PyInt 12) sample_address None
                   (str "plane") (str "transfer") (str "test")).
Proof.
  split; [reflexivity|]. split; [discriminate|].
  apply (get_publickey_0x_prefix sample_public_key
           (match spec_hex_decode sample_public_key with
            | Some b => b
            | None => []
            end)); [reflexivity | discriminate].
Defined.

(** ** The address field, further *)

Lemma hex_char_round (d : Z) :
  0 <= d < 16 ->
  hexval (Z.to_N (Z_of_byte (byte_of_Z (Z.of_N (hex_digit d))))) = Some d.
Proof.
  intros Hd.
  assert (Hn : d = Z.of_nat (Z.to_nat d)) by lia.
  revert Hn. generalize (Z.to_nat d). intros n ->.
  do 16 (destruct n as [|n]; [reflexivity|]). lia.
Qed.

(** Reading the hexadecimal digits back gives the bytes. *)
Lemma spec_hex_decode_hex_ascii (u : bytes) :
  spec_hex_decode (bytes_text (hex_ascii u)) = Some u.
Proof.
  induction u as [|x u IH]; [reflexivity|].
  unfold hex_ascii, bytes_text in *. cbn [flat_map app map spec_hex_decode].
  pose proof (Z_of_byte_range x) as Hx.
  assert (H1 : 0 <= Z_of_byte x / 16 < 16).
  { split; [apply Z.div_pos; lia | apply Z.div_lt_upper_bound; lia]. }
  pose proof (Z.mod_pos_bound (Z_of_byte x) 16 ltac:(lia)) as H2.
  rewrite (hex_char_round _ H1), (hex_char_round _ H2), IH.
  rewrite <- Z.div_mod by lia. rewrite byte_of_Z_of_byte. reflexivity.
Qed.

Lemma get_address_hex (self : TransactionCreator) (a : bytes) :
  get_address self = Ok a ->
  exists u, encode_utf8 (address self) = Ok u /\ a = hex_ascii u.
Proof.
  unfold get_address. intros H.
  apply rbind_inv in H as (u & Hu & H).
  rewrite encode_utf8_bytes_hex in H. injection H as <-.
  exists u. split; [exact Hu | reflexivity].
Qed.

(** X7.  The bytes that [get_address] returns are hexadecimal digits,
    and reading them back two by two gives the UTF-8 encoding of
    [self.address]; the field is twice as long as that encoding. *)
Theorem get_address_round_trip (self : TransactionCreator) (a : bytes) :
  get_address self = Ok a ->
  exists u,
    encode_utf8 (address self) = Ok u /\
    spec_hex_decode (bytes_text a) = Some u /\
    len a = 2 * len u.
Proof.
  intros H. destruct (get_address_hex self a H) as (u & Hu & ->).
  exists u. split; [exact Hu|]. split.
  - apply spec_hex_decode_hex_ascii.
  - apply hex_ascii_length.
Qed.

Lemma get_address_round_trip_witness :
  let a := match get_address (sample_request None) with
           | Ok a => a
           | Err _ => []
           end in
  get_address (sample_request None) = Ok a /\
  exists u,
    encode_utf8 (address (sample_request None)) = Ok u /\
    spec_hex_decode (bytes_text a) = Some u /\
    len a = 2 * len u.
Proof.
  cbv zeta. split; [reflexivity|].
  apply (get_address_round_trip (sample_request None)). reflexivity.
Defined.

Lemma utf8_char_length (c : N) (b : bytes) :
  utf8_char c = Ok b -> 1 <= len b <= 4.
Proof.
  unfold utf8_char.
  repeat match goal with
         | |- context [if ?c then _ else _] => destruct c
         end; intros H; try discriminate; injection H as <-;
    cbn; lia.
Qed.

Lemma encode_utf8_length (s : pystr) (u : bytes) :
  encode_utf8 s = Ok u -> len s <= len u <= 4 * len s.
Proof.
  revert u. induction s as [|c s IH]; intros u H.
  - injection H as <-. cbn. lia.
  - cbn [encode_utf8] in H.
    apply rbind_inv in H as (b & Hb & H).
    apply rbind_inv in H as (r & Hr & H).
    injection H as <-.
    pose proof (utf8_char_length c b Hb). pose proof (IH r Hr).
    rewrite len_app. unfold len in *. cbn [length]. lia.
Qed.

Lemma encode_utf8_ascii (s : pystr) :
  forallb (fun c => (c <? 128)%N) s = true ->
  exists u, encode_utf8 s = Ok u /\ len u = len s.
Proof.
  induction s as [|c s IH]; intros H.
  - exists []. split; reflexivity.
  - cbn [forallb] in H. apply andb_prop in H as [Hc Hs].
    destruct (IH Hs) as (u & Hu & Hl).
    apply N.ltb_lt in Hc.
    cbn [encode_utf8]. rewrite utf8_char_ascii by lia. rewrite Hu.
    eexists. split; [reflexivity|].
    cbn [rbind app]. unfold len in *. cbn [length]. lia.
Qed.

(** X8.  The address field has from 2 to 8 bytes for each character of
    [self.address], and exactly 2 for each when the address is ASCII (80
    bytes for 40 characters, where the length field before it says 40). *)
Theorem get_address_size (self : TransactionCreator) (a : bytes) :
  get_address self = Ok a ->
  2 * len (address self) <= len a <= 8 * len (address self) /\
  (forallb (fun c => (c <? 128)%N) (address self) = true ->
   len a = 2 * len (address self)).
Proof.
  intros H.
  destruct (get_address_hex self a H) as (u & Hu & ->).
  pose proof (hex_ascii_length u) as Hl.
  pose proof (encode_utf8_length _ _ Hu). split; [lia|].
  intros Hascii. destruct (encode_utf8_ascii _ Hascii) as (u' & Hu' & Hl').
  assert (u' = u) by congruence. subst u'. lia.
Qed.

Lemma get_address_size_witness :
  let self := init_default sample_public_key (PyInt 12)
                [84; 233; 8364; 128512]%N None in
  let a := match get_address self with Ok a => a | Err _ => [] end in
  get_address self = Ok a /\
  2 * len (address self) <= len a <= 8 * len (address self) /\
  (forallb (fun c => (c <? 128)%N) (address self) = true ->
   len a = 2 * len (address self)).
Proof.
  cbv zeta. split; [reflexivity|].
  apply (get_address_size
           (init_default sample_public_key (PyInt 12)
              [84; 233; 8364; 128512]%N None)).
  reflexivity.
Defined.

(** ** Integers that are doubles *)

Lemma exact_double_significand (P : Z) :
  0 < P < 2 ^ 53 ->
  0 < Zdigits2 P <= 53 /\
  Z.pos (Z.to_pos (P * 2 ^ (prec - Zdigits2 P))) = P * 2 ^ (53 - Zdigits2 P) /\
  Zdigits2 (P * 2 ^ (53 - Zdigits2 P)) = 53.
Proof.
  intros HP.
  pose proof (Zdigits2_le P 53 ltac:(lia) ltac:(lia)) as Hd.
  pose proof (Zdigits2_pos P ltac:(lia)) as Hd0.
  pose proof (pow2_gt0 (53 - Zdigits2 P) ltac:(lia)) as Hpw.
  split; [lia|]. split.
  - unfold prec. rewrite Z2Pos.id by nia. reflexivity.
  - rewrite Zdigits2_mul_pow by lia. lia.
Qed.

Lemma binary_round_exact (s : bool) (p : positive) :
  Z.pos p < 2 ^ 53 ->
  binary_round prec emax s p 0 = exact_double s (Z.pos p).
Proof.
  intros Hp.
  destruct (exact_double_significand (Z.pos p) ltac:(lia)) as (Hd & Hm & HdM).
  unfold exact_double. cbn [Zdigits2] in *.
  set (d := Z.pos (digits2_pos p)) in *.
  unfold binary_round, shl_align.
  replace (fexp prec emax (Z.pos (digits2_pos p) + 0)) with (d - 53).
  2:{ subst d. unfold fexp, emin, prec, emax. lia. }
  destruct (d - 53 - 0) as [|n|n] eqn:En; [| lia |].
  - assert (d = 53) by lia.
    replace (Z.to_pos (Z.pos p * 2 ^ (prec - d))) with p.
    2:{ unfold prec. replace (53 - d) with 0 by lia. cbn. lia. }
    pose proof (binary_round_aux_exact s p 0 0 ltac:(lia)) as H0.
    rewrite Z.mul_1_r, Z.add_0_r in H0.
    replace (d - prec) with 0 by (unfold prec; lia).
    apply H0.
    + fold d. unfold fexp, emin, prec, emax. lia.
    + unfold emax, prec. lia.
  - unfold shift_pos.
    assert (Hn : Z.pos n = 53 - d) by lia.
    replace (Z.to_pos (Z.pos p * 2 ^ (prec - d))) with (Pos.iter xO p n).
    2:{ apply Pos2Z.inj. rewrite pos_iter_xO, Hm, Hn. reflexivity. }
    pose proof (binary_round_aux_exact s (Pos.iter xO p n) 0 (d - 53) ltac:(lia)) as H0.
    rewrite Z.mul_1_r, Z.add_0_r in H0.
    replace (d - prec) with (d - 53) by (unfold prec; lia).
    apply H0.
    + change (Z.pos (digits2_pos ?x)) with (Zdigits2 (Z.pos x)).
      rewrite pos_iter_xO, Hn, HdM. unfold fexp, emin, prec, emax. lia.
    + unfold emax, prec. lia.
Qed.

(** [float(P)] and [float(-P)] are exact below [2^53]. *)
Lemma float_of_int_exact (s : bool) (P : Z) :
  0 < P < 2 ^ 53 ->
  float_of_int (cond_Zopp s P) = Ok (exact_double s P).
Proof.
  intros HP. destruct P as [|p|p]; try lia.
  unfold float_of_int, binary_normalize.
  destruct s; cbn [cond_Zopp Z.opp]; rewrite binary_round_exact by lia;
    reflexivity.
Qed.

(** [int(f)] of such a double is the integer. *)
Lemma int_of_exact_double (s : bool) (P : Z) :
  0 < P < 2 ^ 53 ->
  int_of_float (exact_double s P) = Ok (cond_Zopp s P).
Proof.
  intros HP.
  destruct (exact_double_significand P HP) as (Hd & Hm & HdM).
  unfold exact_double. cbn [int_of_float]. rewrite Hm. do 2 f_equal.
  unfold prec. rewrite Z.shiftl_div_pow2 by lia.
  replace (- (Zdigits2 P - 53)) with (53 - Zdigits2 P) by lia.
  apply Z.div_mul. pose proof (pow2_gt0 (53 - Zdigits2 P) ltac:(lia)). lia.
Qed.

Lemma Zdigits2_mul_ge (a b : Z) :
  0 < a -> 0 < b -> Zdigits2 a + Zdigits2 b - 1 <= Zdigits2 (a * b).
Proof.
  intros Ha Hb.
  pose proof (Zdigits2_ge_pow a Ha) as H1.
  pose proof (Zdigits2_ge_pow b Hb) as H2.
  pose proof (Zdigits2_pos a Ha). pose proof (Zdigits2_pos b Hb).
  pose proof (Zdigits2_lt_pow (a * b) ltac:(nia)) as H3.
  pose proof (Zdigits2_nonneg (a * b)).
  destruct (Z.le_gt_cases (Zdigits2 a + Zdigits2 b - 1) (Zdigits2 (a * b)))
    as [|Hlt]; [assumption|exfalso].
  assert (2 ^ Zdigits2 (a * b) <= 2 ^ (Zdigits2 a + Zdigits2 b - 2))
    by (apply pow2_le; lia).
  replace (Zdigits2 a + Zdigits2 b - 2) with ((Zdigits2 a - 1) + (Zdigits2 b - 1)) in H5 by lia.
  rewrite pow2_split in H5 by lia.
  pose proof (pow2_gt0 (Zdigits2 a - 1) ltac:(lia)).
  pose proof (pow2_gt0 (Zdigits2 b - 1) ltac:(lia)).
  nia.
Qed.

(** The product of two integers is exact when it is below [2^53]. *)
Lemma fmul_exact_double (s s' : bool) (a b : Z) :
  0 < a -> 0 < b -> a * b < 2 ^ 53 ->
  fmul (exact_double s a) (exact_double s' b) = exact_double (xorb s s') (a * b).
Proof.
  intros Ha Hb Hab.
  assert (Ha' : a < 2 ^ 53) by nia. assert (Hb' : b < 2 ^ 53) by nia.
  destruct (exact_double_significand a ltac:(lia)) as (Hda & Hma & HdMa).
  destruct (exact_double_significand b ltac:(lia)) as (Hdb & Hmb & HdMb).
  destruct (exact_double_significand (a * b) ltac:(nia)) as (Hdab & Hmab & HdMab).
  pose proof (Zdigits2_mul_ge a b Ha Hb) as Hge.
  unfold exact_double at 1 2. unfold fmul. cbn [SFmul].
  rewrite Pos2Z.inj_mul, Hma, Hmb.
  set (da := Zdigits2 a) in *. set (db := Zdigits2 b) in *.
  set (dab := Zdigits2 (a * b)) in *.
  replace (a * 2 ^ (53 - da) * (b * 2 ^ (53 - db)))
    with (Z.pos (Z.to_pos (a * b * 2 ^ (prec - dab))) * 2 ^ (53 + dab - da - db)).
  2:{ rewrite Hmab.
      replace (a * 2 ^ (53 - da) * (b * 2 ^ (53 - db)))
        with (a * b * (2 ^ (53 - da) * 2 ^ (53 - db))) by ring.
      rewrite <- !Z.mul_assoc. rewrite <- !pow2_split by lia.
      do 3 f_equal. lia. }
  unfold exact_double. fold dab.
  replace (dab - prec) with (da - prec + (db - prec) + (53 + dab - da - db))
    by (unfold prec; lia).
  apply binary_round_aux_exact; [lia | | unfold emax, prec; lia].
  change (Z.pos (digits2_pos ?x)) with (Zdigits2 (Z.pos x)).
  rewrite Hmab, HdMab. unfold fexp, emin, prec, emax. lia.
Qed.

Example f_1000000_exact : f_1000000 = exact_double false 1000000.
Proof. reflexivity. Qed.

(** ** Division of integers, truncated *)

(** [int(z / b)] is the quotient of the integers, for [z] below [2^51]:
    the rounding of the true division never reaches the next integer. *)
Lemma int_truediv_floor (z b : Z) :
  0 <= z < 2 ^ 51 -> 0 < b < 2 ^ 64 ->
  (q <- int_truediv z b ;; int_of_float q)%result = Ok (z / b).
Proof.
  intros Hz Hb. unfold int_truediv.
  destruct (Z.eqb_spec b 0) as [|_]; [lia|].
  destruct b as [|pb|pb]; try lia.
  destruct z as [|pz|pz]; try lia; [reflexivity|].
  cbn [exact_of_int].
  unfold fdiv, SFdiv, SFdiv_core_binary. cbn [xorb].
  set (z := Z.pos pz) in *. set (b := Z.pos pb) in *.
  set (d1 := Zdigits2 z). set (d2 := Zdigits2 b).
  assert (Hd1 : 0 < d1 <= 51).
  { split; [apply Zdigits2_pos | apply Zdigits2_le]; lia. }
  assert (Hd2 : 0 < d2 <= 64).
  { split; [apply Zdigits2_pos | apply Zdigits2_le]; lia. }
  pose proof (Zdigits2_ge_pow z ltac:(lia)) as Hz1.
  pose proof (Zdigits2_lt_pow z ltac:(lia)) as Hz2.
  pose proof (Zdigits2_ge_pow b ltac:(lia)) as Hb1.
  pose proof (Zdigits2_lt_pow b ltac:(lia)) as Hb2.
  fold d1 in Hz1, Hz2. fold d2 in Hb1, Hb2.
  replace (Z.min (fexp prec emax (d1 + 0 - (d2 + 0))) (0 - 0))
    with (d1 - d2 - 53) by (unfold fexp, emin, prec, emax; lia).
  replace (0 - 0 - (d1 - d2 - 53)) with (d2 + 53 - d1) by lia.
  set (s := d2 + 53 - d1).
  set (m' := match s with
             | 0 => z
             | Z.pos _ => Z.shiftl z s
             | Z.neg _ => 0
             end).
  assert (Hs : 0 < s) by (subst s; lia).
  assert (Hm' : m' = z * 2 ^ s).
  { subst m'. destruct s as [|p|p] eqn:Es; [lia | | lia].
    rewrite Z.shiftl_mul_pow2 by lia. reflexivity. }
  pose proof (div_eucl_div m' b) as Hq.
  destruct (Z.div_eucl m' b) as [q r]. cbn [fst] in Hq. subst q.
  set (q := m' / b).
  pose proof (pow2_gt0 s ltac:(lia)) as Hps.
  assert (Hm'1 : 2 ^ 52 * 2 ^ d2 <= m').
  { rewrite Hm'. rewrite <- pow2_split by lia.
    replace (52 + d2) with ((d1 - 1) + s) by (subst s; lia).
    rewrite pow2_split by lia. nia. }
  assert (Hm'2 : m' < 2 ^ 54 * 2 ^ (d2 - 1)).
  { rewrite Hm'. rewrite <- pow2_split by lia.
    replace (54 + (d2 - 1)) with (d1 + s) by (subst s; lia).
    rewrite pow2_split by lia. nia. }
  assert (Hq1 : 2 ^ 52 <= q).
  { apply Z.div_le_lower_bound; [lia|]. nia. }
  assert (Hq2 : q < 2 ^ 54).
  { apply Z.div_lt_upper_bound; [lia|]. nia. }
  destruct (binary_round_aux_spec false q (d1 - d2 - 53) (new_location b r)
              ltac:(lia)) as (m2 & Hm2 & H3 & ->).
  cbv zeta in *.
  set (dq := Zdigits2 q) in *.
  assert (Hdq : 53 <= dq <= 54).
  { split.
    - pose proof (Zdigits2_lt_pow q ltac:(lia)) as H. fold dq in H.
      pose proof (Zdigits2_nonneg q) as H0. fold dq in H0.
      destruct (Z.le_gt_cases 53 dq) as [|Hlt]; [assumption|].
      assert (2 ^ dq <= 2 ^ 52) by (apply pow2_le; lia). lia.
    - apply Zdigits2_le; lia. }
  set (c := dq - 53).
  replace (Z.max (d1 - d2 - 53) (fexp prec emax (dq + (d1 - d2 - 53))))
    with (d1 - d2 - 53 + c) in *
    by (subst c; unfold fexp, emin, prec, emax; lia).
  replace (d1 - d2 - 53 + c - (d1 - d2 - 53)) with c in * by lia.
  set (e1 := d1 - d2 - 53 + c) in *.
  set (A := q / 2 ^ c) in *.
  assert (HqA : 2 ^ c * A <= q < 2 ^ c * (A + 1)).
  { pose proof (pow2_gt0 c ltac:(subst c; lia)) as Hpc.
    pose proof (Z.div_mod q (2 ^ c) ltac:(lia)) as Hdm.
    pose proof (Z.mod_pos_bound q (2 ^ c) Hpc). fold A in Hdm. lia. }
  assert (HA : 2 ^ 52 <= A < 2 ^ 53).
  { assert (Hc : c = 0 \/ c = 1) by (subst c; lia).
    destruct Hc as [Hc|Hc]; rewrite Hc in HqA.
    - change (2 ^ 0) with 1 in HqA.
      pose proof (Zdigits2_lt_pow q ltac:(lia)) as H. fold dq in H.
      replace dq with 53 in H by (subst c; lia). lia.
    - change (2 ^ 1) with 2 in HqA.
      pose proof (Zdigits2_ge_pow q ltac:(lia)) as H. fold dq in H.
      replace (dq - 1) with 53 in H by (subst c; lia). lia. }
  set (dm2 := Zdigits2 m2) in *.
  assert (Hdm2 : 53 <= dm2 <= 54).
  { split.
    - pose proof (Zdigits2_lt_pow m2 ltac:(lia)) as H. fold dm2 in H.
      pose proof (Zdigits2_nonneg m2) as H0. fold dm2 in H0.
      destruct (Z.le_gt_cases 53 dm2) as [|Hlt]; [assumption|].
      assert (2 ^ dm2 <= 2 ^ 52) by (apply pow2_le; lia). lia.
    - apply Zdigits2_le; lia. }
  set (c2 := dm2 - 53).
  replace (Z.max e1 (fexp prec emax (dm2 + e1))) with (e1 + c2) in *
    by (subst c2 e1 c; unfold fexp, emin, prec, emax; lia).
  replace (e1 + c2 - e1) with c2 in * by lia.
  assert (Hc2 : 0 <= c2 <= 1) by (subst c2; lia).
  pose proof (pow2_gt0 c2 ltac:(lia)) as Hpc2.
  assert (Hm3 : 2 ^ 51 <= m2 / 2 ^ c2).
  { apply Z.div_le_lower_bound; [lia|].
    assert (2 ^ c2 <= 2 ^ 1) by (apply pow2_le; lia).
    change (2 ^ 1) with 2 in *. nia. }
  destruct (m2 / 2 ^ c2) as [|p3|p3] eqn:E3; try lia.
  destruct (Z.leb_spec (e1 + c2) (emax - prec)) as [_|Hbad].
  2:{ subst e1 c. unfold emax, prec in Hbad. lia. }
  cbn [rbind int_of_float cond_Zopp]. f_equal.
  rewrite <- E3.
  assert (He1 : e1 + c2 <= 0) by (subst e1 c; lia).
  rewrite Z.shiftl_div_pow2 by lia.
  rewrite Z.div_div by lia.
  rewrite <- pow2_split by lia.
  replace (c2 + - (e1 + c2)) with (- e1) by lia.
  (* the truncation *)
  set (T := 2 ^ (- e1)).
  assert (HT : 2 ^ s = 2 ^ c * T).
  { subst T. rewrite <- pow2_split by (subst e1 c; lia).
    f_equal. subst e1 s. lia. }
  assert (HTb : b < T).
  { subst T. assert (2 ^ d2 <= 2 ^ (- e1)) by (apply pow2_le; subst e1 c; lia).
    lia. }
  pose proof (pow2_gt0 c ltac:(subst c; lia)) as Hpc.
  pose proof (Z.div_mod z b ltac:(lia)) as Hzk.
  pose proof (Z.mod_pos_bound z b ltac:(lia)) as Hzr.
  set (k0 := z / b) in *.
  assert (Hk0 : 0 <= k0) by (apply Z.div_pos; lia).
  pose proof (Z.div_mod m' b ltac:(lia)) as Hqk.
  pose proof (Z.mod_pos_bound m' b ltac:(lia)) as Hqr.
  fold q in Hqk.
  assert (HL : k0 * T <= A).
  { apply Z.div_le_lower_bound; [lia|].
    replace (2 ^ c * (k0 * T)) with (k0 * 2 ^ s) by (rewrite HT; ring).
    apply Z.div_le_lower_bound; [lia|].
    rewrite Hm'. replace (b * (k0 * 2 ^ s)) with (b * k0 * 2 ^ s) by ring.
    apply Z.mul_le_mono_nonneg_r; lia. }
  assert (HU : A + 1 < (k0 + 1) * T).
  { assert (G1 : 2 ^ c * A * b <= z * 2 ^ s).
    { rewrite <- Hm'. transitivity (q * b); [|lia].
      apply Z.mul_le_mono_nonneg_r; lia. }
    assert (G2 : z * 2 ^ s <= (b * k0 + b - 1) * (2 ^ c * T)).
    { rewrite HT. apply Z.mul_le_mono_nonneg_r; lia. }
    destruct (Z.lt_ge_cases (A + 1) ((k0 + 1) * T)) as [|Hge]; [assumption|].
    exfalso.
    assert (G3 : 2 ^ c * ((k0 + 1) * T - 1) * b <= 2 ^ c * A * b).
    { apply Z.mul_le_mono_nonneg_r; [lia|].
      apply Z.mul_le_mono_nonneg_l; lia. }
    generalize dependent (2 ^ c). intros C. intros.
    clear - G1 G2 G3 HTb Hpc Hb. nia. }
  symmetry. apply Z.div_unique with (r := m2 - k0 * T).
  - left. lia.
  - lia.
Qed.

(** ** The fee in micro-units *)

Lemma zrange_In (a : Z) (n : nat) (k : Z) :
  a <= k < a + Z.of_nat n -> In k (zrange a n).
Proof.
  intros Hk. unfold zrange. apply in_map_iff.
  exists (Z.to_nat (k - a)). split; [lia|]. apply in_seq. lia.
Qed.

Lemma forallb_zrange (P : Z -> bool) (a : Z) (n : nat) (k : Z) :
  forallb P (zrange a n) = true -> a <= k < a + Z.of_nat n -> P k = true.
Proof.
  intros H Hk. rewrite forallb_forall in H. apply H, zrange_In, Hk.
Qed.

(** A product in the normal range has the exponent of its magnitude. *)
Lemma binary_round_aux_exponent (s : bool) (m e : Z) (l : location) :
  2 ^ 52 <= m -> -1000 <= e -> e + Zdigits2 m <= 1000 ->
  exists p3 e3,
    binary_round_aux prec emax s m e l = S754_finite s p3 e3 /\
    e + Zdigits2 m - 53 <= e3.
Proof.
  intros Hm He Hed.
  destruct (binary_round_aux_spec s m e l ltac:(lia)) as (m2 & Hm2 & H3 & ->).
  cbv zeta in *.
  set (d := Zdigits2 m) in *.
  assert (Hd : 53 <= d).
  { pose proof (Zdigits2_lt_pow m ltac:(lia)) as H. fold d in H.
    pose proof (Zdigits2_nonneg m) as H0. fold d in H0.
    destruct (Z.le_gt_cases 53 d) as [|Hlt]; [assumption|].
    assert (2 ^ d <= 2 ^ 52) by (apply pow2_le; lia). lia. }
  replace (Z.max e (fexp prec emax (d + e))) with (e + (d - 53)) in *
    by (unfold fexp, emin, prec, emax; lia).
  replace (e + (d - 53) - e) with (d - 53) in * by lia.
  set (A := m / 2 ^ (d - 53)) in *.
  assert (HA : 2 ^ 52 <= A < 2 ^ 53).
  { pose proof (Zdigits2_ge_pow m ltac:(lia)) as H1. fold d in H1.
    pose proof (Zdigits2_lt_pow m ltac:(lia)) as H2. fold d in H2.
    pose proof (pow2_gt0 (d - 53) ltac:(lia)) as Hp.
    assert (E1 : 2 ^ (d - 1) = 2 ^ 52 * 2 ^ (d - 53))
      by (rewrite <- pow2_split by lia; f_equal; lia).
    assert (E2 : 2 ^ d = 2 ^ 53 * 2 ^ (d - 53))
      by (rewrite <- pow2_split by lia; f_equal; lia).
    rewrite E1 in H1. rewrite E2 in H2.
    split.
    - apply Z.div_le_lower_bound; lia.
    - apply Z.div_lt_upper_bound; lia. }
  set (dm2 := Zdigits2 m2) in *.
  assert (Hdm2 : 53 <= dm2 <= 54).
  { split.
    - pose proof (Zdigits2_lt_pow m2 ltac:(lia)) as H. fold dm2 in H.
      pose proof (Zdigits2_nonneg m2) as H0. fold dm2 in H0.
      destruct (Z.le_gt_cases 53 dm2) as [|Hlt]; [assumption|].
      assert (2 ^ dm2 <= 2 ^ 52) by (apply pow2_le; lia). lia.
    - apply Zdigits2_le; lia. }
  replace (Z.max (e + (d - 53)) (fexp prec emax (dm2 + (e + (d - 53)))))
    with (e + (d - 53) + (dm2 - 53)) in *
    by (unfold fexp, emin, prec, emax; lia).
  replace (e + (d - 53) + (dm2 - 53) - (e + (d - 53))) with (dm2 - 53) in * by lia.
  pose proof (pow2_gt0 (dm2 - 53) ltac:(lia)) as Hpc2.
  assert (Hm3 : 2 ^ 51 <= m2 / 2 ^ (dm2 - 53)).
  { apply Z.div_le_lower_bound; [lia|].
    assert (2 ^ (dm2 - 53) <= 2 ^ 1) by (apply pow2_le; lia).
    change (2 ^ 1) with 2 in *. nia. }
  destruct (m2 / 2 ^ (dm2 - 53)) as [|p3|p3] eqn:E3; try lia.
  destruct (Z.leb_spec (e + (d - 53) + (dm2 - 53)) (emax - prec)) as [_|Hbad].
  2:{ unfold emax, prec in Hbad. lia. }
  eexists _, _. split; [reflexivity | lia].
Qed.

(** From 64 steps on the fee of the amount is above the maximum. *)
Lemma fmul_0_05_large (k : Z) :
  64 <= k < 2 ^ 53 ->
  flt f_1_25 (fmul (exact_double false k) f_0_05) = true.
Proof.
  intros Hk.
  destruct (exact_double_significand k ltac:(lia)) as (Hd & Hm & HdM).
  assert (Hdk : 7 <= Zdigits2 k).
  { pose proof (Zdigits2_lt_pow k ltac:(lia)) as H.
    destruct (Z.le_gt_cases 7 (Zdigits2 k)) as [|Hlt]; [assumption|].
    assert (2 ^ Zdigits2 k <= 2 ^ 6) by (apply pow2_le; lia). lia. }
  unfold exact_double, f_0_05, fmul. cbn [SFmul xorb].
  rewrite Pos2Z.inj_mul, Hm.
  set (M := k * 2 ^ (53 - Zdigits2 k)) in *.
  assert (HM : 2 ^ 52 <= M < 2 ^ 53).
  { pose proof (Zdigits2_ge_pow M ltac:(subst M; pose proof (pow2_gt0 (53 - Zdigits2 k)); nia)) as H1.
    pose proof (Zdigits2_lt_pow M ltac:(subst M; pose proof (pow2_gt0 (53 - Zdigits2 k)); nia)) as H2.
    rewrite HdM in H1, H2. lia. }
  assert (HP : 2 ^ 104 <= M * 7205759403792794 < 2 ^ 106) by lia.
  assert (HdP : 105 <= Zdigits2 (M * 7205759403792794) <= 106).
  { split.
    - pose proof (Zdigits2_lt_pow (M * 7205759403792794) ltac:(lia)) as H.
      pose proof (Zdigits2_nonneg (M * 7205759403792794)) as H0.
      destruct (Z.le_gt_cases 105 (Zdigits2 (M * 7205759403792794))) as [|Hlt];
        [assumption|].
      assert (2 ^ Zdigits2 (M * 7205759403792794) <= 2 ^ 104)
        by (apply pow2_le; lia).
      lia.
    - apply Zdigits2_le; lia. }
  destruct (binary_round_aux_exponent false (M * 7205759403792794)
              (Zdigits2 k - prec + -57) loc_Exact)
    as (p3 & e3 & -> & He3); try (unfold prec; lia).
  unfold flt, SFltb, f_1_25. cbn [SFcompare].
  unfold prec in He3.
  destruct (Z.compare_spec (-52) e3); first [reflexivity | lia].
Qed.

(** The fee of the amount depends on the steps only through the count
    between 1 and 25. *)
Lemma transfer_fee_steps (k : Z) :
  0 <= k < 2 ^ 53 ->
  transfer_fee_of_steps k = transfer_fee_of_steps (Z.max 1 (Z.min 25 k)).
Proof.
  intros Hk.
  destruct (Z.lt_ge_cases k 64) as [Hs|Hl].
  - assert (Hn : k = Z.of_nat (Z.to_nat k)) by lia.
    revert Hn. generalize (Z.to_nat k). intros n ->.
    assert (n < 64)%nat by lia.
    do 64 (destruct n as [|n]; [vm_compute; reflexivity|]). lia.
  - replace (Z.max 1 (Z.min 25 k)) with 25 by lia.
    unfold transfer_fee_of_steps.
    pose proof (float_of_int_exact false k ltac:(lia)) as Hf.
    cbn [cond_Zopp] in Hf. rewrite Hf.
    cbn [rbind]. unfold py_min at 1.
    unfold fee_per_base_amount, maximum_fee.
    rewrite fmul_0_05_large by lia. reflexivity.
Qed.

Lemma transfer_fee_int (self : TransactionCreator) (z : Z) :
  amount self = PyInt z -> 0 <= z < 2 ^ 51 ->
  transfer_fee self = transfer_fee_of_steps (Z.max 1 (Z.min 25 (z / 10000))).
Proof.
  intros Ha Hz. unfold transfer_fee. rewrite Ha. cbn [py_truediv].
  unfold base_amount.
  pose proof (int_truediv_floor z 10000 Hz ltac:(lia)) as Hq.
  destruct (int_truediv z 10000) as [q|e]; cbn [rbind] in *; [|discriminate].
  rewrite Hq. cbn [rbind].
  change (transfer_fee_of_steps (z / 10000) =
          transfer_fee_of_steps (Z.max 1 (Z.min 25 (z / 10000)))).
  apply transfer_fee_steps.
  assert (0 <= z / 10000) by (apply Z.div_pos; lia).
  assert (z / 10000 < 2 ^ 51) by (apply Z.div_lt_upper_bound; lia).
  lia.
Qed.

(** The fee of the message: [payload] holds two bytes for each byte of
    the message, and both divisions are the quotients of the integers. *)
Lemma message_fee_steps (self : TransactionCreator) (u : bytes) :
  truthy (message self) = true ->
  payload self = Some (hex_ascii u) ->
  len u < 2 ^ 50 ->
  message_fee self =
    py_mul (PyFloat fee_per_base_message) (PyInt (1 + len u / 32)).
Proof.
  intros Hm Hp Hu. unfold message_fee. rewrite Hm, Hp. cbn [negb attr rbind].
  rewrite hex_ascii_length.
  assert (H0 : 0 <= len u) by (unfold len; lia).
  pose proof (int_truediv_floor (2 * len u) 2 ltac:(lia) ltac:(lia)) as H1.
  destruct (int_truediv (2 * len u) 2) as [q|e]; cbn [rbind] in *;
    [|discriminate].
  rewrite H1. cbn [rbind].
  replace (2 * len u / 2) with (len u) by (rewrite Z.mul_comm, Z.div_mul; lia).
  unfold base_message_size.
  pose proof (int_truediv_floor (len u) 32 ltac:(lia) ltac:(lia)) as H2.
  destruct (int_truediv (len u) 32) as [q'|e]; cbn [rbind] in *;
    [|discriminate].
  rewrite H2. reflexivity.
Qed.

Lemma calc_fee_steps (self : TransactionCreator) (z t : Z) :
  amount self = PyInt z -> 0 <= z < 2 ^ 51 ->
  nem_to_micronem self = f_1000000 ->
  message_fee self =
    (if t =? 0 then Ok (PyInt 0)
     else py_mul (PyFloat fee_per_base_message) (PyInt t)) ->
  calc_fee self =
    (v <- fee_of_steps (Z.max 1 (Z.min 25 (z / 10000))) t ;;
     convert_number_to_byte v 8)%result.
Proof.
  intros Ha Hz Hn Hm. unfold calc_fee, fee_of_steps.
  rewrite (transfer_fee_int self z Ha Hz), Hm, Hn.
  destruct (transfer_fee_of_steps _) as [tf|e]; [|reflexivity].
  cbn [rbind].
  destruct (if t =? 0 then _ else _) as [mf|e]; [|reflexivity].
  cbn [rbind].
  destruct (py_add _ _) as [total|e]; [|reflexivity].
  cbn [rbind].
  destruct (py_mul _ _) as [fee|e]; [|reflexivity].
  cbn [rbind].
  destruct (py_int _) as [v|e]; reflexivity.
Qed.

Lemma fee_in_true (k t lo hi : Z) :
  fee_in k t lo hi = true -> exists v, fee_of_steps k t = Ok v /\ lo <= v <= hi.
Proof.
  unfold fee_in. destruct (fee_of_steps k t) as [f|e]; [|discriminate].
  intros H. exists f. split; [reflexivity | lia].
Qed.

(** The fees for the 25 counts of steps of an amount, without a message *)
Lemma fee_table_no_message :
  forallb (fun n => fee_in n 0 (50000 * n) (50000 * n)) (zrange 1 25) = true.
Proof. vm_compute. reflexivity. Qed.

(** The fees for the 25 counts of steps of an amount and the 33 of a
    message below 1056 bytes: the nominal fee, or one micro-unit less
    when the steps count 41 in all. *)
Lemma fee_table_message :
  forallb (fun n =>
    forallb (fun t =>
      fee_in n t (50000 * (n + t) - (if n + t =? 41 then 1 else 0))
                 (50000 * (n + t)))
      (zrange 1 33))
    (zrange 1 25) = true.
Proof. vm_compute. reflexivity. Qed.

Lemma fee_field (v : Z) :
  0 <= v < 2 ^ 64 ->
  convert_number_to_byte v 8 = Ok (le_digits 8 v) /\
  len (le_digits 8 v) = 8 /\
  from_bytes_little (le_digits 8 v) = v.
Proof.
  intros Hv. split; [|split].
  - unfold convert_number_to_byte. rewrite to_bytes_little_ok by lia.
    reflexivity.
  - unfold len. rewrite le_digits_length. reflexivity.
  - apply from_bytes_le_digits_small. lia.
Qed.

Lemma set_message_info_state (s s1 : TransactionCreator) (i i1 : nat)
    (m : pystr) (u : bytes) :
  message s = Some m -> encode_utf8 m = Ok u -> len u + 8 < 2 ^ 32 ->
  set_message_info (s, i) = (Ok tt, (s1, i1)) ->
  exists tag,
    message_type_tag (message_type s) = Some tag /\
    s1 = set_payload_length (le_digits 4 (len u))
           (set_message_field (le_digits 4 (8 + len u))
              (set_payload (hex_ascii u)
                 (set_message_type (ABytes (le_digits 4 tag)) s))) /\
    i1 = i.
Proof.
  intros Hm Hu HL Hs.
  destruct (message_type_tag (message_type s)) as [tag|] eqn:Et.
  - rewrite (set_message_info_ok s i tag m u Et Hm Hu HL) in Hs.
    exists tag. split; [reflexivity|].
    split; [|congruence].
    pose proof (f_equal (fun x => fst (snd x)) Hs) as H1. cbn [fst snd] in H1.
    symmetry. exact H1.
  - rewrite (set_message_info_invalid s i Et) in Hs. discriminate.
Qed.

Lemma encode_utf8_nonempty (m : pystr) (u : bytes) :
  encode_utf8 m = Ok u -> 0 < len u -> truthy (Some m) = true.
Proof.
  destruct m as [|c m]; [|reflexivity].
  cbn. intros [= <-]. cbn. lia.
Qed.

(** X9.  Without a message, and for an [int] amount [z] from 0 and below
    2^51, the fee field of [calc_fee] reads as 50000 micro-units for each
    full 10000 of the amount, no less than 50000 and no more than
    1250000: [50000 * max(1, min(25, z // 10000))].  The two roundings
    of the doubles, in [z / 10000] and in the product by 1000000, never
    move the result. *)
Theorem calc_fee_schedule (self : TransactionCreator) (z : Z) :
  amount self = PyInt z -> 0 <= z < 2 ^ 51 ->
  truthy (message self) = false ->
  nem_to_micronem self = f_1000000 ->
  exists fee,
    calc_fee self = Ok fee /\ len fee = 8 /\
    from_bytes_little fee = 50000 * Z.max 1 (Z.min 25 (z / 10000)).
Proof.
  intros Ha Hz Hm Hn.
  set (n := Z.max 1 (Z.min 25 (z / 10000))).
  assert (HM : message_fee self =
               (if 0 =? 0 then Ok (PyInt 0)
                else py_mul (PyFloat fee_per_base_message) (PyInt 0))).
  { unfold message_fee. rewrite Hm. reflexivity. }
  rewrite (calc_fee_steps self z 0 Ha Hz Hn HM). fold n.
  pose proof (forallb_zrange _ 1 25 n fee_table_no_message ltac:(lia)) as Ht.
  cbv beta in Ht.
  destruct (fee_in_true _ _ _ _ Ht) as (v & -> & Hv).
  cbn [rbind]. replace v with (50000 * n) by lia.
  destruct (fee_field (50000 * n) ltac:(lia)) as (-> & Hl & Hd).
  eexists. split; [reflexivity|]. split; assumption.
Qed.

Lemma calc_fee_schedule_witness :
  let self := init_default sample_public_key (PyInt 123456) sample_address None in
  amount self = PyInt 123456 /\ 0 <= 123456 < 2 ^ 51 /\
  truthy (message self) = false /\
  nem_to_micronem self = f_1000000 /\
  exists fee,
    calc_fee self = Ok fee /\ len fee = 8 /\
    from_bytes_little fee = 50000 * Z.max 1 (Z.min 25 (123456 / 10000)).
Proof.
  cbv zeta.
  split; [reflexivity|]. split; [lia|]. split; [reflexivity|].
  split; [reflexivity|].
  apply (calc_fee_schedule _ 123456); [reflexivity | lia | reflexivity | reflexivity].
Defined.

Lemma calc_fee_after_message (s s1 : TransactionCreator) (i i1 : nat) (z : Z)
    (m : pystr) (u : bytes) :
  amount s = PyInt z -> 0 <= z < 2 ^ 51 ->
  nem_to_micronem s = f_1000000 ->
  message s = Some m -> encode_utf8 m = Ok u -> 0 < len u < 1056 ->
  set_message_info (s, i) = (Ok tt, (s1, i1)) ->
  calc_fee s1 =
    (v <- fee_of_steps (Z.max 1 (Z.min 25 (z / 10000))) (1 + len u / 32) ;;
     convert_number_to_byte v 8)%result.
Proof.
  intros Ha Hz Hn Hm Hu HL Hs.
  destruct (set_message_info_state s s1 i i1 m u Hm Hu ltac:(lia) Hs)
    as (tag & Ht & -> & _).
  assert (H0 : 0 <= len u / 32) by (apply Z.div_pos; lia).
  apply calc_fee_steps; try assumption.
  destruct (Z.eqb_spec (1 + len u / 32) 0) as [|_]; [lia|].
  apply message_fee_steps; [|reflexivity|lia].
  cbn [message set_payload_length set_message_field set_payload
       set_message_type].
  rewrite Hm. exact (encode_utf8_nonempty m u Hu ltac:(lia)).
Qed.

(** X10.  With a message of [L] UTF-8 bytes, [0 < L < 1056], that
    [set_message_info] has prepared, and an [int] amount [z] from 0 and
    below 2^51, let [n] be the steps of the amount,
    [max(1, min(25, z // 10000))], plus those of the message,
    [1 + L // 32].  The fee field reads as [50000 * n], or as one
    micro-unit less, and that only when [n] is 41. *)
Theorem calc_fee_message_schedule (s s1 : TransactionCreator) (i i1 : nat)
    (z : Z) (m : pystr) (u : bytes) :
  amount s = PyInt z -> 0 <= z < 2 ^ 51 ->
  nem_to_micronem s = f_1000000 ->
  message s = Some m -> encode_utf8 m = Ok u -> 0 < len u < 1056 ->
  set_message_info (s, i) = (Ok tt, (s1, i1)) ->
  let n := Z.max 1 (Z.min 25 (z / 10000)) + (1 + len u / 32) in
  exists fee,
    calc_fee s1 = Ok fee /\ len fee = 8 /\
    50000 * n - (if n =? 41 then 1 else 0) <= from_bytes_little fee
      <= 50000 * n.
Proof.
  intros Ha Hz Hn Hm Hu HL Hs n.
  rewrite (calc_fee_after_message s s1 i i1 z m u Ha Hz Hn Hm Hu HL Hs).
  assert (H0 : 0 <= len u / 32) by (apply Z.div_pos; lia).
  assert (H1 : len u / 32 < 33) by (apply Z.div_lt_upper_bound; lia).
  set (a := Z.max 1 (Z.min 25 (z / 10000))) in *.
  set (t := 1 + len u / 32) in *.
  pose proof (forallb_zrange _ 1 25 a fee_table_message ltac:(lia)) as Ht.
  cbv beta in Ht.
  pose proof (forallb_zrange _ 1 33 t Ht ltac:(lia)) as Ht'.
  cbv beta in Ht'.
  destruct (fee_in_true _ _ _ _ Ht') as (v & -> & Hv).
  cbn [rbind]. fold n in Hv.
  destruct (fee_field v ltac:(destruct (n =? 41); lia)) as (-> & Hl & Hd).
  eexists. split; [reflexivity|]. split; [assumption|].
  rewrite Hd. exact Hv.
Qed.

Lemma calc_fee_message_schedule_witness :
  let s := init_default sample_public_key (PyInt 123456) sample_address
             (Some (str "NEM")) in
  let s1 := fst (snd (set_message_info (s, O))) in
  amount s = PyInt 123456 /\ 0 <= 123456 < 2 ^ 51 /\
  nem_to_micronem s = f_1000000 /\
  message s = Some (str "NEM") /\
  encode_utf8 (str "NEM") = Ok [x4e; x45; x4d] /\
  0 < len [x4e; x45; x4d] < 1056 /\
  set_message_info (s, O) = (Ok tt, (s1, O)) /\
  let n := Z.max 1 (Z.min 25 (123456 / 10000))
           + (1 + len [x4e; x45; x4d] / 32) in
  exists fee,
    calc_fee s1 = Ok fee /\ len fee = 8 /\
    50000 * n - (if n =? 41 then 1 else 0) <= from_bytes_little fee
      <= 50000 * n.
Proof.
  cbv zeta.
  split; [reflexivity|]. split; [lia|]. split; [reflexivity|].
  split; [reflexivity|]. split; [reflexivity|].
  split; [vm_compute; split; reflexivity|]. split; [reflexivity|].
  apply (calc_fee_message_schedule
           (init_default sample_public_key (PyInt 123456) sample_address
              (Some (str "NEM")))
           (fst (snd (set_message_info
              (init_default sample_public_key (PyInt 123456) sample_address
                 (Some (str "NEM")), O))))
           O O 123456 (str "NEM") [x4e; x45; x4d]);
    try reflexivity; try lia.
  vm_compute; split; reflexivity.
Defined.

(** X11.  The truncation of the doubles does lose a micro-unit: for an
    [int] amount of 250000 or more and a message of 480 to 511 UTF-8
    bytes, the fee field reads as 2049999, where 25 + 16 steps of 50000
    are 2050000. *)
Theorem calc_fee_one_micro_unit_short (s s1 : TransactionCreator)
    (i i1 : nat) (z : Z) (m : pystr) (u : bytes) :
  amount s = PyInt z -> 250000 <= z < 2 ^ 51 ->
  nem_to_micronem s = f_1000000 ->
  message s = Some m -> encode_utf8 m = Ok u -> 480 <= len u < 512 ->
  set_message_info (s, i) = (Ok tt, (s1, i1)) ->
  exists fee,
    calc_fee s1 = Ok fee /\ from_bytes_little fee = 2049999.
Proof.
  intros Ha Hz Hn Hm Hu HL Hs.
  rewrite (calc_fee_after_message s s1 i i1 z m u Ha ltac:(lia) Hn Hm Hu
             ltac:(lia) Hs).
  assert (H0 : 25 <= z / 10000) by (apply Z.div_le_lower_bound; lia).
  assert (H1 : len u / 32 = 15).
  { symmetry. apply Z.div_unique with (r := len u - 480); lia. }
  replace (Z.max 1 (Z.min 25 (z / 10000))) with 25 by lia.
  rewrite H1.
  eexists. split; [vm_compute; reflexivity | vm_compute; reflexivity].
Qed.

Lemma calc_fee_one_micro_unit_short_witness :
  let m := repeat 65%N 480 in
  let u := repeat x41 480 in
  let s := init_default sample_public_key (PyInt 250000) sample_address
             (Some m) in
  let s1 := fst (snd (set_message_info (s, O))) in
  amount s = PyInt 250000 /\ 250000 <= 250000 < 2 ^ 51 /\
  nem_to_micronem s = f_1000000 /\
  message s = Some m /\ encode_utf8 m = Ok u /\ 480 <= len u < 512 /\
  set_message_info (s, O) = (Ok tt, (s1, O)) /\
  exists fee,
    calc_fee s1 = Ok fee /\ from_bytes_little fee = 2049999.
Proof.
  cbv zeta.
  split; [reflexivity|]. split; [lia|]. split; [reflexivity|].
  split; [reflexivity|]. split; [vm_compute; reflexivity|].
  split; [vm_compute; split; [discriminate | reflexivity]|].
  split; [vm_compute; reflexivity|].
  apply (calc_fee_one_micro_unit_short
           (init_default sample_public_key (PyInt 250000) sample_address
              (Some (repeat 65%N 480)))
           (fst (snd (set_message_info
              (init_default sample_public_key (PyInt 250000) sample_address
                 (Some (repeat 65%N 480)), O))))
           O O 250000 (repeat 65%N 480) (repeat x41 480)).
  - reflexivity.
  - lia.
  - reflexivity.
  - reflexivity.
  - vm_compute; reflexivity.
  - vm_compute; split; [discriminate | reflexivity].
  - vm_compute; reflexivity.
Defined.

(** ** The amount in micro-units *)

Lemma get_amount_int (self : TransactionCreator) (s : bool) (z : Z) :
  amount self = PyInt (cond_Zopp s z) ->
  nem_to_micronem self = f_1000000 ->
  0 < z -> z * 1000000 < 2 ^ 53 ->
  get_amount self = convert_number_to_byte (cond_Zopp s (z * 1000000)) 8.
Proof.
  intros Ha Hn Hz Hp. unfold get_amount. rewrite Ha, Hn.
  cbn [py_mul as_float].
  rewrite (float_of_int_exact s z) by lia. cbn [rbind].
  rewrite f_1000000_exact.
  rewrite fmul_exact_double by lia. rewrite xorb_false_r.
  cbn [py_int]. rewrite int_of_exact_double by lia. reflexivity.
Qed.

Lemma get_amount_exact (self : TransactionCreator) (z : Z) :
  amount self = PyInt z -> 0 <= z <= 9007199254 ->
  nem_to_micronem self = f_1000000 ->
  get_amount self = Ok (le_digits 8 (z * 1000000)).
Proof.
  intros Ha Hz Hn.
  destruct (fee_field (z * 1000000) ltac:(lia)) as (Hc & _ & _).
  destruct (Z.eq_dec z 0) as [->|Hz0].
  - unfold get_amount. rewrite Ha, Hn. reflexivity.
  - rewrite (get_amount_int self false z) by (cbn [cond_Zopp]; lia || assumption).
    exact Hc.
Qed.

(** X12.  For an [int] amount [z] from 0 to 9007199254, [get_amount]
    returns 8 bytes that read as exactly [z * 1000000]: the product by
    the double 1000000.0 is exact as long as it is below 2^53. *)
Theorem get_amount_micro_units (self : TransactionCreator) (z : Z) :
  amount self = PyInt z -> 0 <= z <= 9007199254 ->
  nem_to_micronem self = f_1000000 ->
  exists amt,
    get_amount self = Ok amt /\ len amt = 8 /\
    from_bytes_little amt = z * 1000000.
Proof.
  intros Ha Hz Hn.
  destruct (fee_field (z * 1000000) ltac:(lia)) as (_ & Hl & Hd).
  exists (le_digits 8 (z * 1000000)).
  split; [exact (get_amount_exact self z Ha Hz Hn) | split; assumption].
Qed.

Lemma get_amount_micro_units_witness :
  let self := sample_request None in
  amount self = PyInt 12 /\ 0 <= 12 <= 9007199254 /\
  nem_to_micronem self = f_1000000 /\
  exists amt,
    get_amount self = Ok amt /\ len amt = 8 /\
    from_bytes_little amt = 12 * 1000000.
Proof.
  cbv zeta.
  split; [reflexivity|]. split; [lia|]. split; [reflexivity|].
  apply (get_amount_micro_units (sample_request None) 12);
    [reflexivity | lia | reflexivity].
Defined.

(** *** Amounts out of range *)

(** The rounding of a significand of 53 digits or more: an infinity, or
    a number with the exponent of its magnitude and a full significand. *)
Lemma binary_round_aux_large (s : bool) (m e : Z) (l : location) :
  2 ^ 52 <= m -> -1000 <= e ->
  binary_round_aux prec emax s m e l = S754_infinity s \/
  exists p3 e3,
    binary_round_aux prec emax s m e l = S754_finite s p3 e3 /\
    e + Zdigits2 m - 53 <= e3 /\ 2 ^ 52 <= Z.pos p3.
Proof.
  intros Hm He.
  destruct (binary_round_aux_spec s m e l ltac:(lia)) as (m2 & Hm2 & H3 & ->).
  cbv zeta in *.
  set (d := Zdigits2 m) in *.
  assert (Hd : 53 <= d).
  { pose proof (Zdigits2_lt_pow m ltac:(lia)) as H. fold d in H.
    pose proof (Zdigits2_nonneg m) as H0. fold d in H0.
    destruct (Z.le_gt_cases 53 d) as [|Hlt]; [assumption|].
    assert (2 ^ d <= 2 ^ 52) by (apply pow2_le; lia). lia. }
  replace (Z.max e (fexp prec emax (d + e))) with (e + (d - 53)) in *
    by (unfold fexp, emin, prec, emax; lia).
  replace (e + (d - 53) - e) with (d - 53) in * by lia.
  set (A := m / 2 ^ (d - 53)) in *.
  assert (HA : 2 ^ 52 <= A < 2 ^ 53).
  { pose proof (Zdigits2_ge_pow m ltac:(lia)) as H1. fold d in H1.
    pose proof (Zdigits2_lt_pow m ltac:(lia)) as H2. fold d in H2.
    pose proof (pow2_gt0 (d - 53) ltac:(lia)) as Hp.
    assert (E1 : 2 ^ (d - 1) = 2 ^ 52 * 2 ^ (d - 53))
      by (rewrite <- pow2_split by lia; f_equal; lia).
    assert (E2 : 2 ^ d = 2 ^ 53 * 2 ^ (d - 53))
      by (rewrite <- pow2_split by lia; f_equal; lia).
    rewrite E1 in H1. rewrite E2 in H2.
    split.
    - apply Z.div_le_lower_bound; lia.
    - apply Z.div_lt_upper_bound; lia. }
  set (dm2 := Zdigits2 m2) in *.
  assert (Hdm2 : 53 <= dm2 <= 54).
  { split.
    - pose proof (Zdigits2_lt_pow m2 ltac:(lia)) as H. fold dm2 in H.
      pose proof (Zdigits2_nonneg m2) as H0. fold dm2 in H0.
      destruct (Z.le_gt_cases 53 dm2) as [|Hlt]; [assumption|].
      assert (2 ^ dm2 <= 2 ^ 52) by (apply pow2_le; lia). lia.
    - apply Zdigits2_le; lia. }
  replace (Z.max (e + (d - 53)) (fexp prec emax (dm2 + (e + (d - 53)))))
    with (e + (d - 53) + (dm2 - 53)) in *
    by (unfold fexp, emin, prec, emax; lia).
  replace (e + (d - 53) + (dm2 - 53) - (e + (d - 53))) with (dm2 - 53) in * by lia.
  pose proof (pow2_gt0 (dm2 - 53) ltac:(lia)) as Hpc2.
  assert (Hm3 : 2 ^ 52 <= m2 / 2 ^ (dm2 - 53)).
  { apply Z.div_le_lower_bound; [lia|].
    pose proof (Zdigits2_ge_pow m2 ltac:(lia)) as H1. fold dm2 in H1.
    rewrite <- pow2_split by lia.
    replace (dm2 - 53 + 52) with (dm2 - 1) by lia. exact H1. }
  destruct (m2 / 2 ^ (dm2 - 53)) as [|p3|p3] eqn:E3; try lia.
  destruct (Z.leb_spec (e + (d - 53) + (dm2 - 53)) (emax - prec)) as [_|_].
  - right. eexists _, _. split; [reflexivity|]. split; lia.
  - left. reflexivity.
Qed.

(** [float(z)] for an [int] that is not 0: it raises, or the double has
    a full significand and the exponent of [z]. *)
Lemma float_of_int_large (s : bool) (p : positive) :
  float_of_int (cond_Zopp s (Z.pos p)) = Err OverflowError \/
  exists m e,
    float_of_int (cond_Zopp s (Z.pos p)) = Ok (S754_finite s m e) /\
    Zdigits2 (Z.pos p) - 53 <= e /\ 2 ^ 52 <= Z.pos m.
Proof.
  assert (Hb : binary_round prec emax s p 0 = S754_infinity s \/
               exists m e,
                 binary_round prec emax s p 0 = S754_finite s m e /\
                 Zdigits2 (Z.pos p) - 53 <= e /\ 2 ^ 52 <= Z.pos m).
  { pose proof (Zdigits2_pos (Z.pos p) ltac:(lia)) as Hd0.
    pose proof (Zdigits2_ge_pow (Z.pos p) ltac:(lia)) as Hge.
    cbn [Zdigits2] in *.
    set (d := Z.pos (digits2_pos p)) in *.
    unfold binary_round, shl_align.
    replace (fexp prec emax (Z.pos (digits2_pos p) + 0)) with (d - 53)
      by (subst d; unfold fexp, emin, prec, emax; lia).
    destruct (d - 53 - 0) as [|k|k] eqn:Ek.
    - destruct (binary_round_aux_large s (Z.pos p) 0 loc_Exact)
        as [H | (m & e & H & He & Hm)]; try lia.
      + replace (d - 1) with 52 in Hge by lia. exact Hge.
      + left. exact H.
      + right. exists m, e. cbn [Zdigits2] in He. fold d in He.
        split; [exact H|]. split; lia.
    - destruct (binary_round_aux_large s (Z.pos p) 0 loc_Exact)
        as [H | (m & e & H & He & Hm)]; try lia.
      + assert (2 ^ 52 <= 2 ^ (d - 1)) by (apply pow2_le; lia). lia.
      + left. exact H.
      + right. exists m, e. cbn [Zdigits2] in He. fold d in He.
        split; [exact H|]. split; lia.
    - unfold shift_pos.
      assert (Hz : Z.pos (Pos.iter xO p k) = Z.pos p * 2 ^ (53 - d))
        by (rewrite pos_iter_xO; f_equal; f_equal; lia).
      assert (Hdz : Zdigits2 (Z.pos (Pos.iter xO p k)) = 53).
      { rewrite Hz, Zdigits2_mul_pow by lia. cbn [Zdigits2]. fold d. lia. }
      destruct (binary_round_aux_large s (Z.pos (Pos.iter xO p k)) (d - 53)
                  loc_Exact) as [H | (m & e & H & He & Hm)]; try lia.
      + pose proof (Zdigits2_ge_pow (Z.pos (Pos.iter xO p k)) ltac:(lia)) as H.
        rewrite Hdz in H. exact H.
      + left. exact H.
      + right. exists m, e. rewrite Hdz in He.
        split; [exact H|]. split; lia. }
  unfold float_of_int, binary_normalize.
  destruct s; cbn [cond_Zopp Z.opp];
    (destruct Hb as [-> | (m & e & -> & He & Hm)];
     [left; reflexivity | right; exists m, e; split; [reflexivity | split; assumption]]).
Qed.

(** The product by 1000000 of a double with a full significand *)
Lemma fmul_1000000_large (s : bool) (m : positive) (e : Z) :
  2 ^ 52 <= Z.pos m -> -900 <= e ->
  fmul (S754_finite s m e) f_1000000 = S754_infinity s \/
  exists m' e',
    fmul (S754_finite s m e) f_1000000 = S754_finite s m' e' /\
    e + Zdigits2 (Z.pos m * 1000000) - 53 <= e' /\ 2 ^ 52 <= Z.pos m'.
Proof.
  intros Hm He. unfold fmul, f_1000000. cbn [SFmul]. rewrite xorb_false_r.
  rewrite Pos2Z.inj_mul.
  change (Z.pos 8589934592000000) with (1000000 * 2 ^ 33).
  replace (Z.pos m * (1000000 * 2 ^ 33)) with (Z.pos m * 1000000 * 2 ^ 33)
    by ring.
  destruct (binary_round_aux_large s (Z.pos m * 1000000 * 2 ^ 33) (e + -33)
              loc_Exact) as [H | (m' & e' & H & He' & Hm')]; try lia.
  - left. exact H.
  - right. exists m', e'. split; [exact H|]. split; [|exact Hm'].
    rewrite Zdigits2_mul_pow in He' by lia. lia.
Qed.

Lemma shiftl_large (m e : Z) (k : Z) :
  2 ^ 52 <= m -> 0 <= k -> k - 52 <= e -> 2 ^ k <= Z.shiftl m e.
Proof.
  intros Hm Hk He.
  destruct (Z.le_gt_cases 0 e) as [H0|H0].
  - rewrite Z.shiftl_mul_pow2 by lia.
    destruct (Z.le_gt_cases k 52) as [Hk52|Hk52].
    + assert (2 ^ k <= 2 ^ 52) by (apply pow2_le; lia).
      pose proof (pow2_gt0 e H0). nia.
    + assert (2 ^ k <= 2 ^ (52 + e)) by (apply pow2_le; lia).
      rewrite pow2_split in H by lia.
      pose proof (pow2_gt0 e H0). nia.
  - rewrite Z.shiftl_div_pow2 by lia.
    apply Z.div_le_lower_bound; [apply pow2_gt0; lia|].
    rewrite <- pow2_split by lia.
    assert (2 ^ (- e + k) <= 2 ^ 52) by (apply pow2_le; lia). lia.
Qed.

Lemma get_amount_of_double (self : TransactionCreator) (z : Z) (f : float) :
  amount self = PyInt z -> nem_to_micronem self = f_1000000 ->
  float_of_int z = Ok f ->
  get_amount self =
    (v <- int_of_float (fmul f f_1000000) ;; convert_number_to_byte v 8)%result.
Proof.
  intros Ha Hn Hf. unfold get_amount. rewrite Ha, Hn.
  cbn [py_mul as_float]. rewrite Hf. reflexivity.
Qed.

(** X13.  For every negative [int] amount, [get_amount] raises
    [OverflowError]. *)
Theorem get_amount_negative (self : TransactionCreator) (z : Z) :
  amount self = PyInt z -> z < 0 ->
  nem_to_micronem self = f_1000000 ->
  get_amount self = Err OverflowError.
Proof.
  intros Ha Hz Hn. destruct z as [|p|p]; try lia.
  pose proof (Zdigits2_pos (Z.pos p) ltac:(lia)) as Hd.
  destruct (float_of_int_large true p) as [H | (m & e & H & He & Hm)];
    cbn [cond_Zopp Z.opp] in H.
  - unfold get_amount. rewrite Ha, Hn. cbn [py_mul as_float]. rewrite H.
    reflexivity.
  - rewrite (get_amount_of_double self _ _ Ha Hn H).
    destruct (fmul_1000000_large true m e Hm ltac:(lia))
      as [-> | (m' & e' & -> & He' & Hm')]; [reflexivity|].
    cbn [int_of_float rbind cond_Zopp].
    assert (Hdig : 72 <= Zdigits2 (Z.pos m * 1000000)).
    { pose proof (Zdigits2_lt_pow (Z.pos m * 1000000) ltac:(lia)) as Hlt.
      destruct (Z.le_gt_cases 72 (Zdigits2 (Z.pos m * 1000000))) as [|Hc];
        [assumption|].
      pose proof (Zdigits2_nonneg (Z.pos m * 1000000)).
      assert (2 ^ Zdigits2 (Z.pos m * 1000000) <= 2 ^ 71)
        by (apply pow2_le; lia).
      lia. }
    pose proof (shiftl_large (Z.pos m') e' 0 Hm' ltac:(lia) ltac:(lia)) as Hv.
    change (2 ^ 0) with 1 in Hv.
    unfold convert_number_to_byte, to_bytes_little.
    change (8 <? 0) with false. cbv iota.
    destruct (Z.ltb_spec (- Z.shiftl (Z.pos m') e') 0); [reflexivity | lia].
Qed.

Lemma get_amount_negative_witness :
  let self := init_default sample_public_key (PyInt (-1)) sample_address None in
  amount self = PyInt (-1) /\ -1 < 0 /\
  nem_to_micronem self = f_1000000 /\
  get_amount self = Err OverflowError.
Proof.
  cbv zeta.
  split; [reflexivity|]. split; [lia|]. split; [reflexivity|].
  apply (get_amount_negative
           (init_default sample_public_key (PyInt (-1)) sample_address None)
           (-1)); [reflexivity | lia | reflexivity].
Defined.

(** X14.  For every [int] amount from 18446744073710, the first whose
    count of micro-units does not fit 8 bytes, [get_amount] raises
    [OverflowError]. *)
Theorem get_amount_too_large (self : TransactionCreator) (z : Z) :
  amount self = PyInt z -> 18446744073710 <= z ->
  nem_to_micronem self = f_1000000 ->
  get_amount self = Err OverflowError.
Proof.
  intros Ha Hz Hn. destruct z as [|p|p]; try lia.
  assert (Hfin : forall m e,
    float_of_int (Z.pos p) = Ok (S754_finite false m e) ->
    2 ^ 52 <= Z.pos m ->
    65 <= e + Zdigits2 (Z.pos m * 1000000) ->
    get_amount self = Err OverflowError).
  { intros m e H Hm Hed.
    rewrite (get_amount_of_double self _ _ Ha Hn H).
    assert (Hdig : 72 <= Zdigits2 (Z.pos m * 1000000)).
    { pose proof (Zdigits2_lt_pow (Z.pos m * 1000000) ltac:(lia)) as Hlt.
      destruct (Z.le_gt_cases 72 (Zdigits2 (Z.pos m * 1000000))) as [|Hc];
        [assumption|].
      pose proof (Zdigits2_nonneg (Z.pos m * 1000000)).
      assert (2 ^ Zdigits2 (Z.pos m * 1000000) <= 2 ^ 71)
        by (apply pow2_le; lia).
      lia. }
    assert (He : -900 <= e).
    { destruct (Z.le_gt_cases (-900) e); [assumption|exfalso].
      (* the exponent of a double of an int is not that low *)
      destruct (float_of_int_large false p) as [H' | (m1 & e1 & H' & He1 & _)];
        cbn [cond_Zopp] in H'; [congruence|].
      assert (e1 = e) by congruence.
      pose proof (Zdigits2_pos (Z.pos p) ltac:(lia)). lia. }
    destruct (fmul_1000000_large false m e Hm He)
      as [-> | (m' & e' & -> & He' & Hm')]; [reflexivity|].
    cbn [int_of_float rbind cond_Zopp].
    pose proof (shiftl_large (Z.pos m') e' 64 Hm' ltac:(lia) ltac:(lia)) as Hv.
    unfold convert_number_to_byte, to_bytes_little.
    change (8 <? 0) with false. cbv iota.
    destruct (Z.ltb_spec (Z.shiftl (Z.pos m') e') 0); [reflexivity|].
    destruct (Z.leb_spec (2 ^ (8 * 8)) (Z.shiftl (Z.pos m') e'));
      [reflexivity|].
    change (2 ^ (8 * 8)) with (2 ^ 64) in *. lia. }
  destruct (Z.lt_ge_cases (Z.pos p) (2 ^ 53)) as [Hs|Hl].
  - pose proof (float_of_int_exact false (Z.pos p) ltac:(lia)) as Hf.
    cbn [cond_Zopp] in Hf. unfold exact_double in Hf.
    destruct (exact_double_significand (Z.pos p) ltac:(lia)) as (Hd & Hm & HdM).
    apply (Hfin _ _ Hf).
    + rewrite Hm.
      pose proof (Zdigits2_ge_pow (Z.pos p * 2 ^ (53 - Zdigits2 (Z.pos p)))
                    ltac:(pose proof (pow2_gt0 (53 - Zdigits2 (Z.pos p))); nia))
        as H.
      rewrite HdM in H. exact H.
    + rewrite Hm.
      replace (Z.pos p * 2 ^ (53 - Zdigits2 (Z.pos p)) * 1000000)
        with (Z.pos p * 1000000 * 2 ^ (53 - Zdigits2 (Z.pos p))) by ring.
      rewrite Zdigits2_mul_pow by lia.
      assert (65 <= Zdigits2 (Z.pos p * 1000000)).
      { pose proof (Zdigits2_lt_pow (Z.pos p * 1000000) ltac:(lia)) as Hlt.
        destruct (Z.le_gt_cases 65 (Zdigits2 (Z.pos p * 1000000))) as [|Hc];
          [assumption|].
        pose proof (Zdigits2_nonneg (Z.pos p * 1000000)).
        assert (2 ^ Zdigits2 (Z.pos p * 1000000) <= 2 ^ 64)
          by (apply pow2_le; lia).
        lia. }
      unfold prec. lia.
  - destruct (float_of_int_large false p) as [H | (m & e & H & He & Hm)];
      cbn [cond_Zopp] in H.
    + unfold get_amount. rewrite Ha, Hn. cbn [py_mul as_float]. rewrite H.
      reflexivity.
    + apply (Hfin _ _ H Hm).
      assert (54 <= Zdigits2 (Z.pos p)).
      { pose proof (Zdigits2_lt_pow (Z.pos p) ltac:(lia)) as Hlt.
        destruct (Z.le_gt_cases 54 (Zdigits2 (Z.pos p))) as [|Hc];
          [assumption|].
        pose proof (Zdigits2_nonneg (Z.pos p)).
        assert (2 ^ Zdigits2 (Z.pos p) <= 2 ^ 53) by (apply pow2_le; lia).
        lia. }
      assert (72 <= Zdigits2 (Z.pos m * 1000000)).
      { pose proof (Zdigits2_lt_pow (Z.pos m * 1000000) ltac:(lia)) as Hlt.
        destruct (Z.le_gt_cases 72 (Zdigits2 (Z.pos m * 1000000))) as [|Hc];
          [assumption|].
        pose proof (Zdigits2_nonneg (Z.pos m * 1000000)).
        assert (2 ^ Zdigits2 (Z.pos m * 1000000) <= 2 ^ 71)
          by (apply pow2_le; lia).
        lia. }
      lia.
Qed.

Lemma get_amount_too_large_witness :
  let self := init_default sample_public_key (PyInt 18446744073710)
                sample_address None in
  amount self = PyInt 18446744073710 /\
  18446744073710 <= 18446744073710 /\
  nem_to_micronem self = f_1000000 /\
  get_amount self = Err OverflowError.
Proof.
  cbv zeta.
  split; [reflexivity|]. split; [lia|]. split; [reflexivity|].
  apply (get_amount_too_large
           (init_default sample_public_key (PyInt 18446744073710)
              sample_address None)
           18446744073710); [reflexivity | lia | reflexivity].
Defined.

(** ** The message fields, further *)

(** X15.  When the message cannot be encoded in UTF-8 (it holds a
    surrogate), [set_message_info] raises [UnicodeEncodeError] after it
    has replaced [message_type] by the four bytes of the tag; called
    again on the object it has left, it raises the exception of an
    invalid message type. *)
Theorem set_message_info_unencodable (s : TransactionCreator) (n : nat)
    (tag : Z) (m : pystr) (e : exn) :
  message_type_tag (message_type s) = Some tag ->
  message s = Some m ->
  encode_utf8 m = Err e ->
  let s1 := set_message_type (ABytes (le_digits 4 tag)) s in
  set_message_info (s, n) = (Err UnicodeEncodeError, (s1, n)) /\
  set_message_info (s1, n) = (Err InvalidMessageTypeError, (s1, n)).
Proof.
  intros Ht Hm He s1. split.
  - rewrite set_message_info_eq, Ht, Hm. cbn [attr rbind]. rewrite He.
    cbn [rbind]. rewrite (encode_utf8_error m e He). reflexivity.
  - apply set_message_info_invalid. reflexivity.
Qed.

Lemma set_message_info_unencodable_witness :
  let s := sample_request (Some [78; 55296]%N) in
  let s1 := set_message_type (ABytes (le_digits 4 1)) s in
  message_type_tag (message_type s) = Some 1 /\
  message s = Some [78; 55296]%N /\
  encode_utf8 [78; 55296]%N = Err UnicodeEncodeError /\
  set_message_info (s, O) = (Err UnicodeEncodeError, (s1, O)) /\
  set_message_info (s1, O) = (Err InvalidMessageTypeError, (s1, O)).
Proof.
  cbv zeta.
  split; [reflexivity|]. split; [reflexivity|]. split; [reflexivity|].
  apply (set_message_info_unencodable
           (sample_request (Some [78; 55296]%N)) O 1 [78; 55296]%N
           UnicodeEncodeError); reflexivity.
Defined.

(** ** The result of [run] *)

(** The seven fields of the common header *)
Lemma common_header_inv (clock : nat -> Z) (s : TransactionCreator) (n : nat)
    (h : bytes) :
  common_header clock s n = Ok h ->
  exists ty ver pk fee,
    get_transaction_type s = Ok ty /\ get_version s = Ok ver /\
    get_publickey s = Ok pk /\ calc_fee s = Ok fee /\
    0 <= clock n < 2 ^ 32 /\
    0 <= clock (S n) + deadline_span s < 2 ^ 32 /\
    h = ty ++ ver ++ le_digits 4 (clock n) ++ le_digits 4 32 ++ pk ++ fee ++
        le_digits 4 (clock (S n) + deadline_span s) /\
    len ty = 4 /\ len ver = 4 /\ len pk = 32 /\ len fee = 8.
Proof.
  unfold common_header. intros H.
  apply rbind_inv in H. destruct H as (ty & Hty & H).
  apply rbind_inv in H. destruct H as (ver & Hver & H).
  apply rbind_inv in H. destruct H as (ts & Hts & H).
  apply rbind_inv in H. destruct H as (pkl & Hpkl & H).
  apply rbind_inv in H. destruct H as (pk & Hpk & H).
  apply rbind_inv in H. destruct H as (fee & Hfee & H).
  apply rbind_inv in H. destruct H as (dl & Hdl & H).
  injection H as <-.
  exists ty, ver, pk, fee.
  pose proof (to_bytes_little_inv _ _ _ Hts) as (_ & Hr1 & ->).
  pose proof (to_bytes_little_inv _ _ _ Hdl) as (_ & Hr2 & ->).
  pose proof (to_bytes_little_inv _ _ _ Hpkl) as (_ & _ & ->).
  repeat match goal with |- _ /\ _ => split end;
    try assumption; try reflexivity; try lia.
  - unfold get_transaction_type in Hty.
    apply rbind_inv in Hty. destruct Hty as (v & _ & Hty).
    exact (convert_number_to_byte_length _ _ _ Hty).
  - destruct (get_version_total s) as (ver' & Hv' & Hl). congruence.
  - unfold get_publickey in Hpk.
    apply rbind_inv in Hpk. destruct Hpk as (v & _ & Hpk).
    exact (convert_number_to_byte_length _ _ _ Hpk).
  - exact (calc_fee_length_8 _ _ Hfee).
Qed.

(** The fields of the transfer payload *)
Lemma transfer_payload_inv (s : TransactionCreator) (b : bytes) :
  transfer_payload s = Ok b ->
  exists addr amt mf msg,
    get_address s = Ok addr /\ get_amount s = Ok amt /\
    message_field s = Some mf /\
    (if truthy (message s) then
       exists t pl p,
         message_type s = ABytes t /\ payload_length s = Some pl /\
         payload s = Some p /\ msg = t ++ pl ++ p
     else msg = []) /\
    b = le_digits 4 40 ++ addr ++ amt ++ mf ++ msg /\
    len amt = 8.
Proof.
  unfold transfer_payload. intros H.
  apply rbind_inv in H. destruct H as (al & Hal & H).
  apply rbind_inv in H. destruct H as (addr & Haddr & H).
  apply rbind_inv in H. destruct H as (amt & Hamt & H).
  apply rbind_inv in H. destruct H as (mf & Hmf & H).
  apply rbind_inv in H. destruct H as (msg & Hmsg & H).
  injection H as <-.
  pose proof (to_bytes_little_inv _ _ _ Hal) as (_ & _ & ->).
  exists addr, amt, mf, msg.
  repeat match goal with |- _ /\ _ => split end;
    try assumption; try reflexivity.
  - destruct (message_field s) as [x|]; cbn in Hmf; [congruence | discriminate].
  - destruct (truthy (message s)).
    + apply rbind_inv in Hmsg. destruct Hmsg as (t & Ht & Hmsg).
      apply rbind_inv in Hmsg. destruct Hmsg as (pl & Hpl & Hmsg).
      apply rbind_inv in Hmsg. destruct Hmsg as (p & Hp & Hmsg).
      injection Hmsg as <-.
      exists t, pl, p.
      destruct (message_type s); [discriminate|].
      destruct (payload_length s); [|discriminate].
      destruct (payload s); [|discriminate].
      cbn in Ht, Hpl, Hp. repeat split; congruence.
    + congruence.
  - exact (get_amount_length_8 _ _ Hamt).
Qed.

Lemma firstn_len_app {A} (f r : list A) (w : nat) :
  length f = w -> firstn w (f ++ r) = f.
Proof.
  intros <-. rewrite firstn_app, Nat.sub_diag, firstn_all. cbn.
  apply app_nil_r.
Qed.

Lemma skipn_len_app {A} (a r : list A) (k : nat) :
  length a = k -> skipn k (a ++ r) = r.
Proof.
  intros <-. rewrite skipn_app, Nat.sub_diag, skipn_all. reflexivity.
Qed.

(** The field of width [w] after the first [k] bytes *)
Lemma field_at (a f r : bytes) (k w : nat) :
  length a = k -> length f = w -> firstn w (skipn k (a ++ f ++ r)) = f.
Proof.
  intros Ha Hf. rewrite (skipn_len_app a _ k Ha). apply firstn_len_app, Hf.
Qed.

Lemma len_length {A} (l : list A) (n : nat) :
  len l = Z.of_nat n -> length l = n.
Proof. unfold len. lia. Qed.

Lemma le_digits_len (n : nat) (v : Z) : len (le_digits n v) = Z.of_nat n.
Proof. unfold len. rewrite le_digits_length. reflexivity. Qed.

Lemma run_step1_prepared (s s1 : TransactionCreator) (n n1 : nat) :
  run_step1 (s, n) = (Ok tt, (s1, n1)) ->
  prepared s1 /\ exists mf, message_field s1 = Some mf /\ len mf = 4.
Proof.
  destruct (truthy (message s)) eqn:Etr.
  - rewrite (run_step1_message s n Etr), set_message_info_eq.
    destruct (message_type_tag (message_type s)) as [tag|]; [|discriminate].
    cbv zeta.
    destruct (_ <- attr (message s);; _)%result as [p|]; [|discriminate].
    destruct (_ <- int_truediv _ 2;; _)%result as [L|]; [|discriminate].
    destruct (convert_number_to_byte (4 + 4 + L) 4) as [mf|] eqn:E4;
      [|discriminate].
    destruct (convert_number_to_byte L 4) as [pl|] eqn:E5; [|discriminate].
    intros H1.
    pose proof (f_equal (fun x => fst (snd x)) H1) as E.
    cbn [fst snd] in E. subst s1.
    cbn [prepared message message_field message_type payload payload_length
         set_payload_length set_message_field set_payload set_message_type].
    split; [split|].
    + exists mf. reflexivity.
    + intros _. exists (le_digits 4 tag), p, pl. repeat split.
    + exists mf. split; [reflexivity|].
      exact (convert_number_to_byte_length _ _ _ E4).
  - rewrite (run_step1_no_message s n Etr). intros H1.
    pose proof (f_equal (fun x => fst (snd x)) H1) as E.
    cbn [fst snd] in E. subst s1.
    unfold prepared. cbn [message message_field set_message_field].
    rewrite Etr. split; [split|].
    + eexists. reflexivity.
    + discriminate.
    + eexists. split; [reflexivity|]. apply le_digits_len.
Qed.

Ltac run_step_ok E :=
  erewrite bind_ok;
  [| first [ apply extend_common_data_ok | apply extend_transfer_data_ok ];
     first [ apply call_eq; exact E
           | rewrite get_timestamp_eq; rewrite E; reflexivity
           | rewrite get_deadline_eq; rewrite E; reflexivity ] ].

(** X16.  In what [run] returns on an object whose [common_data] is
    empty, the bytes 8 to 11 read as the first reading of the clock and
    the bytes 56 to 59 as the second reading plus [deadline_span]; [run]
    reads the clock exactly twice. *)
Theorem run_timestamp_deadline (clock : nat -> Z) (s : TransactionCreator)
    (n : nat) (out : bytes) :
  common_data s = [] ->
  fst (run clock (s, n)) = Ok out ->
  from_bytes_little (firstn 4 (skipn 8 out)) = clock n /\
  from_bytes_little (firstn 4 (skipn 56 out))
    = clock (S n) + deadline_span s /\
  snd (snd (run clock (s, n))) = S (S n).
Proof.
  intros Hcd Hrun.
  destruct (run_inv clock (s, n) out Hrun) as (s1 & n1 & h & b & H1 & Hh & Hb & ->).
  pose proof (run_step1_preserves s n) as Hp. rewrite H1 in Hp.
  cbn [fst snd] in Hp. destruct Hp as (Hsame & Hc & _ & ->).
  destruct Hsame as (_ & Hspan & _).
  rewrite Hc, Hcd. cbn [app].
  destruct (common_header_inv clock s1 n h Hh)
    as (ty & ver & pk & fee & _ & _ & _ & _ & Ht & Hd & -> & Lty & Lver & Lpk & Lfee).
  rewrite Hspan in *.
  split; [|split].
  - replace ((ty ++ ver ++ le_digits 4 (clock n) ++ le_digits 4 32 ++ pk ++
              fee ++ le_digits 4 (clock (S n) + deadline_span s)) ++
             transfer_data s1 ++ b)
      with ((ty ++ ver) ++ le_digits 4 (clock n) ++
            (le_digits 4 32 ++ pk ++ fee ++
             le_digits 4 (clock (S n) + deadline_span s)) ++
            transfer_data s1 ++ b)
      by (rewrite <- !app_assoc; reflexivity).
    rewrite field_at.
    + apply from_bytes_le_digits_small. exact Ht.
    + rewrite length_app.
      rewrite (len_length ty 4 Lty), (len_length ver 4 Lver). reflexivity.
    + apply le_digits_length.
  - replace ((ty ++ ver ++ le_digits 4 (clock n) ++ le_digits 4 32 ++ pk ++
              fee ++ le_digits 4 (clock (S n) + deadline_span s)) ++
             transfer_data s1 ++ b)
      with ((ty ++ ver ++ le_digits 4 (clock n) ++ le_digits 4 32 ++ pk ++ fee)
            ++ le_digits 4 (clock (S n) + deadline_span s) ++
            transfer_data s1 ++ b)
      by (rewrite <- !app_assoc; reflexivity).
    rewrite field_at.
    + apply from_bytes_le_digits_small. exact Hd.
    + rewrite !length_app, !le_digits_length.
      rewrite (len_length ty 4 Lty), (len_length ver 4 Lver),
        (len_length pk 32 Lpk), (len_length fee 8 Lfee).
      reflexivity.
    + apply le_digits_length.
  - destruct (run clock (s, n)) as [r st'] eqn:E. cbn [fst snd] in *.
    subst r. apply (run_snd_index clock s n _ st' E).
Qed.

Lemma run_timestamp_deadline_witness :
  let out := match fst (run sample_clock (sample_request None, O)) with
             | Ok b => b
             | Err _ => []
             end in
  common_data (sample_request None) = [] /\
  fst (run sample_clock (sample_request None, O)) = Ok out /\
  from_bytes_little (firstn 4 (skipn 8 out)) = sample_clock O /\
  from_bytes_little (firstn 4 (skipn 56 out))
    = sample_clock 1%nat + deadline_span (sample_request None) /\
  snd (snd (run sample_clock (sample_request None, O))) = 2%nat.
Proof.
  cbv zeta. split; [reflexivity|]. split; [vm_compute; reflexivity|].
  apply (run_timestamp_deadline sample_clock (sample_request None) O);
    [reflexivity | vm_compute; reflexivity].
Defined.

(** X17.  When the clock is before the epoch of the network (a negative
    count of seconds) or at 2^32 seconds or more, [get_timestamp] raises
    [OverflowError]; the reading of the clock is consumed. *)
Theorem get_timestamp_out_of_range (clock : nat -> Z)
    (s : TransactionCreator) (n : nat) :
  clock n < 0 \/ 2 ^ 32 <= clock n ->
  get_timestamp clock (s, n) = (Err OverflowError, (s, S n)).
Proof.
  intros H. rewrite get_timestamp_eq. f_equal.
  unfold convert_number_to_byte, to_bytes_little.
  change (4 <? 0) with false. cbv iota.
  destruct (Z.ltb_spec (clock n) 0); [reflexivity|].
  destruct (Z.leb_spec (2 ^ (8 * 4)) (clock n)); [reflexivity|].
  change (2 ^ (8 * 4)) with (2 ^ 32) in *. exfalso. lia.
Qed.

Lemma get_timestamp_out_of_range_witness :
  (-1 < 0 \/ 2 ^ 32 <= -1) /\
  get_timestamp (fun _ => -1) (sample_request None, O)
    = (Err OverflowError, (sample_request None, 1%nat)).
Proof.
  split; [left; reflexivity|].
  apply (get_timestamp_out_of_range (fun _ => -1) (sample_request None) O).
  left. reflexivity.
Defined.

(** X18.  In the last [deadline_span] seconds before 2^32, the timestamp
    can still be encoded and the deadline cannot: [get_timestamp]
    returns and [get_deadline] raises [OverflowError]. *)
Theorem get_deadline_last_hour (clock : nat -> Z) (s : TransactionCreator)
    (n : nat) :
  0 < deadline_span s <= 2 ^ 32 ->
  2 ^ 32 - deadline_span s <= clock n < 2 ^ 32 ->
  get_timestamp clock (s, n) = (Ok (le_digits 4 (clock n)), (s, S n)) /\
  get_deadline clock (s, n) = (Err OverflowError, (s, S n)).
Proof.
  intros Hs H. rewrite get_timestamp_eq, get_deadline_eq.
  split; f_equal.
  - apply convert_number_to_byte_4. lia.
  - unfold convert_number_to_byte, to_bytes_little.
    change (4 <? 0) with false. cbv iota.
    destruct (Z.ltb_spec (clock n + deadline_span s) 0); [reflexivity|].
    destruct (Z.leb_spec (2 ^ (8 * 4)) (clock n + deadline_span s));
      [reflexivity|].
    change (2 ^ (8 * 4)) with (2 ^ 32) in *. exfalso. lia.
Qed.

Lemma get_deadline_last_hour_witness :
  let clock := fun _ : nat => 2 ^ 32 - 1 in
  let s := sample_request None in
  0 < deadline_span s <= 2 ^ 32 /\
  2 ^ 32 - deadline_span s <= clock O < 2 ^ 32 /\
  get_timestamp clock (s, O) = (Ok (le_digits 4 (clock O)), (s, 1%nat)) /\
  get_deadline clock (s, O) = (Err OverflowError, (s, 1%nat)).
Proof.
  cbv zeta.
  split; [vm_compute; split; [reflexivity | discriminate]|].
  split; [vm_compute; split; [discriminate | reflexivity]|].
  apply (get_deadline_last_hour (fun _ : nat => 2 ^ 32 - 1)
           (sample_request None) O).
  - vm_compute; split; [reflexivity | discriminate].
  - vm_compute; split; [discriminate | reflexivity].
Defined.

(** X19.  When [get_publickey] raises in a [run] without a message, [run]
    raises the same exception after one reading of the clock, and the
    object keeps what had been done: [message_field] is set and
    [common_data] has grown by the type, the version, the timestamp and
    the length of the key; [transfer_data] is as before. *)
Theorem run_bad_key_keeps_fields (clock : nat -> Z)
    (s : TransactionCreator) (n : nat) (ty : bytes) (e : exn) :
  truthy (message s) = false ->
  get_transaction_type s = Ok ty ->
  0 <= clock n < 2 ^ 32 ->
  get_publickey s = Err e ->
  exists ver s',
    get_version s = Ok ver /\
    run clock (s, n) = (Err e, (s', S n)) /\
    common_data s' =
      common_data s ++ ty ++ ver ++ le_digits 4 (clock n) ++ le_digits 4 32 /\
    transfer_data s' = transfer_data s /\
    message_field s' = Some (le_digits 4 0).
Proof.
  intros Hm Hty Hc Hpk.
  destruct (get_version_total s) as (ver & Hver & _).
  exists ver.
  pose proof (proj1 (convert_number_to_byte_4 (clock n) Hc)) as Hts.
  assert (Hpl : get_publickey_length s = Ok (le_digits 4 32)) by reflexivity.
  eexists. split; [exact Hver|]. split.
  - unfold run. rewrite (bind_ok _ _ _ _ _ (run_step1_no_message s n Hm)).
    apply bind_err. unfold run_step2.
    run_step_ok Hty. run_step_ok Hver. run_step_ok Hts. run_step_ok Hpl.
    apply bind_err. apply extend_common_data_err, call_eq. exact Hpk.
  - cbn [common_data transfer_data message_field set_common_data
         set_message_field].
    rewrite <- !app_assoc. repeat split.
Qed.

Lemma run_bad_key_keeps_fields_witness :
  let s := init_default (str "--- public key ---") (PyInt 12)
             sample_address None in
  truthy (message s) = false /\
  get_transaction_type s = Ok [x01; x01; x00; x00] /\
  0 <= sample_clock O < 2 ^ 32 /\
  get_publickey s = Err ValueError /\
  exists ver s',
    get_version s = Ok ver /\
    run sample_clock (s, O) = (Err ValueError, (s', 1%nat)) /\
    common_data s' =
      common_data s ++ [x01; x01; x00; x00] ++ ver ++
      le_digits 4 (sample_clock O) ++ le_digits 4 32 /\
    transfer_data s' = transfer_data s /\
    message_field s' = Some (le_digits 4 0).
Proof.
  cbv zeta.
  split; [reflexivity|]. split; [reflexivity|].
  split; [vm_compute; split; [discriminate | reflexivity]|].
  split; [vm_compute; reflexivity|].
  apply (run_bad_key_keeps_fields sample_clock
           (init_default (str "--- public key ---") (PyInt 12)
              sample_address None) O [x01; x01; x00; x00] ValueError).
  - reflexivity.
  - reflexivity.
  - vm_compute; split; [discriminate | reflexivity].
  - vm_compute; reflexivity.
Defined.

Lemma run_message_fields (clock : nat -> Z) (s : TransactionCreator)
    (n : nat) (m : pystr) (u out : bytes) :
  common_data s = [] -> transfer_data s = [] ->
  message s = Some m -> encode_utf8 m = Ok u ->
  0 < len u -> len u + 8 < 2 ^ 32 ->
  fst (run clock (s, n)) = Ok out ->
  exists ty ver pk fee a amt tag,
    message_type_tag (message_type s) = Some tag /\
    encode_utf8 (address s) = Ok a /\
    out = ty ++ ver ++ le_digits 4 (clock n) ++ le_digits 4 32 ++ pk ++
          fee ++ le_digits 4 (clock (S n) + deadline_span s) ++
          le_digits 4 40 ++ hex_ascii a ++ amt ++
          le_digits 4 (8 + len u) ++ le_digits 4 tag ++
          le_digits 4 (len u) ++ hex_ascii u /\
    len ty = 4 /\ len ver = 4 /\ len pk = 32 /\ len fee = 8 /\ len amt = 8 /\
    len out = 84 + 2 * len a + 2 * len u.
Proof.
  intros Hcd Htd Hm Hu HL0 HL Hrun.
  pose proof (encode_utf8_nonempty m u Hu HL0) as Htr.
  destruct (run_inv clock (s, n) out Hrun)
    as (s1 & n1 & h & b & H1 & Hh & Hb & ->).
  rewrite run_step1_message in H1 by (rewrite Hm; exact Htr).
  destruct (set_message_info_state s s1 n n1 m u Hm Hu HL H1)
    as (tag & Htag & -> & ->).
  destruct (common_header_inv clock _ n h Hh)
    as (ty & ver & pk & fee & _ & _ & _ & _ & _ & _ & -> & Lty & Lver & Lpk & Lfee).
  destruct (transfer_payload_inv _ b Hb)
    as (addr & amt & mf & msg & Haddr & _ & Hmf & Hmsg & -> & Lamt).
  cbn [message message_field message_type payload payload_length
       set_payload_length set_message_field set_payload set_message_type
       common_data transfer_data deadline_span] in *.
  rewrite Hm, Htr in Hmsg. destruct Hmsg as (t & pl & p & Et & Epl & Ep & ->).
  assert (t = le_digits 4 tag) as -> by congruence.
  assert (pl = le_digits 4 (len u)) as -> by congruence.
  assert (p = hex_ascii u) as -> by congruence.
  assert (mf = le_digits 4 (8 + len u)) as -> by congruence.
  clear Et Epl Ep Hmf.
  unfold get_address in Haddr.
  cbn [address set_payload_length set_message_field set_payload
       set_message_type] in Haddr.
  destruct (encode_utf8 (address s)) as [a|e] eqn:Ea; [|discriminate].
  cbn [rbind] in Haddr. rewrite encode_utf8_bytes_hex in Haddr.
  assert (addr = hex_ascii a) as -> by congruence.
  exists ty, ver, pk, fee, a, amt, tag.
  rewrite Hcd, Htd. cbn [app].
  split; [exact Htag|]. split; [reflexivity|]. split.
  { rewrite <- !app_assoc. reflexivity. }
  repeat match goal with |- _ /\ _ => split end; try assumption.
  rewrite !len_app, !le_digits_len, !hex_ascii_length.
  rewrite Lty, Lver, Lpk, Lfee, Lamt. lia.
Qed.

(** X20.  For an object with empty buffers and a message of [L > 0]
    UTF-8 bytes, what [run] returns is, in this order, the type (4
    bytes), the version (4), the timestamp (4), the number 32 (4), the
    public key (32), the fee (8), the deadline (4), the number 40 (4),
    the hexadecimal digits of the address, the amount (8), the number
    [8 + L] (4), the tag of the message type (4), the number [L] (4) and
    the [2 * L] hexadecimal digits of the message: [84 + 2 * A + 2 * L]
    bytes, [A] being the UTF-8 length of the address. *)
Theorem run_layout_message (clock : nat -> Z) (s : TransactionCreator)
    (n : nat) (m : pystr) (u out : bytes) :
  common_data s = [] -> transfer_data s = [] ->
  message s = Some m -> encode_utf8 m = Ok u ->
  0 < len u -> len u + 8 < 2 ^ 32 ->
  fst (run clock (s, n)) = Ok out ->
  exists ty ver pk fee a amt tag,
    message_type_tag (message_type s) = Some tag /\
    encode_utf8 (address s) = Ok a /\
    out = ty ++ ver ++ le_digits 4 (clock n) ++ le_digits 4 32 ++ pk ++
          fee ++ le_digits 4 (clock (S n) + deadline_span s) ++
          le_digits 4 40 ++ hex_ascii a ++ amt ++
          le_digits 4 (8 + len u) ++ le_digits 4 tag ++
          le_digits 4 (len u) ++ hex_ascii u /\
    len ty = 4 /\ len ver = 4 /\ len pk = 32 /\ len fee = 8 /\ len amt = 8 /\
    len out = 84 + 2 * len a + 2 * len u.
Proof. exact (run_message_fields clock s n m u out). Qed.

(** X21.  Without a message, [None] or the empty string, [run] looks
    neither at [message_type] nor at which of the two the message is:
    two objects built from the same other arguments give the same
    result, bytes or exception. *)
Theorem run_no_message_ignores_type (clock : nat -> Z)
    (pk : pystr) (a : pynum) (addr : pystr) (msg msg' : option pystr)
    (mt mt' kind net : pystr) (n : nat) :
  truthy msg = false -> truthy msg' = false ->
  fst (run clock (init pk a addr msg mt kind net, n)) =
  fst (run clock (init pk a addr msg' mt' kind net, n)).
Proof.
  intros Hm Hm'. rewrite !run_fst.
  rewrite !run_step1_no_message by assumption.
  unfold common_header, transfer_payload, get_transaction_type, get_version,
    get_publickey_length, get_publickey, calc_fee, transfer_fee, message_fee,
    get_address_length, get_address, get_amount.
  cbn [message message_type transaction_type network_type public_key amount
       address nem_to_micronem deadline_span common_data transfer_data
       message_field payload payload_length set_message_field init].
  rewrite Hm, Hm'. reflexivity.
Qed.

Lemma run_no_message_ignores_type_witness :
  truthy None = false /\ truthy (Some []) = false /\
  fst (run sample_clock
         (init sample_public_key (PyInt 12) sample_address None
            (str "plane") (str "transfer") (str "test"), O)) =
  fst (run sample_clock
         (init sample_public_key (PyInt 12) sample_address (Some [])
            (str "plain") (str "transfer") (str "test"), O)).
Proof.
  split; [reflexivity|]. split; [reflexivity|].
  apply (run_no_message_ignores_type sample_clock sample_public_key
           (PyInt 12) sample_address None (Some []) (str "plane")
           (str "plain") (str "transfer") (str "test") O); reflexivity.
Defined.

Lemma run_layout_message_witness :
  let s := sample_request (Some (str "NEM")) in
  let out := match fst (run sample_clock (s, O)) with
             | Ok b => b
             | Err _ => []
             end in
  let u := [x4e; x45; x4d] in
  common_data s = [] /\ transfer_data s = [] /\
  message s = Some (str "NEM") /\ encode_utf8 (str "NEM") = Ok u /\
  0 < len u /\ len u + 8 < 2 ^ 32 /\
  fst (run sample_clock (s, O)) = Ok out /\
  exists a, encode_utf8 (address s) = Ok a /\
            len out = 84 + 2 * len a + 2 * len u.
Proof.
  cbv zeta.
  split; [reflexivity|]. split; [reflexivity|]. split; [reflexivity|].
  split; [reflexivity|]. split; [reflexivity|]. split; [reflexivity|].
  split; [vm_compute; reflexivity|].
  destruct (run_layout_message sample_clock
              (sample_request (Some (str "NEM"))) O (str "NEM")
              [x4e; x45; x4d]
              (match fst (run sample_clock
                            (sample_request (Some (str "NEM")), O)) with
               | Ok b => b
               | Err _ => []
               end)
              eq_refl eq_refl eq_refl eq_refl eq_refl eq_refl
              ltac:(vm_compute; reflexivity))
    as (ty & ver & pk & fee & a & amt & tag & _ & Ha & _ & _ & _ & _ & _ & _ & Hl).
  exists a. split; [exact Ha | exact Hl].
Defined.

Lemma TRANSACTION_TYPE_range (kind : pystr) (code : Z) :
  dict_get TRANSACTION_TYPE kind = Ok code -> 0 <= code < 2 ^ 32.
Proof.
  intros H. apply dict_get_In in H.
  unfold TRANSACTION_TYPE in H. cbn [In] in H.
  repeat match goal with
         | H : _ \/ _ |- _ => destruct H as [H|H]
         | H : False |- _ => contradiction
         end;
    injection H as _ <-; lia.
Qed.

(** X22.  [run] returns for a request with a message when the fields can
    be encoded: a message type ['plane'] or ['encryption'], a kind of
    the table, a key of 1 to 32 pairs of hexadecimal digits, an [int]
    amount from 0 to 9007199254, an address and a message that can be
    encoded in UTF-8, the message of 1 to 1055 bytes, and two readings
    of the clock such that timestamp and deadline fit 32 bits.  The
    result has [84 + 2 * A + 2 * L] bytes, for [A] bytes of address and
    [L] of message. *)
Theorem run_message_returns (clock : nat -> Z) (n : nat)
    (pk : pystr) (z : Z) (addr m mt kind net : pystr) (tag code : Z)
    (key a u : bytes) :
  message_type_tag (AStr mt) = Some tag ->
  dict_get TRANSACTION_TYPE kind = Ok code ->
  spec_hex_decode pk = Some key -> (0 < length key <= 32)%nat ->
  0 <= z <= 9007199254 ->
  encode_utf8 addr = Ok a ->
  encode_utf8 m = Ok u -> 0 < len u < 1056 ->
  0 <= clock n < 2 ^ 32 ->
  0 <= clock (S n) + 3600 < 2 ^ 32 ->
  exists out,
    fst (run clock (init pk (PyInt z) addr (Some m) mt kind net, n)) = Ok out /\
    len out = 84 + 2 * len a + 2 * len u.
Proof.
  intros Htag Hkind Hkey Hlen Hz Ha Hu HL Ht Hd.
  set (s := init pk (PyInt z) addr (Some m) mt kind net).
  pose proof (encode_utf8_nonempty m u Hu ltac:(lia)) as Htr.
  assert (H1 : run_step1 (s, n) =
               (Ok tt,
                (set_payload_length (le_digits 4 (len u))
                   (set_message_field (le_digits 4 (8 + len u))
                      (set_payload (hex_ascii u)
                         (set_message_type (ABytes (le_digits 4 tag)) s))),
                 n))).
  { rewrite run_step1_message by exact Htr.
    apply (set_message_info_ok s n tag m u); try assumption;
      try reflexivity. lia. }
  set (s1 := set_payload_length _ _) in H1.
  assert (Hfee : exists fee, calc_fee s1 = Ok fee).
  { assert (Hs : set_message_info (s, n) = (Ok tt, (s1, n))).
    { rewrite <- H1. symmetry. apply run_step1_message. exact Htr. }
    rewrite (calc_fee_after_message s s1 n n z m u eq_refl ltac:(lia) eq_refl
               eq_refl Hu HL Hs).
    assert (H0 : 0 <= len u / 32) by (apply Z.div_pos; lia).
    assert (H2 : len u / 32 < 33) by (apply Z.div_lt_upper_bound; lia).
    pose proof (forallb_zrange _ 1 25 (Z.max 1 (Z.min 25 (z / 10000)))
                  fee_table_message ltac:(lia)) as T1.
    cbv beta in T1.
    pose proof (forallb_zrange _ 1 33 (1 + len u / 32) T1 ltac:(lia)) as T2.
    cbv beta in T2.
    destruct (fee_in_true _ _ _ _ T2) as (v & -> & Hv).
    cbn [rbind].
    destruct (fee_field v
                ltac:(destruct (_ =? 41); lia)) as (-> & _ & _).
    eexists. reflexivity. }
  destruct Hfee as (fee & Hfee).
  destruct (get_version_total s1) as (ver & Hver & _).
  pose proof (TRANSACTION_TYPE_range kind code Hkind) as Hcode.
  assert (Hh : exists h, common_header clock s1 n = Ok h).
  { unfold common_header, get_transaction_type, get_publickey_length.
    cbn [transaction_type s1 s set_payload_length set_message_field
         set_payload set_message_type init].
    rewrite Hkind. cbn [rbind].
    rewrite (proj1 (convert_number_to_byte_4 code Hcode)). cbn [rbind].
    rewrite Hver. cbn [rbind].
    rewrite (proj1 (convert_number_to_byte_4 (clock n) Ht)). cbn [rbind].
    rewrite (proj1 (convert_number_to_byte_4 32 ltac:(lia))). cbn [rbind].
    rewrite (get_publickey_hex s1 key Hkey Hlen). cbn [rbind].
    rewrite Hfee. cbn [rbind].
    cbn [deadline_span s1 s set_payload_length set_message_field
         set_payload set_message_type init].
    rewrite (proj1 (convert_number_to_byte_4 (clock (S n) + 3600) Hd)).
    cbn [rbind]. eexists. reflexivity. }
  destruct Hh as (h & Hh).
  assert (Hb : exists b, transfer_payload s1 = Ok b).
  { unfold transfer_payload, get_address_length.
    rewrite (proj1 (convert_number_to_byte_4 40 ltac:(lia))). cbn [rbind].
    rewrite (get_address_ok s1 a Ha). cbn [rbind].
    rewrite (get_amount_exact s1 z eq_refl Hz eq_refl). cbn [rbind].
    cbn [message message_field message_type payload payload_length s1 s
         set_payload_length set_message_field set_payload set_message_type
         init attr as_bytes rbind].
    rewrite Htr. cbn [rbind]. eexists. reflexivity. }
  destruct Hb as (b & Hb).
  pose proof (run_ok clock (s, n) s1 n h b H1 Hh Hb) as Hrun.
  eexists. split; [rewrite Hrun; reflexivity|].
  destruct (run_message_fields clock s n m u _ eq_refl eq_refl eq_refl Hu
              ltac:(lia) ltac:(lia) ltac:(rewrite Hrun; reflexivity))
    as (ty & ver' & pk' & fee' & a' & amt & tag' & _ & Ha' & _ & _ & _ & _ & _ & _ & Hlen').
  assert (a' = a).
  { cbn [address s init] in Ha'. congruence. }
  subst a'. exact Hlen'.
Qed.

Lemma run_message_returns_witness :
  let key := match spec_hex_decode sample_public_key with
             | Some b => b
             | None => []
             end in
  let a := match encode_utf8 sample_address with
           | Ok b => b
           | Err _ => []
           end in
  let u := [x4e; x45; x4d] in
  message_type_tag (AStr (str "plane")) = Some 1 /\
  dict_get TRANSACTION_TYPE (str "transfer") = Ok 257 /\
  spec_hex_decode sample_public_key = Some key /\
  (0 < length key <= 32)%nat /\
  0 <= 12 <= 9007199254 /\
  encode_utf8 sample_address = Ok a /\
  encode_utf8 (str "NEM") = Ok u /\ 0 < len u < 1056 /\
  0 <= sample_clock O < 2 ^ 32 /\
  0 <= sample_clock 1%nat + 3600 < 2 ^ 32 /\
  exists out,
    fst (run sample_clock (sample_request (Some (str "NEM")), O)) = Ok out /\
    len out = 84 + 2 * len a + 2 * len u.
Proof.
  cbv zeta.
  assert (Hk : (0 < length match spec_hex_decode sample_public_key with
                           | Some b => b
                           | None => []
                           end <= 32)%nat)
    by (vm_compute; split; apply le_n_S, Nat.le_0_l || apply le_n).
  assert (HL : 0 < len [x4e; x45; x4d] < 1056)
    by (vm_compute; split; reflexivity).
  assert (Ht : 0 <= sample_clock O < 2 ^ 32)
    by (vm_compute; split; [discriminate | reflexivity]).
  assert (Hd : 0 <= sample_clock 1%nat + 3600 < 2 ^ 32)
    by (vm_compute; split; [discriminate | reflexivity]).
  repeat match goal with |- _ /\ _ => split end;
    try reflexivity; try exact (proj1 Hk); try exact (proj2 Hk);
    try exact (proj1 HL); try exact (proj2 HL);
    try exact (proj1 Ht); try exact (proj2 Ht);
    try exact (proj1 Hd); try exact (proj2 Hd); try lia.
  apply (run_message_returns sample_clock O sample_public_key 12
           sample_address (str "NEM") (str "plane") (str "transfer")
           (str "test") 1 257
           (match spec_hex_decode sample_public_key with
            | Some b => b
            | None => []
            end)
           (match encode_utf8 sample_address with
            | Ok b => b
            | Err _ => []
            end)
           [x4e; x45; x4d]); try reflexivity; try assumption; lia.
Defined.

(** X23.  The message type selects the tag and nothing else: when [run]
    returns for a message with the type ['plane'], it returns for the
    same arguments with the type ['encryption'] the same bytes but for
    the 4 bytes of the tag, 2 in the place of 1.  The payload is not
    encrypted. *)
Theorem message_type_changes_tag_only (clock : nat -> Z) (n : nat)
    (pk : pystr) (a : pynum) (addr m kind net : pystr) (out : bytes) :
  truthy (Some m) = true ->
  fst (run clock (init pk a addr (Some m) (str "plane") kind net, n))
    = Ok out ->
  exists pre post,
    out = pre ++ le_digits 4 1 ++ post /\
    fst (run clock (init pk a addr (Some m) (str "encryption") kind net, n))
      = Ok (pre ++ le_digits 4 2 ++ post).
Proof.
  intros Htr Hrun.
  set (s := init pk a addr (Some m) (str "plane") kind net) in *.
  set (s' := init pk a addr (Some m) (str "encryption") kind net).
  destruct (run_inv clock (s, n) out Hrun)
    as (s1 & n1 & h & b & H1 & Hh & Hb & ->).
  rewrite run_step1_message in H1 by exact Htr.
  rewrite set_message_info_eq in H1.
  change (message_type_tag (message_type s)) with (Some 1) in H1.
  cbv zeta iota in H1.
  change (message s) with (Some m) in H1.
  destruct (m0 <- attr (Some m);; u <- encode_utf8 m0;; encode_utf8 (bytes_hex u))%result
    as [p|] eqn:Ep; [|discriminate].
  destruct (q <- int_truediv (len p) 2;; int_of_float q)%result
    as [L|] eqn:EL; [|discriminate].
  destruct (convert_number_to_byte (4 + 4 + L) 4) as [mf|] eqn:Emf;
    [|discriminate].
  destruct (convert_number_to_byte L 4) as [pl|] eqn:Epl; [|discriminate].
  pose proof (f_equal (fun x => fst (snd x)) H1) as Es1.
  pose proof (f_equal (fun x => snd (snd x)) H1) as En1.
  cbn [fst snd] in Es1, En1. subst s1 n1. clear H1.
  set (s1 := set_payload_length pl
               (set_message_field mf
                  (set_payload p
                     (set_message_type (ABytes (le_digits 4 1)) s)))) in *.
  set (s1' := set_payload_length pl
                (set_message_field mf
                   (set_payload p
                      (set_message_type (ABytes (le_digits 4 2)) s')))).
  assert (H1' : run_step1 (s', n) = (Ok tt, (s1', n))).
  { rewrite run_step1_message by exact Htr.
    rewrite set_message_info_eq.
    change (message_type_tag (message_type s')) with (Some 2).
    cbv zeta iota. change (message s') with (Some m).
    rewrite Ep, EL, Emf, Epl. reflexivity. }
  assert (Hh' : common_header clock s1' n = Ok h).
  { rewrite <- Hh.
    unfold common_header, get_transaction_type, get_version,
      get_publickey_length, get_publickey, calc_fee, transfer_fee,
      message_fee.
    reflexivity. }
  destruct (transfer_payload_inv s1 b Hb)
    as (ad & amt & mf0 & msg & Haddr & Hamt & Hmf & Hmsg & -> & _).
  cbn [message message_field message_type payload payload_length s1 s
       set_payload_length set_message_field set_payload set_message_type
       init] in Hmf, Hmsg.
  rewrite Htr in Hmsg. destruct Hmsg as (t & pl0 & p0 & Et & Epl0 & Ep0 & ->).
  assert (t = le_digits 4 1) as -> by congruence.
  assert (pl0 = pl) as -> by congruence.
  assert (p0 = p) as -> by congruence.
  assert (mf0 = mf) as -> by congruence.
  assert (Hb' : transfer_payload s1' =
                Ok (le_digits 4 40 ++ ad ++ amt ++ mf ++
                    le_digits 4 2 ++ pl ++ p)).
  { unfold transfer_payload, get_address_length.
    rewrite (proj1 (convert_number_to_byte_4 40 ltac:(lia))). cbn [rbind].
    change (get_address s1') with (get_address s1). rewrite Haddr.
    cbn [rbind].
    change (get_amount s1') with (get_amount s1). rewrite Hamt.
    cbn [rbind].
    cbn [message message_field message_type payload payload_length s1' s'
         set_payload_length set_message_field set_payload set_message_type
         init attr as_bytes rbind].
    rewrite Htr. reflexivity. }
  rewrite (run_ok clock (s', n) s1' n h _ H1' Hh' Hb').
  cbn [fst common_data transfer_data s1 s1' s s' set_payload_length
       set_message_field set_payload set_message_type init app].
  exists (h ++ le_digits 4 40 ++ ad ++ amt ++ mf), (pl ++ p).
  split; [|f_equal]; rewrite <- !app_assoc; reflexivity.
Qed.

Lemma message_type_changes_tag_only_witness :
  let out := match fst (run sample_clock
                          (sample_request (Some (str "NEM")), O)) with
             | Ok b => b
             | Err _ => []
             end in
  truthy (Some (str "NEM")) = true /\
  fst (run sample_clock
         (init sample_public_key (PyInt 12) sample_address
            (Some (str "NEM")) (str "plane") (str "transfer") (str "test"),
          O)) = Ok out /\
  exists pre post,
    out = pre ++ le_digits 4 1 ++ post /\
    fst (run sample_clock
           (init sample_public_key (PyInt 12) sample_address
              (Some (str "NEM")) (str "encryption") (str "transfer")
              (str "test"), O))
      = Ok (pre ++ le_digits 4 2 ++ post).
Proof.
  cbv zeta. split; [reflexivity|]. split; [vm_compute; reflexivity|].
  apply (message_type_changes_tag_only sample_clock O sample_public_key
           (PyInt 12) sample_address (str "NEM") (str "transfer")
           (str "test")
           (match fst (run sample_clock
                         (sample_request (Some (str "NEM")), O)) with
            | Ok b => b
            | Err _ => []
            end));
    [reflexivity | vm_compute; reflexivity].
Defined.

(** X24.  An object built with the defaults of [__init__] is a plain
    transfer on the test network: whatever the key, the amount, the
    address, the message and the clock, when [run] returns, the first 4
    bytes read as the type 0x0101, the next 4 as the version
    0x98000002, and with a message the 4 bytes after the message field
    length, at the offset 76 plus the length of the address field, read
    as the tag 1. *)
Theorem run_defaults (clock : nat -> Z) (n : nat) (pk : pystr) (a : pynum)
    (addr : pystr) (msg : option pystr) (out : bytes) :
  fst (run clock (init_default pk a addr msg, n)) = Ok out ->
  from_bytes_little (firstn 4 out) = 0x0101 /\
  from_bytes_little (firstn 4 (skipn 4 out)) = 0x98000002 /\
  (truthy msg = true ->
   exists ad,
     get_address (init_default pk a addr msg) = Ok ad /\
     from_bytes_little (firstn 4 (skipn (76 + length ad) out)) = 1).
Proof.
  intros Hrun.
  set (s := init_default pk a addr msg) in *.
  destruct (run_inv clock (s, n) out Hrun)
    as (s1 & n1 & h & b & H1 & Hh & Hb & ->).
  pose proof (run_step1_preserves s n) as Hp. rewrite H1 in Hp.
  cbn [fst snd] in Hp.
  destruct Hp as ((_ & _ & _ & _ & Haddr & Hmsg & Hkind & Hnet) & Hc & Htd & ->).
  destruct (common_header_inv clock s1 n h Hh)
    as (ty & ver & pk' & fee & Hty & Hver & _ & _ & _ & _ & -> & _ & _ & Lpk & Lfee).
  assert (Ety : ty = [x01; x01; x00; x00]).
  { unfold get_transaction_type in Hty. rewrite Hkind in Hty.
    change (Ok [x01; x01; x00; x00] = Ok ty) in Hty. congruence. }
  assert (Ever : ver = [x02; x00; x00; x98]).
  { unfold get_version in Hver. rewrite Hkind, Hnet in Hver.
    change (Ok [x02; x00; x00; x98] = Ok ver) in Hver. congruence. }
  subst ty ver. rewrite Hc, Htd.
  change (common_data s) with (@nil byte).
  change (transfer_data s) with (@nil byte).
  split; [reflexivity|]. split; [reflexivity|].
  intros Htr.
  destruct (transfer_payload_inv s1 b Hb)
    as (ad & amt & mf & m & Had & _ & Hmf & Hm & -> & Lamt).
  rewrite Hmsg in Hm. change (message s) with msg in Hm. rewrite Htr in Hm.
  destruct Hm as (t & pl & p & Et & _ & _ & ->).
  destruct (run_step1_prepared s s1 n n H1) as (_ & mf' & Hmf' & Lmf).
  assert (mf' = mf) by congruence. subst mf'.
  assert (Ht : t = le_digits 4 1).
  { rewrite run_step1_message in H1 by exact Htr.
    rewrite set_message_info_eq in H1.
    change (message_type_tag (message_type s)) with (Some 1) in H1.
    cbv zeta iota in H1.
    destruct (_ <- attr (message s);; _)%result; [|discriminate].
    destruct (_ <- int_truediv _ 2;; _)%result; [|discriminate].
    destruct (convert_number_to_byte (4 + 4 + _) 4); [|discriminate].
    destruct (convert_number_to_byte _ 4); [|discriminate].
    pose proof (f_equal (fun x => message_type (fst (snd x))) H1) as E.
    cbn [fst snd message_type set_payload_length set_message_field
         set_payload set_message_type] in E.
    congruence. }
  subst t.
  exists ad. split.
  - unfold get_address in *. rewrite <- Haddr. exact Had.
  - rewrite !app_nil_l.
    replace (([x01; x01; x00; x00] ++ [x02; x00; x00; x98] ++
              le_digits 4 (clock n) ++ le_digits 4 32 ++ pk' ++ fee ++
              le_digits 4 (clock (S n) + deadline_span s1)) ++
             le_digits 4 40 ++ ad ++ amt ++ mf ++
             le_digits 4 1 ++ pl ++ p)
      with ((([x01; x01; x00; x00] ++ [x02; x00; x00; x98] ++
              le_digits 4 (clock n) ++ le_digits 4 32 ++ pk' ++ fee ++
              le_digits 4 (clock (S n) + deadline_span s1)) ++
             le_digits 4 40 ++ ad ++ amt ++ mf) ++
            le_digits 4 1 ++ pl ++ p)
      by (rewrite <- !app_assoc; reflexivity).
    rewrite field_at; [reflexivity | | apply le_digits_length].
    rewrite !length_app, !le_digits_length.
    rewrite (len_length pk' 32 Lpk), (len_length fee 8 Lfee),
      (len_length amt 8 Lamt), (len_length mf 4 Lmf).
    cbn [length]. lia.
Qed.

Lemma run_defaults_witness :
  let out := match fst (run sample_clock
                          (sample_request (Some (str "NEM")), O)) with
             | Ok b => b
             | Err _ => []
             end in
  fst (run sample_clock
         (init_default sample_public_key (PyInt 12) sample_address
            (Some (str "NEM")), O)) = Ok out /\
  from_bytes_little (firstn 4 out) = 0x0101 /\
  from_bytes_little (firstn 4 (skipn 4 out)) = 0x98000002.
Proof.
  cbv zeta. split; [vm_compute; reflexivity|].
  destruct (run_defaults sample_clock O sample_public_key (PyInt 12)
              sample_address (Some (str "NEM"))
              (match fst (run sample_clock
                            (sample_request (Some (str "NEM")), O)) with
               | Ok b => b
               | Err _ => []
               end)
              ltac:(vm_compute; reflexivity)) as (H1 & H2 & _).
  split; [exact H1 | exact H2].
Defined.

(** ** The object after [run] *)

(** What Step.1 leaves in the object when it does not raise *)



(** X25.  After a [run] that returns, the bytes returned are
    [common_data] followed by [transfer_data] as the object now holds
    them; [common_data] has grown by exactly 60 bytes and
    [transfer_data] by 16 or more; what [__init__] took from its
    arguments is unchanged, but for [message_type], and the clock has
    been read twice. *)
Theorem run_final_state (clock : nat -> Z) (s s' : TransactionCreator)
    (n n' : nat) (out : bytes) :
  run clock (s, n) = (Ok out, (s', n')) ->
  out = common_data s' ++ transfer_data s' /\
  (exists h, common_data s' = common_data s ++ h /\ len h = 60) /\
  (exists b, transfer_data s' = transfer_data s ++ b /\ 16 <= len b) /\
  same_request s s' /\
  n' = S (S n).
Proof.
  intros Hrun.
  destruct (run_inv clock (s, n) out ltac:(rewrite Hrun; reflexivity))
    as (s1 & n1 & h & b & H1 & Hh & Hb & ->).
  rewrite (run_ok clock (s, n) s1 n1 h b H1 Hh Hb) in Hrun.
  pose proof (run_step1_preserves s n) as Hp. rewrite H1 in Hp.
  cbn [fst snd] in Hp. destruct Hp as (Hsame & Hc & Htd & ->).
  assert (Hs' : s' = set_transfer_data (transfer_data s1 ++ b)
                       (set_common_data (common_data s1 ++ h) s1)).
  { pose proof (f_equal (fun x => fst (snd x)) Hrun) as E.
    cbn [fst snd] in E. symmetry. exact E. }
  assert (Hn' : n' = S (S n)).
  { pose proof (f_equal (fun x => snd (snd x)) Hrun) as E.
    cbn [fst snd] in E. symmetry. exact E. }
  subst s'.
  cbn [common_data transfer_data set_transfer_data set_common_data].
  split; [reflexivity|]. split; [|split; [|split; [|exact Hn']]].
  - exists h. split; [rewrite Hc; reflexivity|].
    destruct (common_header_inv clock s1 n h Hh)
      as (ty & ver & pk & fee & _ & _ & _ & _ & _ & _ & -> & Lty & Lver & Lpk & Lfee).
    rewrite !len_app, !le_digits_len. lia.
  - exists b. split; [rewrite Htd; reflexivity|].
    destruct (transfer_payload_inv s1 b Hb)
      as (addr & amt & mf & msg & _ & _ & Hmf & _ & -> & Lamt).
    rewrite !len_app, le_digits_len.
    destruct (run_step1_prepared s s1 n n H1) as (_ & mf' & Hmf' & Lmf).
    assert (mf' = mf) by congruence. subst mf'.
    unfold len in *. lia.
  - destruct Hsame as (Q1 & Q2 & Q3 & Q4 & Q5 & Q6 & Q7 & Q8).
    repeat split; assumption.
Qed.

Lemma run_final_state_witness :
  let r := run sample_clock (sample_request None, O) in
  let out := match fst r with Ok b => b | Err _ => [] end in
  let s' := fst (snd r) in
  let n' := snd (snd r) in
  run sample_clock (sample_request None, O) = (Ok out, (s', n')) /\
  out = common_data s' ++ transfer_data s' /\
  (exists h, common_data s' = common_data (sample_request None) ++ h /\
             len h = 60) /\
  n' = 2%nat.
Proof.
  cbv zeta.
  assert (H : run sample_clock (sample_request None, O) =
              (Ok match fst (run sample_clock (sample_request None, O)) with
                  | Ok b => b
                  | Err _ => []
                  end,
               (fst (snd (run sample_clock (sample_request None, O))),
                snd (snd (run sample_clock (sample_request None, O))))))
    by (vm_compute; reflexivity).
  split; [exact H|].
  destruct (run_final_state sample_clock (sample_request None)
              (fst (snd (run sample_clock (sample_request None, O))))
              O
              (snd (snd (run sample_clock (sample_request None, O))))
              (match fst (run sample_clock (sample_request None, O)) with
               | Ok b => b
               | Err _ => []
               end)
              H)
    as (H1 & H2 & _ & _ & H5).
  split; [exact H1|]. split; [exact H2 | exact H5].
Defined.

(** ** The exceptions of an encode *)

Lemma to_bytes_little_error (v w : Z) (e : exn) :
  to_bytes_little v w = Err e -> conversion_error e.
Proof.
  unfold to_bytes_little, conversion_error.
  destruct (w <? 0); [intros [= <-]; auto|].
  destruct (v <? 0); [intros [= <-]; auto|].
  destruct (_ <=? v); [intros [= <-]; auto | discriminate].
Qed.

Lemma float_of_int_error (z : Z) (e : exn) :
  float_of_int z = Err e -> conversion_error e.
Proof.
  unfold float_of_int, conversion_error.
  destruct (binary_normalize _ _ _ _ _); try discriminate.
  intros [= <-]. auto.
Qed.

Lemma int_of_float_error (f : float) (e : exn) :
  int_of_float f = Err e -> conversion_error e.
Proof.
  unfold conversion_error.
  destruct f; cbn [int_of_float]; try discriminate; intros [= <-]; auto.
Qed.

Lemma int_truediv_error (a b : Z) (e : exn) :
  b <> 0 -> int_truediv a b = Err e -> conversion_error e.
Proof.
  intros Hb. unfold int_truediv, conversion_error.
  destruct (Z.eqb_spec b 0); [contradiction|].
  destruct (fdiv _ _); try discriminate. intros [= <-]. auto.
Qed.

Lemma py_mul_error (x y : pynum) (e : exn) :
  py_mul x y = Err e -> conversion_error e.
Proof.
  destruct x as [a|f], y as [b|g]; cbn [py_mul as_float rbind];
    try discriminate; intros H.
  - destruct (float_of_int a) eqn:E; [discriminate|].
    injection H as <-. exact (float_of_int_error _ _ E).
  - destruct (float_of_int b) eqn:E; [discriminate|].
    injection H as <-. exact (float_of_int_error _ _ E).
Qed.

Lemma py_add_error (x y : pynum) (e : exn) :
  py_add x y = Err e -> conversion_error e.
Proof.
  destruct x as [a|f], y as [b|g]; cbn [py_add as_float rbind];
    try discriminate; intros H.
  - destruct (float_of_int a) eqn:E; [discriminate|].
    injection H as <-. exact (float_of_int_error _ _ E).
  - destruct (float_of_int b) eqn:E; [discriminate|].
    injection H as <-. exact (float_of_int_error _ _ E).
Qed.

Lemma py_int_error (x : pynum) (e : exn) :
  py_int x = Err e -> conversion_error e.
Proof.
  destruct x; cbn [py_int]; [discriminate | apply int_of_float_error].
Qed.

(** A division by [base_amount] does not raise [ZeroDivisionError]. *)
Lemma py_truediv_10000_error (x : pynum) (e : exn) :
  py_truediv x (PyInt 10000) = Err e -> conversion_error e.
Proof.
  destruct x as [a|f]; cbn [py_truediv as_float rbind].
  - apply int_truediv_error. discriminate.
  - discriminate.
Qed.

Ltac conv_steps :=
  repeat match goal with
         | H : rbind _ _ = Err _ |- _ =>
             apply rbind_err_inv in H; destruct H as [H | (? & ? & H)]
         | H : float_of_int _ = Err _ |- _ =>
             exact (float_of_int_error _ _ H)
         | H : int_of_float _ = Err _ |- _ =>
             exact (int_of_float_error _ _ H)
         | H : int_truediv _ 2 = Err _ |- _ =>
             exact (int_truediv_error _ 2 _ ltac:(discriminate) H)
         | H : int_truediv _ base_message_size = Err _ |- _ =>
             exact (int_truediv_error _ base_message_size _
                      ltac:(discriminate) H)
         | H : py_truediv _ (PyInt base_amount) = Err _ |- _ =>
             exact (py_truediv_10000_error _ _ H)
         | H : py_mul _ _ = Err _ |- _ => exact (py_mul_error _ _ _ H)
         | H : py_add _ _ = Err _ |- _ => exact (py_add_error _ _ _ H)
         | H : py_int _ = Err _ |- _ => exact (py_int_error _ _ H)
         | H : convert_number_to_byte _ _ = Err _ |- _ =>
             exact (to_bytes_little_error _ _ _ H)
         | H : Ok _ = Err _ |- _ => discriminate H
         end.

Lemma transfer_fee_error (self : TransactionCreator) (e : exn) :
  transfer_fee self = Err e -> conversion_error e.
Proof. unfold transfer_fee. intros H. conv_steps. Qed.

Lemma message_fee_error (self : TransactionCreator) (e : exn) :
  prepared self -> message_fee self = Err e -> conversion_error e.
Proof.
  intros [_ Hp]. unfold message_fee.
  destruct (truthy (message self)); cbn [negb]; [|discriminate].
  destruct (Hp eq_refl) as (t & p & pl & _ & -> & _).
  cbn [attr rbind]. intros H. conv_steps.
Qed.

Lemma calc_fee_error (self : TransactionCreator) (e : exn) :
  prepared self -> calc_fee self = Err e -> conversion_error e.
Proof.
  intros Hp. unfold calc_fee. intros H. conv_steps.
  - exact (transfer_fee_error _ _ H).
  - exact (message_fee_error _ _ Hp H).
Qed.

Lemma common_header_error (clock : nat -> Z) (s : TransactionCreator)
    (n : nat) (e : exn) :
  prepared s -> common_header clock s n = Err e -> run_error e.
Proof.
  intros Hp. unfold common_header, run_error. intros H.
  apply rbind_err_inv in H. destruct H as [H | (ty & _ & H)].
  { unfold get_transaction_type in H.
    apply rbind_err_inv in H. destruct H as [H | (v & _ & H)].
    - left. clear - H. induction TRANSACTION_TYPE as [|[k x] d IH];
        cbn [dict_get] in H; [congruence|].
      destruct (pystr_eqb k _); [discriminate | auto].
    - right. right. right. exact (to_bytes_little_error _ _ _ H). }
  apply rbind_err_inv in H. destruct H as [H | (ver & _ & H)].
  { destruct (get_version_total s) as (v & Hv & _). congruence. }
  apply rbind_err_inv in H. destruct H as [H | (ts & _ & H)].
  { right. right. right. exact (to_bytes_little_error _ _ _ H). }
  apply rbind_err_inv in H. destruct H as [H | (pkl & _ & H)].
  { right. right. right. exact (to_bytes_little_error _ _ _ H). }
  apply rbind_err_inv in H. destruct H as [H | (pk & _ & H)].
  { right. right. right. unfold get_publickey in H.
    apply rbind_err_inv in H. destruct H as [H | (v & _ & H)].
    - right. exact (int_base16_error _ _ H).
    - exact (to_bytes_little_error _ _ _ H). }
  apply rbind_err_inv in H. destruct H as [H | (fee & _ & H)].
  { right. right. right. exact (calc_fee_error _ _ Hp H). }
  apply rbind_err_inv in H. destruct H as [H | (dl & _ & H)].
  { right. right. right. exact (to_bytes_little_error _ _ _ H). }
  discriminate.
Qed.

Lemma transfer_payload_error (s : TransactionCreator) (e : exn) :
  prepared s -> transfer_payload s = Err e -> run_error e.
Proof.
  intros [[mf Hmf] Hp]. unfold transfer_payload, run_error. intros H.
  apply rbind_err_inv in H. destruct H as [H | (al & _ & H)].
  { right. right. right. exact (to_bytes_little_error _ _ _ H). }
  apply rbind_err_inv in H. destruct H as [H | (addr & _ & H)].
  { right. right. left. unfold get_address in H.
    apply rbind_err_inv in H. destruct H as [H | (u & _ & H)].
    - exact (encode_utf8_error _ _ H).
    - rewrite encode_utf8_bytes_hex in H. discriminate. }
  apply rbind_err_inv in H. destruct H as [H | (amt & _ & H)].
  { right. right. right. unfold get_amount in H. conv_steps. }
  rewrite Hmf in H. cbn [attr rbind] in H.
  apply rbind_err_inv in H. destruct H as [H | (msg & _ & H)]; [|discriminate].
  destruct (truthy (message s)); [|discriminate].
  destruct (Hp eq_refl) as (t & p & pl & Et & Ep & Epl).
  rewrite Et, Ep, Epl in H. discriminate.
Qed.

Lemma run_step1_error (s : TransactionCreator) (n : nat) (e : exn)
    (st' : state) :
  run_step1 (s, n) = (Err e, st') -> run_error e.
Proof.
  unfold run_error.
  destruct (truthy (message s)) eqn:Etr.
  - rewrite (run_step1_message s n Etr), set_message_info_eq.
    destruct (message_type_tag (message_type s)) as [tag|].
    2:{ intros [= <- _]. auto. }
    cbv zeta.
    destruct (message s) as [m|]; [|discriminate].
    cbn [attr rbind].
    destruct (encode_utf8 m) as [u|e1] eqn:Eu.
    2:{ cbn [rbind]. intros [= <- _]. right. right. left.
        exact (encode_utf8_error _ _ Eu). }
    cbn [rbind]. rewrite encode_utf8_bytes_hex.
    destruct (_ <- int_truediv _ 2;; _)%result as [L|e2] eqn:EL.
    2:{ intros [= <- _]. right. right. right. conv_steps. }
    destruct (convert_number_to_byte (4 + 4 + L) 4) as [mf|e3] eqn:E4.
    2:{ intros [= <- _]. right. right. right.
        exact (to_bytes_little_error _ _ _ E4). }
    destruct (convert_number_to_byte L 4) as [pl|e4] eqn:E5; [discriminate|].
    intros [= <- _]. right. right. right.
    exact (to_bytes_little_error _ _ _ E5).
  - rewrite (run_step1_no_message s n Etr). discriminate.
Qed.

(** X26.  Whatever the object, [run] raises nothing but [KeyError], the
    exception of an invalid message type, [UnicodeEncodeError],
    [OverflowError] and [ValueError]: never [ZeroDivisionError],
    [AttributeError] or [TypeError]. *)
Theorem run_exceptions (clock : nat -> Z) (s : TransactionCreator) (n : nat)
    (e : exn) :
  fst (run clock (s, n)) = Err e ->
  run_error e /\
  e <> ZeroDivisionError /\ e <> AttributeError /\ e <> TypeError.
Proof.
  intros H.
  assert (Hr : run_error e).
  { rewrite run_fst in H.
    destruct (run_step1 (s, n)) as [[[]|e1] [s1 n1]] eqn:E1.
    - destruct (run_step1_prepared s s1 n n1 E1) as [Hp _].
      apply rbind_err_inv in H. destruct H as [H | (h & _ & H)].
      + exact (common_header_error clock s1 n1 e Hp H).
      + apply rbind_err_inv in H. destruct H as [H | (b & _ & H)];
          [|discriminate].
        exact (transfer_payload_error s1 e Hp H).
    - injection H as <-. exact (run_step1_error s n e1 _ E1). }
  split; [exact Hr|].
  unfold run_error, conversion_error in Hr.
  repeat split; intros ->;
    repeat match goal with H : _ \/ _ |- _ => destruct H as [H|H] end;
    discriminate.
Qed.

Lemma run_exceptions_witness :
  fst (run sample_clock
         (init_default (str "--- public key ---") (PyInt 12)
            sample_address None, O)) = Err ValueError /\
  run_error ValueError /\
  ValueError <> ZeroDivisionError /\ ValueError <> AttributeError /\
  ValueError <> TypeError.
Proof.
  split; [vm_compute; reflexivity|].
  apply (run_exceptions sample_clock
           (init_default (str "--- public key ---") (PyInt 12)
              sample_address None) O ValueError).
  vm_compute; reflexivity.
Defined.
